(** * Quiz backend: scoring, public view and attempt lifecycle

    A shallow embedding of [backend/main.py] (with the document shapes of
    [backend/schemas.py] and the store helper of [backend/database.py]).

    The handlers work on untyped JSON/BSON documents, so documents are
    modelled as trees of Python values and every Python operation that can
    raise is modelled with the exception it raises.  A handler is a
    computation on the store that returns a value or raises.

    What lies outside the repository is modelled as follows: the document
    store (MongoDB behind pymongo) is a finite map from collection names to
    lists of documents, with the operations the handlers call; the readings
    of the clock and of the random generator are explicit arguments; the
    JWT library and the password hash are section variables.  The two
    diagnostic routes are not embedded. *)

From Stdlib Require Import ZArith NArith String Ascii List Bool Lia.
From stdpp Require Import base option list strings gmap.

Open Scope Z_scope.
Open Scope string_scope.
Open Scope list_scope.

(** ** Python values *)

(** Documents are JSON trees as Python sees them.  Numbers are integers
    ([schemas.py] declares [points], [timeLimit] and [version] as [int]);
    [VDate] is a [datetime] and [VOid] a [bson.ObjectId], both of which occur
    in stored documents.  A [float], which the request models let through
    inside [questions], [answers] and [meta], is not a value of this
    model: the statements below are about documents without one. *)
Unset Elimination Schemes.
Inductive value : Type :=
| VNone
| VBool (b : bool)
| VInt (n : Z)
| VStr (s : string)
| VList (l : list value)
| VDict (d : list (string * value))
| VDate (t : Z)
| VOid (o : N).
Set Elimination Schemes.

(** A [dict] is an association list in insertion order.  The entry that
    counts for a key is the first one; [dict_pop] and [dict_set] keep that
    reading (a Python dict has one entry per key). *)
Definition dict : Type := list (string * value).

Fixpoint dict_get (k : string) (d : dict) : option value :=
  match d with
  | [] => None
  | (k', v) :: d' => if String.eqb k k' then Some v else dict_get k d'
  end.

Fixpoint dict_pop (k : string) (d : dict) : dict :=
  match d with
  | [] => []
  | (k', v) :: d' =>
      if String.eqb k k' then dict_pop k d' else (k', v) :: dict_pop k d'
  end.

(** [d[k] = v]: an existing key keeps its position, a new key goes last. *)
Fixpoint dict_set (k : string) (v : value) (d : dict) : dict :=
  match d with
  | [] => [(k, v)]
  | (k', v') :: d' =>
      if String.eqb k k' then (k, v) :: dict_pop k d'
      else (k', v') :: dict_set k v d'
  end.

Definition dict_has (k : string) (d : dict) : bool :=
  match dict_get k d with Some _ => true | None => false end.

(** ** Exceptions and results *)

Inductive exn : Type :=
| KeyError (k : string)
| TypeError
| AttributeError
| InvalidId
| WriteError
| HTTPException (status_code : Z) (detail : string).

Inductive result (A : Type) : Type :=
| Ok (a : A)
| Raise (e : exn).
Arguments Ok {A} a.
Arguments Raise {A} e.

#[global] Instance result_ret : MRet result := fun _ a => Ok a.
#[global] Instance result_bind : MBind result := fun _ _ f m =>
  match m with
  | Ok a => f a
  | Raise e => Raise e
  end.

(** ** Python operations on values *)

(** Truth value of an object, as [if x] and [not x] test it. *)
Definition py_truthy (v : value) : bool :=
  match v with
  | VNone => false
  | VBool b => b
  | VInt n => negb (n =? 0)%Z
  | VStr s => negb (String.eqb s "")
  | VList l => match l with [] => false | _ => true end
  | VDict d => match d with [] => false | _ => true end
  | VDate _ => true
  | VOid _ => true
  end.

(** [a == b].  [bool] is a subclass of [int], so [True == 1]; lists compare
    element by element and dicts entry by entry whatever their order; values
    of unrelated types are unequal.  It never raises. *)
Fixpoint py_eq (a b : value) {struct a} : bool :=
  match a, b with
  | VNone, VNone => true
  | VBool x, VBool y => Bool.eqb x y
  | VBool x, VInt y => (Z.b2z x =? y)%Z
  | VInt x, VBool y => (x =? Z.b2z y)%Z
  | VInt x, VInt y => (x =? y)%Z
  | VStr x, VStr y => String.eqb x y
  | VList x, VList y =>
      (fix go (x y : list value) {struct x} : bool :=
         match x, y with
         | [], [] => true
         | a' :: x', b' :: y' => py_eq a' b' && go x' y'
         | _, _ => false
         end) x y
  | VDict x, VDict y =>
      (length x =? length y)%nat &&
      (fix go (x : dict) {struct x} : bool :=
         match x with
         | [] => true
         | (k, v) :: x' =>
             match dict_get k y with
             | Some w => py_eq v w
             | None => false
             end && go x'
         end) x
  | VDate x, VDate y => (x =? y)%Z
  | VOid x, VOid y => (x =? y)%N
  | _, _ => false
  end.

(** [x in (y1, ..., yn)] *)
Definition py_in (x : value) (ys : list value) : bool := existsb (py_eq x) ys.

(** [o.get(k, dflt)]: only a dict has [get]. *)
Definition py_get (o : value) (k : string) (dflt : value) : result value :=
  match o with
  | VDict d => Ok (default dflt (dict_get k d))
  | _ => Raise AttributeError
  end.

(** [o[k]] with a string key. *)
Definition py_item (o : value) (k : string) : result value :=
  match o with
  | VDict d =>
      match dict_get k d with
      | Some v => Ok v
      | None => Raise (KeyError k)
      end
  | _ => Raise TypeError
  end.

(** The items a [for] loop over [o] visits: a list yields its elements, a
    dict its keys, a string its characters; nothing else is iterable. *)
Definition py_iter (o : value) : result (list value) :=
  match o with
  | VList l => Ok l
  | VDict d => Ok (map (fun kv => VStr (fst kv)) d)
  | VStr s => Ok (map (fun c => VStr (String c EmptyString)) (list_ascii_of_string s))
  | _ => Raise TypeError
  end.

(** [acc += v] for an [int] accumulator. *)
Definition py_iadd (acc : Z) (v : value) : result Z :=
  match v with
  | VInt n => Ok (acc + n)
  | VBool b => Ok (acc + Z.b2z b)
  | _ => Raise TypeError
  end.

(** [answers.get(k)] on the request's [Dict[str, Any]]: every key of
    [answers] is a string, so only a string can be found; a list or a dict
    is unhashable. *)
Definition answers_get (answers : gmap string value) (k : value) : result value :=
  match k with
  | VStr s => Ok (default VNone (answers !! s))
  | VList _ | VDict _ => Raise TypeError
  | _ => Ok VNone
  end.

(** ** Scoring ([calculate_score]) *)

(** The inner loop over the options of question [q], threading [score]. *)
Fixpoint score_options (opts : list value) (q chosen : value) (score : Z)
  : result Z :=
  match opts with
  | [] => Ok score
  | opt :: rest =>
      oid ← py_get opt "id" VNone;
      if py_eq oid chosen then
        correct ← py_get opt "isCorrect" VNone;
        if py_truthy correct then
          points ← py_get q "points" (VInt 1);
          score' ← py_iadd score points;
          score_options rest q chosen score'
        else score_options rest q chosen score
      else score_options rest q chosen score
  end.

(** One pass of the outer loop body for question [q]. *)
Definition score_question (answers : gmap string value) (q : value)
  (acc : Z * Z) : result (Z * Z) :=
  let '(total, score) := acc in
  points ← py_get q "points" (VInt 1);
  total' ← py_iadd total points;
  qid ← py_item q "id";
  chosen ← answers_get answers qid;
  opts_obj ← py_get q "options" (VList []);
  opts ← py_iter opts_obj;
  score' ← score_options opts q chosen score;
  Ok (total', score').

(** The outer loop, threading the two accumulators [total] and [score]. *)
Fixpoint score_questions (qs : list value) (answers : gmap string value)
  (acc : Z * Z) : result (Z * Z) :=
  match qs with
  | [] => Ok acc
  | q :: rest =>
      acc' ← score_question answers q acc;
      score_questions rest answers acc'
  end.

(** Both accumulators at the end of the loop: [(total, score)]. *)
Definition calculate_score_loop (quiz : value) (answers : gmap string value)
  : result (Z * Z) :=
  qs_obj ← py_get quiz "questions" (VList []);
  qs ← py_iter qs_obj;
  score_questions qs answers (0, 0).

Definition calculate_score (quiz : value) (answers : gmap string value)
  : result Z :=
  acc ← calculate_score_loop quiz answers;
  Ok (snd acc).

(** ** Document shapes ([schemas.py])

    The pydantic models, read as shapes of stored documents: a field with a
    default may be absent, any other field is present with its declared
    type; keys the model does not name are allowed. *)

Definition is_str (v : value) : bool :=
  match v with VStr _ => true | _ => false end.
Definition is_int (v : value) : bool :=
  match v with VInt _ => true | _ => false end.
Definition is_bool (v : value) : bool :=
  match v with VBool _ => true | _ => false end.
Definition is_optional_datetime (v : value) : bool :=
  match v with VDate _ | VNone => true | _ => false end.

(** A required field [k] of type [ty]. *)
Definition field (ty : value → bool) (k : string) (d : dict) : bool :=
  match dict_get k d with Some v => ty v | None => false end.

(** A field [k] of type [ty] that has a default. *)
Definition field_dflt (ty : value → bool) (k : string) (d : dict) : bool :=
  match dict_get k d with Some v => ty v | None => true end.

Definition is_list_of (ty : value → bool) (v : value) : bool :=
  match v with VList l => forallb ty l | _ => false end.

(** [class QuestionOption]: [id: str], [text: str], [isCorrect: bool = False]. *)
Definition is_QuestionOption (v : value) : bool :=
  match v with
  | VDict d =>
      field is_str "id" d && field is_str "text" d
      && field_dflt is_bool "isCorrect" d
  | _ => false
  end.

(** [class Question]: [id: str], [text: str], [options: List[QuestionOption]],
    [points: int = 1]. *)
Definition is_Question (v : value) : bool :=
  match v with
  | VDict d =>
      field is_str "id" d && field is_str "text" d
      && field (is_list_of is_QuestionOption) "options" d
      && field_dflt is_int "points" d
  | _ => false
  end.

(** [class Quiz]. *)
Definition is_Quiz (v : value) : bool :=
  match v with
  | VDict d =>
      field is_str "id" d && field is_str "title" d && field is_str "code" d
      && field is_int "timeLimit" d && field_dflt is_int "version" d
      && field is_str "createdBy" d
      && field_dflt (is_list_of is_Question) "questions" d
      && field_dflt is_optional_datetime "createdAt" d
      && field_dflt is_optional_datetime "updatedAt" d
  | _ => false
  end.

(** Accessors with the defaults the code uses. *)
Definition questions_of (quiz : value) : list value :=
  match quiz with
  | VDict d => match dict_get "questions" d with Some (VList l) => l | _ => [] end
  | _ => []
  end.

Definition options_of (q : value) : list value :=
  match q with
  | VDict d => match dict_get "options" d with Some (VList l) => l | _ => [] end
  | _ => []
  end.

Definition points_of (q : value) : Z :=
  match q with
  | VDict d => match dict_get "points" d with Some (VInt n) => n | _ => 1 end
  | _ => 1
  end.

Definition id_of (o : value) : value :=
  match o with
  | VDict d => default VNone (dict_get "id" d)
  | _ => VNone
  end.

(** The maximum score: the sum of [q.points] over the questions. *)
Definition max_score (quiz : value) : Z :=
  foldr (fun q acc => points_of q + acc) 0 (questions_of quiz).

(** ** The document store

    MongoDB as the handlers use it: named collections of documents in
    insertion order, exact-match filters, [find_one], [insert_one],
    [update_one] with [$set] or [$push], and [count_documents]. *)

(** Equality of stored values (BSON): same type, same content, same order. *)
Fixpoint value_eqb (a b : value) {struct a} : bool :=
  match a, b with
  | VNone, VNone => true
  | VBool x, VBool y => Bool.eqb x y
  | VInt x, VInt y => (x =? y)%Z
  | VStr x, VStr y => String.eqb x y
  | VList x, VList y =>
      (fix go (x y : list value) {struct x} : bool :=
         match x, y with
         | [], [] => true
         | a' :: x', b' :: y' => value_eqb a' b' && go x' y'
         | _, _ => false
         end) x y
  | VDict x, VDict y =>
      (fix go (x y : dict) {struct x} : bool :=
         match x, y with
         | [], [] => true
         | (k, v) :: x', (k', w) :: y' =>
             String.eqb k k' && value_eqb v w && go x' y'
         | _, _ => false
         end) x y
  | VDate x, VDate y => (x =? y)%Z
  | VOid x, VOid y => (x =? y)%N
  | _, _ => false
  end.

(** A filter [{k: v, ...}] matches a document whose field [k] equals [v];
    a [None] in the filter also matches a document without the field. *)
Definition matches (filter doc : dict) : bool :=
  forallb (fun kv =>
             match dict_get (fst kv) doc, snd kv with
             | Some w, v => value_eqb w v
             | None, VNone => true
             | None, _ => false
             end) filter.

Record database : Type := mk_database {
  collections : gmap string (list dict);
  next_oid : N
}.

(** [db[name]]: a collection that was never written to is empty. *)
Definition coll (db : database) (name : string) : list dict :=
  default [] (collections db !! name).

Definition set_coll (name : string) (docs : list dict) (db : database)
  : database :=
  mk_database (<[name := docs]> (collections db)) (next_oid db).

(** A handler is a computation on the store that returns or raises; what
    it wrote before raising stays written. *)
Definition M (A : Type) : Type := database → result A * database.

#[global] Instance M_ret : MRet M := fun _ a db => (Ok a, db).
#[global] Instance M_bind : MBind M := fun _ _ f m db =>
  match m db with
  | (Ok a, db') => f a db'
  | (Raise e, db') => (Raise e, db')
  end.

Definition raise {A : Type} (e : exn) : M A := fun db => (Raise e, db).

Definition lift {A : Type} (r : result A) : M A := fun db => (r, db).

(** [db[name].find_one(filter, {k: 0 for k in hide})]: the first match with
    the keys of [hide] left out, or [None]. *)
Definition find_one (name : string) (filter : dict) (hide : list string)
  : M value := fun db =>
  (Ok match List.find (matches filter) (coll db name) with
      | Some doc => VDict (foldr dict_pop doc hide)
      | None => VNone
      end, db).

(** [db[name].insert_one(doc).inserted_id].  Every document this program
    inserts is a literal without [_id], so the driver gives it a new
    [ObjectId]; the generator is modelled by a counter.  The driver's
    encoder is not modelled: it raises, before anything is written, on a
    value BSON cannot hold (an integer outside 64 bits), so the further
    properties say that an insert of request data succeeded only as an
    assumption. *)
Definition insert_one (name : string) (doc : dict) : M N := fun db =>
  let oid := next_oid db in
  (Ok oid,
   mk_database (<[name := coll db name ++ [("_id", VOid oid) :: doc]]>
                  (collections db))
               (N.succ oid)).

(** Apply [upd] to the first document that satisfies [p]; [None] when no
    document does. *)
Fixpoint update_first (p : dict → bool) (upd : dict → result dict)
  (docs : list dict) : option (result (list dict)) :=
  match docs with
  | [] => None
  | doc :: rest =>
      if p doc then Some (doc' ← upd doc; Ok (doc' :: rest))
      else
        match update_first p upd rest with
        | Some r => Some (rest' ← r; Ok (doc :: rest'))
        | None => None
        end
  end.

(** [db[name].update_one(filter, update)]: without a match nothing is
    written and nothing is raised.  As for [insert_one], the driver's
    encoder, which raises before anything is written, is not modelled. *)
Definition update_one (name : string) (filter : dict)
  (upd : dict → result dict) : M unit := fun db =>
  match update_first (matches filter) upd (coll db name) with
  | None => (Ok tt, db)
  | Some (Ok docs) => (Ok tt, set_coll name docs db)
  | Some (Raise e) => (Raise e, db)
  end.

(** [{"$set": fields}] *)
Definition mongo_set (fields : dict) (doc : dict) : result dict :=
  Ok (foldl (fun d kv => dict_set (fst kv) (snd kv) d) doc fields).

(** [{"$push": {k: v}}]: appends to the array [k], creating it when the
    field is absent; the store rejects the update when [k] is not an array. *)
Definition mongo_push (k : string) (v : value) (doc : dict) : result dict :=
  match dict_get k doc with
  | None => Ok (dict_set k (VList [v]) doc)
  | Some (VList l) => Ok (dict_set k (VList (l ++ [v])) doc)
  | Some _ => Raise WriteError
  end.

Definition count_documents (name : string) (filter : dict) : M Z := fun db =>
  (Ok (Z.of_nat (length (List.filter (matches filter) (coll db name)))), db).

(** ** [bson.ObjectId]

    An [ObjectId] is twelve bytes, written as 24 hexadecimal digits. *)

Definition hex_digit (c : ascii) : option N :=
  let n := N_of_ascii c in
  if (48 <=? n)%N && (n <=? 57)%N then Some (n - 48)%N
  else if (97 <=? n)%N && (n <=? 102)%N then Some (n - 87)%N
  else if (65 <=? n)%N && (n <=? 70)%N then Some (n - 55)%N
  else None.

Fixpoint hex_value (s : string) (acc : N) : option N :=
  match s with
  | EmptyString => Some acc
  | String c s' =>
      match hex_digit c with
      | Some d => hex_value s' (16 * acc + d)%N
      | None => None
      end
  end.

(** [ObjectId(s)]: the id written as the 24 hexadecimal digits [s];
    [InvalidId] for a string of another length or with a character that is
    neither a hexadecimal digit nor white space.  [bson] reads the string
    with [bytes.fromhex], which skips white space between the bytes: a
    24-character string with white space can so give an id of fewer than
    twelve bytes, which is outside this model (here it raises, too). *)
Definition ObjectId (s : string) : result N :=
  if (String.length s =? 24)%nat then
    match hex_value s 0%N with
    | Some o => Ok o
    | None => Raise InvalidId
    end
  else Raise InvalidId.

Definition hex_char (d : N) : ascii :=
  if (d <? 10)%N then ascii_of_N (48 + d) else ascii_of_N (87 + d).

Fixpoint hex_string (digits : nat) (o : N) (acc : string) : string :=
  match digits with
  | O => acc
  | S digits' =>
      hex_string digits' (o / 16)%N (String (hex_char (o mod 16)%N) acc)
  end.

(** [str(oid)] *)
Definition oid_str (o : N) : string := hex_string 24 o "".

(** ** Requests ([main.py]) *)

Module QuizCreateRequest.
Record t : Type := mk { title : string; timeLimit : Z; questions : list dict }.
End QuizCreateRequest.

Module AttemptStart.
Record t : Type := mk { quizCode : string; studentId : string }.
End AttemptStart.

Module AttemptSubmit.
Record t : Type := mk { attemptId : string; answers : gmap string value }.
End AttemptSubmit.

Module SuspiciousEvent.
Record t : Type := mk { attemptId : string; type : string; meta : option dict }.
End SuspiciousEvent.

(** The answers of a request as the value that is stored. *)
Definition answers_value (answers : gmap string value) : value :=
  VDict (map_to_list answers).

Definition optional_dict (o : option dict) : value :=
  match o with Some d => VDict d | None => VNone end.

(** ** [generate_quiz_code]

    [random.choices(string.ascii_uppercase + string.digits, k=6)]; [rnd i]
    is the index drawn for position [i]. *)

Definition code_alphabet : list ascii :=
  list_ascii_of_string "ABCDEFGHIJKLMNOPQRSTUVWXYZ0123456789".

Definition generate_quiz_code (rnd : nat → nat) : string :=
  string_of_list_ascii
    (map (fun i => nth (rnd i mod 36)%nat code_alphabet "A"%char) (seq 0 6)).

(** ** Handlers

    [clock i] is the [i]-th reading of [datetime.utcnow()] in the request. *)

(** [POST /quizzes], after the dependency [get_current_user] gave [user]. *)
Definition create_quiz (clock : nat → Z) (rnd : nat → nat)
  (data : QuizCreateRequest.t) (user : value) : M value :=
  role ← lift (py_item user "role");
  if negb (py_in role [VStr "superadmin"; VStr "teacher"]) then
    raise (HTTPException 403 "Forbidden")
  else
    let code := generate_quiz_code rnd in
    uid ← lift (py_item user "uid");
    let doc : dict :=
      [("id", VStr code);
       ("title", VStr (QuizCreateRequest.title data));
       ("code", VStr code);
       ("timeLimit", VInt (QuizCreateRequest.timeLimit data));
       ("version", VInt 1);
       ("createdBy", uid);
       ("questions", VList (map VDict (QuizCreateRequest.questions data)));
       ("createdAt", VDate (clock 0%nat));
       ("updatedAt", VDate (clock 1%nat))] in
    _ ← insert_one "quiz" doc;
    mret (VDict [("id", VStr code); ("code", VStr code)]).

(** [opt.pop("isCorrect", None)] *)
Definition pop_isCorrect (opt : value) : result value :=
  match opt with
  | VDict d => Ok (VDict (dict_pop "isCorrect" d))
  | VList _ => Raise TypeError
  | _ => Raise AttributeError
  end.

Fixpoint mapM {A B : Type} (f : A → result B) (l : list A) : result (list B) :=
  match l with
  | [] => Ok []
  | a :: l' => b ← f a; bs ← mapM f l'; Ok (b :: bs)
  end.

(** The inner loop of [get_quiz_by_code] on one question.  The options are
    changed in place, so what the loop leaves behind is the question with
    its list of options replaced; iterating a dict or a string visits
    strings, which have no [pop]. *)
Definition strip_question (q : value) : result value :=
  opts_obj ← py_get q "options" (VList []);
  opts ← py_iter opts_obj;
  opts' ← mapM pop_isCorrect opts;
  match q, opts_obj with
  | VDict d, VList _ =>
      Ok (if dict_has "options" d then VDict (dict_set "options" (VList opts') d)
          else q)
  | _, _ => Ok q
  end.

(** [GET /quizzes/{code}] *)
Definition get_quiz_by_code (code : string) (user : option value) : M value :=
  quiz ← find_one "quiz" [("code", VStr code)] ["_id"];
  if negb (py_truthy quiz) then raise (HTTPException 404 "Quiz not found")
  else
    qs_obj ← lift (py_get quiz "questions" (VList []));
    qs ← lift (py_iter qs_obj);
    qs' ← lift (mapM strip_question qs);
    match quiz, qs_obj with
    | VDict d, VList _ =>
        mret (if dict_has "questions" d
              then VDict (dict_set "questions" (VList qs') d) else quiz)
    | _, _ => mret quiz
    end.

(** [POST /attempts/start] *)
Definition start_attempt (clock : nat → Z) (data : AttemptStart.t) : M value :=
  quiz ← find_one "quiz" [("code", VStr (AttemptStart.quizCode data))] [];
  if negb (py_truthy quiz) then raise (HTTPException 404 "Quiz not found")
  else
    quiz_id ← lift (py_get quiz "id" VNone);
    let attempt : dict :=
      [("quizId", quiz_id);
       ("studentId", VStr (AttemptStart.studentId data));
       ("answers", VDict []);
       ("score", VInt 0);
       ("startTime", VDate (clock 0%nat));
       ("endTime", VNone);
       ("suspiciousEvents", VList [])] in
    id_ ← insert_one "attempt" attempt;
    mret (VDict [("attemptId", VStr (oid_str id_))]).

(** [POST /attempts/submit] *)
Definition submit_attempt (clock : nat → Z) (data : AttemptSubmit.t) : M value :=
  oid ← lift (ObjectId (AttemptSubmit.attemptId data));
  att ← find_one "attempt" [("_id", VOid oid)] [];
  if negb (py_truthy att) then raise (HTTPException 404 "Attempt not found")
  else
    quiz_id ← lift (py_item att "quizId");
    quiz ← find_one "quiz" [("id", quiz_id)] [];
    score ← lift (calculate_score quiz (AttemptSubmit.answers data));
    oid' ← lift (ObjectId (AttemptSubmit.attemptId data));
    _ ← update_one "attempt" [("_id", VOid oid')]
          (mongo_set [("answers", answers_value (AttemptSubmit.answers data));
                      ("score", VInt score);
                      ("endTime", VDate (clock 0%nat))]);
    mret (VDict [("score", VInt score)]).

(** [POST /monitor/log] *)
Definition log_event (clock : nat → Z) (event : SuspiciousEvent.t) : M value :=
  oid ← lift (ObjectId (SuspiciousEvent.attemptId event));
  _ ← update_one "attempt" [("_id", VOid oid)]
        (mongo_push "suspiciousEvents"
           (VDict [("type", VStr (SuspiciousEvent.type event));
                   ("meta", optional_dict (SuspiciousEvent.meta event));
                   ("time", VDate (clock 0%nat))]));
  mret (VDict [("status", VStr "logged")]).

(** [GET /dashboard/stats], after [get_current_user] gave [user]. *)
Definition dashboard_stats (user : value) : M value :=
  role ← lift (py_item user "role");
  if negb (py_in role [VStr "superadmin"; VStr "teacher"]) then
    raise (HTTPException 403 "Forbidden")
  else
    quizzes ← count_documents "quiz" [];
    attempts ← count_documents "attempt" [];
    active ← count_documents "attempt" [("endTime", VNone)];
    mret (VDict [("quizzes", VInt quizzes); ("attempts", VInt attempts);
                 ("activeAttempts", VInt active)]).

(** [database.create_document]: [setdefault] keeps a timestamp the caller
    supplied. *)
Definition dict_setdefault (k : string) (v : value) (d : dict) : dict :=
  if dict_has k d then d else dict_set k v d.

Definition create_document (clock : nat → Z) (collection_name : string)
  (data : dict) : M string :=
  let now := VDate (clock 0%nat) in
  let data := dict_setdefault "createdAt" now data in
  let data := dict_setdefault "updatedAt" now data in
  inserted_id ← insert_one collection_name data;
  mret (oid_str inserted_id).

(** ** Authentication and routing *)

Fixpoint partition_space (s : string) : string * string :=
  match s with
  | EmptyString => ("", "")
  | String c s' =>
      if Ascii.eqb c " "%char then ("", s')
      else let '(before, after) := partition_space s' in (String c before, after)
  end.

Definition lower_ascii (c : ascii) : ascii :=
  let n := N_of_ascii c in
  if (65 <=? n)%N && (n <=? 90)%N then ascii_of_N (n + 32) else c.

Fixpoint lower (s : string) : string :=
  match s with
  | EmptyString => EmptyString
  | String c s' => String (lower_ascii c) (lower s')
  end.

Inductive request : Type :=
| POST_quizzes (data : QuizCreateRequest.t)
| GET_quizzes_code (code : string)
| POST_attempts_start (data : AttemptStart.t)
| POST_attempts_submit (data : AttemptSubmit.t)
| POST_monitor_log (event : SuspiciousEvent.t)
| GET_dashboard_stats.

(** The four requests of a student taking a quiz. *)
Definition attempt_taking (r : request) : bool :=
  match r with
  | GET_quizzes_code _ | POST_attempts_start _
  | POST_attempts_submit _ | POST_monitor_log _ => true
  | POST_quizzes _ | GET_dashboard_stats => false
  end.

(** The status the framework answers with: an [HTTPException] carries its
    own, any other exception is a server error. *)
Definition status_of (r : result value) : Z :=
  match r with
  | Ok _ => 200
  | Raise (HTTPException status_code _) => status_code
  | Raise _ => 500
  end.

Section Collaborators.

(** [jwt.decode(token, SECRET_KEY, algorithms=[ALGORITHM])]: the payload,
    or [None] for a [JWTError]. *)
Variable jwt_decode : string → option dict.

(** [pwd_context.hash] *)
Variable pwd_hash : string → string.

Definition seed_super_admin : M unit :=
  existing ← find_one "user" [("email", VStr "admin@university.edu")] [];
  if negb (py_truthy existing) then
    _ ← insert_one "user"
          [("uid", VStr "admin-1");
           ("role", VStr "superadmin");
           ("email", VStr "admin@university.edu");
           ("name", VStr "Super Admin");
           ("password", VStr (pwd_hash "admin123"))];
    mret tt
  else mret tt.

Definition get_current_user (authorization : option string) : result value :=
  match authorization with
  | None => Raise (HTTPException 401 "Not authenticated")
  | Some header =>
      if String.eqb header "" then
        Raise (HTTPException 401 "Not authenticated")
      else
        let '(scheme, token) := partition_space header in
        if negb (String.eqb (lower scheme) "bearer") || String.eqb token "" then
          Raise (HTTPException 401 "Invalid authentication scheme")
        else
          match jwt_decode token with
          | None => Raise (HTTPException 401 "Invalid token")
          | Some payload =>
              let user_id := default VNone (dict_get "sub" payload) in
              let email := default VNone (dict_get "email" payload) in
              let role := default VNone (dict_get "role" payload) in
              match user_id with
              | VNone => Raise (HTTPException 401 "Invalid token")
              | _ => Ok (VDict [("uid", user_id); ("email", email);
                                ("role", role)])
              end
          end
  end.

(** The application: each route with the dependencies its signature
    declares.  [authorization] is the request's [Authorization] header.
    The answer is what the handler returns or raises; how the framework
    renders a returned value is not part of the model. *)
Definition app (authorization : option string) (clock : nat → Z)
  (rnd : nat → nat) (r : request) : M value :=
  match r with
  | POST_quizzes data =>
      user ← lift (get_current_user authorization);
      create_quiz clock rnd data user
  | GET_quizzes_code code =>
      get_quiz_by_code code ((fun _ : option string => None) authorization)
  | POST_attempts_start data => start_attempt clock data
  | POST_attempts_submit data => submit_attempt clock data
  | POST_monitor_log event => log_event clock event
  | GET_dashboard_stats =>
      user ← lift (get_current_user authorization);
      dashboard_stats user
  end.

End Collaborators.

(** ** The public view, in the words of the specification

    The quiz with [isCorrect] removed from every option of every question
    and nothing else changed. *)

Definition public_option (opt : value) : value :=
  match opt with
  | VDict d => VDict (dict_pop "isCorrect" d)
  | _ => opt
  end.

Definition public_question (q : value) : value :=
  match q with
  | VDict d =>
      match dict_get "options" d with
      | Some (VList opts) =>
          VDict (dict_set "options" (VList (map public_option opts)) d)
      | _ => q
      end
  | _ => q
  end.

Definition ToPublicView (quiz : value) : value :=
  match quiz with
  | VDict d =>
      match dict_get "questions" d with
      | Some (VList qs) =>
          VDict (dict_set "questions" (VList (map public_question qs)) d)
      | _ => quiz
      end
  | _ => quiz
  end.

(** No option of any question of [quiz] has an [isCorrect] field. *)
Definition hides_correctness (quiz : value) : bool :=
  forallb (fun q =>
             forallb (fun opt =>
                        match opt with
                        | VDict d => negb (dict_has "isCorrect" d)
                        | _ => true
                        end) (options_of q))
          (questions_of quiz).

(** ** Notions the statements use *)

(** *** Scoring *)

(** What one pass of the loop body adds to [score] for question [q]. *)
Definition question_score (answers : gmap string value) (q : value) : Z :=
  match score_question answers q (0, 0) with
  | Ok (_, score) => score
  | Raise _ => 0
  end.

Definition sum_Z (l : list Z) : Z := foldr Z.add 0 l.

(** The answer given to question [q], [None] when there is none. *)
Definition chosen_for (answers : gmap string value) (q : value) : value :=
  match id_of q with
  | VStr s => default VNone (answers !! s)
  | _ => VNone
  end.

(** The answer map has no entry for question [q]. *)
Definition unanswered (answers : gmap string value) (q : value) : Prop :=
  ∀ s, id_of q = VStr s → answers !! s = None.

(** The option is the chosen one and is flagged correct. *)
Definition credits (chosen opt : value) : bool :=
  py_eq (id_of opt) chosen
  && match opt with
     | VDict d => py_truthy (default VNone (dict_get "isCorrect" d))
     | _ => false
     end.

Fixpoint distinct (l : list value) : bool :=
  match l with
  | [] => true
  | x :: l' => negb (existsb (py_eq x) l') && distinct l'
  end.

(** The options of each question have pairwise different ids. *)
Definition distinct_option_ids (quiz : value) : bool :=
  forallb (fun q => distinct (map id_of (options_of q))) (questions_of quiz).

Definition nonneg_points (quiz : value) : bool :=
  forallb (fun q => (0 <=? points_of q)%Z) (questions_of quiz).

(** *** The store before and after a request *)

(** No stored quiz has the code [code]. *)
Definition no_quiz_with_code (code : string) (db : database) : Prop :=
  ∀ doc, doc ∈ coll db "quiz" → dict_get "code" doc ≠ Some (VStr code).

(** [db'] is [db] with [doc] added at the end of collection [name]. *)
Definition persisted (name : string) (doc : dict) (db db' : database) : Prop :=
  coll db' name = coll db name ++ [doc]
  ∧ ∀ name', name' ≠ name → coll db' name' = coll db name'.

(** [db'] is [db] with one document [doc] of collection [name] replaced by
    [doc'], in place. *)
Definition replaced (name : string) (doc doc' : dict) (db db' : database)
  : Prop :=
  (∃ pre post, coll db name = pre ++ doc :: post
               ∧ coll db' name = pre ++ doc' :: post)
  ∧ ∀ name', name' ≠ name → coll db' name' = coll db name'.

(** The attempt in the state Created. *)
Definition created_attempt (oid : N) (quiz_id : value) (studentId : string)
  (now : Z) : dict :=
  [("_id", VOid oid);
   ("quizId", quiz_id);
   ("studentId", VStr studentId);
   ("answers", VDict []);
   ("score", VInt 0);
   ("startTime", VDate now);
   ("endTime", VNone);
   ("suspiciousEvents", VList [])].

(** The attempt as [submit_attempt] leaves it. *)
Definition submitted (answers : gmap string value) (score now : Z)
  (att : dict) : dict :=
  dict_set "endTime" (VDate now)
    (dict_set "score" (VInt score)
       (dict_set "answers" (answers_value answers) att)).

(** The record [log_event] pushes. *)
Definition event_record (event : SuspiciousEvent.t) (now : Z) : value :=
  VDict [("type", VStr (SuspiciousEvent.type event));
         ("meta", optional_dict (SuspiciousEvent.meta event));
         ("time", VDate now)].

(** The events of the attempt [oid], when it is stored with a list of
    events. *)
Definition events_of (oid : N) (db : database) : option (list value) :=
  match List.find (matches [("_id", VOid oid)]) (coll db "attempt") with
  | Some att =>
      match dict_get "suspiciousEvents" att with
      | Some (VList events) => Some events
      | _ => None
      end
  | None => None
  end.

(** The document [create_quiz] builds. *)
Definition quiz_document (clock : nat → Z) (rnd : nat → nat)
  (data : QuizCreateRequest.t) (uid : value) : dict :=
  [("id", VStr (generate_quiz_code rnd));
   ("title", VStr (QuizCreateRequest.title data));
   ("code", VStr (generate_quiz_code rnd));
   ("timeLimit", VInt (QuizCreateRequest.timeLimit data));
   ("version", VInt 1);
   ("createdBy", uid);
   ("questions", VList (map VDict (QuizCreateRequest.questions data)));
   ("createdAt", VDate (clock 0%nat));
   ("updatedAt", VDate (clock 1%nat))].

(** One request after another on the same store. *)
Definition then_ {A B : Type} (m : M A) (m' : M B) : M B := _ ← m; m'.

(** *** The public view, field by field *)

(** [d'] has the fields of [d], except perhaps for [k]. *)
Definition same_but (k : string) (d d' : dict) : Prop :=
  ∀ k', k' ≠ k → dict_get k' d' = dict_get k' d.

(** [opt'] is the option [opt] without its [isCorrect] field. *)
Definition public_option_of (opt opt' : value) : Prop :=
  ∃ d d', opt = VDict d ∧ opt' = VDict d'
          ∧ same_but "isCorrect" d d' ∧ dict_get "isCorrect" d' = None.

(** [q'] is the question [q] with each option made public, in order. *)
Definition public_question_of (q q' : value) : Prop :=
  ∃ d d' opts opts',
    q = VDict d ∧ q' = VDict d' ∧ same_but "options" d d'
    ∧ dict_get "options" d = Some (VList opts)
    ∧ dict_get "options" d' = Some (VList opts')
    ∧ Forall2 public_option_of opts opts'.

(** [view] is the quiz [quiz] with each question made public, in order. *)
Definition public_view_of (quiz view : value) : Prop :=
  ∃ d d', quiz = VDict d ∧ view = VDict d' ∧ same_but "questions" d d'
          ∧ Forall2 public_question_of (questions_of quiz) (questions_of view)
          ∧ (dict_get "questions" d = None → dict_get "questions" d' = None).

(** *** Exceptions *)

(** The result raises no [HTTPException]. *)
Definition not_http {A : Type} (r : result A) : Prop :=
  match r with
  | Raise (HTTPException _ _) => False
  | _ => True
  end.

(** The only [HTTPException] the computation raises has status 404. *)
Definition only_404 {A : Type} (m : M A) : Prop :=
  ∀ db, match fst (m db) with
        | Raise (HTTPException status_code _) => status_code = 404
        | _ => True
        end.

(** ** Sample documents, stores and requests *)

Definition mk_option (id text : string) (correct : bool) : value :=
  VDict [("id", VStr id); ("text", VStr text); ("isCorrect", VBool correct)].

Definition mk_question (id text : string) (opts : list value) (points : Z)
  : value :=
  VDict [("id", VStr id); ("text", VStr text); ("options", VList opts);
         ("points", VInt points)].

Definition mk_quiz (code : string) (qs : list value) : value :=
  VDict [("id", VStr code); ("title", VStr "Quiz"); ("code", VStr code);
         ("timeLimit", VInt 30); ("version", VInt 1);
         ("createdBy", VStr "admin-1"); ("questions", VList qs)].

(** The quiz of scenario 1. *)
Definition quiz_one : value :=
  mk_quiz "ABC123"
    [mk_question "q1" "?" [mk_option "a" "A" false; mk_option "b" "B" true] 1].

(** The quiz of scenario 2. *)
Definition quiz_two : value :=
  mk_quiz "ABC124"
    [mk_question "q1" "?" [mk_option "a" "A" false; mk_option "b" "B" true] 1;
     mk_question "q2" "?" [mk_option "a" "A" true; mk_option "b" "B" false] 2].

(** Two options with one id, both flagged correct. *)
Definition quiz_dup_ids : value :=
  mk_quiz "DUP001"
    [mk_question "q1" "?"
       [mk_option "a" "A" true; mk_option "a" "A again" true] 1].

(** A question with a negative weight. *)
Definition quiz_negative : value :=
  mk_quiz "NEG001" [mk_question "q1" "?" [mk_option "a" "A" true] (-1)].

(** A question without an [id], as [QuizCreateRequest] accepts it. *)
Definition quiz_no_question_id : value :=
  mk_quiz "NOID01"
    [VDict [("text", VStr "?"); ("options", VList [mk_option "a" "A" true])]].

(** An option without an [id] that is flagged correct, as
    [QuizCreateRequest] accepts it ([questions: List[Dict[str, Any]]]). *)
Definition question_option_without_id : dict :=
  [("id", VStr "q1"); ("text", VStr "?");
   ("options", VList [VDict [("text", VStr "A"); ("isCorrect", VBool true)]]);
   ("points", VInt 3)].

Definition quiz_option_without_id : value :=
  mk_quiz "NOOPT1" [VDict question_option_without_id].

(** The document as the store holds it. *)
Definition stored (oid : N) (doc : value) : dict :=
  match doc with
  | VDict d => ("_id", VOid oid) :: d
  | _ => []
  end.

Definition db_empty : database := mk_database ∅ 0.

(** A store with one quiz and one attempt on it. *)
Definition db_one_attempt : database :=
  mk_database
    {["quiz" := [stored 0 quiz_one];
      "attempt" := [created_attempt 1 (VStr "ABC123") "student-1" 1000]]} 2.

(** A store with one attempt whose quiz is not (or no longer) stored. *)
Definition db_orphan_attempt : database :=
  mk_database
    {["attempt" := [created_attempt 0 (VStr "GONE01") "student-1" 1000]]} 1.

Definition oid_0 : string := "000000000000000000000000".
Definition oid_1 : string := "000000000000000000000001".
Definition oid_7 : string := "000000000000000000000007".

Definition teacher : value :=
  VDict [("uid", VStr "teacher-1"); ("email", VStr "t@university.edu");
         ("role", VStr "teacher")].

Definition sample_clock (i : nat) : Z := 1000 + Z.of_nat i.

Definition sample_rnd (i : nat) : nat := (7 * i + 3)%nat.

Definition sample_quiz_request : QuizCreateRequest.t :=
  QuizCreateRequest.mk "Algebra" 30
    [[("id", VStr "q1"); ("text", VStr "?");
      ("options", VList [mk_option "a" "A" false; mk_option "b" "B" true]);
      ("points", VInt 1)]].

Definition blur : SuspiciousEvent.t :=
  SuspiciousEvent.mk oid_1 "window-blur" None.
Definition tab : SuspiciousEvent.t :=
  SuspiciousEvent.mk oid_1 "tab-switch" (Some [("count", VInt 2)]).
Definition paste : SuspiciousEvent.t :=
  SuspiciousEvent.mk oid_1 "paste" None.

(** ** Logging in ([login], [create_access_token])

    Datetimes and timedeltas are counted in microseconds, the resolution of
    both types. *)

Module LoginRequest.
Record t : Type := mk { email : string; password : string }.
End LoginRequest.

(** [timedelta(minutes=m)] *)
Definition minutes (m : Z) : Z := m * 60000000.

Definition ACCESS_TOKEN_EXPIRE_MINUTES : Z := 60 * 8.

Section Tokens.

(** [jwt.encode(claims, SECRET_KEY, algorithm=ALGORITHM)]: the token, or
    the exception raised for claims that cannot be encoded. *)
Variable jwt_encode : dict → result string.

(** [pwd_context.verify(secret, hash)] on whatever the stored document
    holds as its hash. *)
Variable pwd_verify : string → value → result bool.

(** [expires_delta or timedelta(minutes=...)]: no delta and the zero delta
    both give the default. *)
Definition create_access_token (clock : nat → Z) (data : dict)
  (expires_delta : option Z) : result string :=
  let to_encode := data in
  let delta :=
    match expires_delta with
    | Some d => if (d =? 0)%Z then minutes ACCESS_TOKEN_EXPIRE_MINUTES else d
    | None => minutes ACCESS_TOKEN_EXPIRE_MINUTES
    end in
  let expire := clock 0%nat + delta in
  jwt_encode (dict_set "exp" (VDate expire) to_encode).

(** [POST /auth/login] *)
Definition login (clock : nat → Z) (payload : LoginRequest.t) : M value :=
  user ← find_one "user" [("email", VStr (LoginRequest.email payload))] [];
  if negb (py_truthy user) then
    raise (HTTPException 401 "Invalid credentials")
  else
    hash ← lift (py_get user "password" (VStr ""));
    verified ← lift (pwd_verify (LoginRequest.password payload) hash);
    if negb verified then raise (HTTPException 401 "Invalid credentials")
    else
      sub ← lift (py_item user "uid");
      email ← lift (py_item user "email");
      role ← lift (py_item user "role");
      token ← lift (create_access_token clock
                      [("sub", sub); ("email", email); ("role", role)] None);
      mret (VDict [("access_token", VStr token); ("token_type", VStr "bearer")]).

End Tokens.

(** ** More notions the statements use *)

(** The characters of a string. *)
Definition chars (s : string) : list ascii := list_ascii_of_string s.

(** The role may create quizzes and read the statistics. *)
Definition privileged (role : value) : Prop :=
  role = VStr "superadmin" ∨ role = VStr "teacher".

(** The user [get_current_user] builds from a token's payload. *)
Definition user_of_payload (payload : dict) : value :=
  VDict [("uid", default VNone (dict_get "sub" payload));
         ("email", default VNone (dict_get "email" payload));
         ("role", default VNone (dict_get "role" payload))].

(** [Py_ISSPACE]: the characters [bytes.fromhex] skips. *)
Definition ascii_whitespace (c : ascii) : bool :=
  let n := N_of_ascii c in
  ((9 <=? n)%N && (n <=? 13)%N) || (n =? 32)%N.

(** Strings on which [bson.ObjectId] raises [InvalidId] whatever else they
    hold: the length is not 24, or some character is neither a hexadecimal
    digit nor white space. *)
Definition bson_rejects (s : string) : bool :=
  negb (String.length s =? 24)%nat
  || existsb (λ c, match hex_digit c with
                   | Some _ => false
                   | None => negb (ascii_whitespace c)
                   end) (chars s).

(** The computation leaves the store as it was whenever it raises. *)
Definition atomic {A : Type} (m : M A) : Prop :=
  ∀ db e, fst (m db) = Raise e → snd (m db) = db.

(** The computation never writes. *)
Definition readonly {A : Type} (m : M A) : Prop := ∀ db, snd (m db) = db.

(** The computation never raises. *)
Definition noraise {A : Type} (m : M A) : Prop :=
  ∀ db e, fst (m db) ≠ Raise e.

(** The attempt counts as active for [dashboard_stats]. *)
Definition active (att : dict) : bool := matches [("endTime", VNone)] att.

Definition count (p : dict → bool) (docs : list dict) : Z :=
  Z.of_nat (length (List.filter p docs)).

(** An upper-case letter or a digit. *)
Definition upper_or_digit (c : ascii) : bool :=
  let n := N_of_ascii c in
  ((65 <=? n)%N && (n <=? 90)%N) || ((48 <=? n)%N && (n <=? 57)%N).

(** [db'] is [db] with the first document of collection [name] that
    satisfies [p], which is [doc], replaced by [doc']. *)
Definition first_replaced (name : string) (p : dict → bool) (doc doc' : dict)
  (db db' : database) : Prop :=
  ∃ pre post,
    coll db name = pre ++ doc :: post
    ∧ (∀ x, x ∈ pre → p x = false)
    ∧ p doc = true
    ∧ db' = set_coll name (pre ++ doc' :: post) db.

(** The attempt whose [_id] is [oid], as [find_one] gives it. *)
Definition attempt_by_id (oid : N) (db : database) : option dict :=
  List.find (matches [("_id", VOid oid)]) (coll db "attempt").

(** The quiz whose [id] is [quiz_id], as [find_one] gives it. *)
Definition quiz_by_id (quiz_id : value) (db : database) : option dict :=
  List.find (matches [("id", quiz_id)]) (coll db "quiz").

(** The quiz whose [code] is [code], as [find_one] gives it. *)
Definition quiz_by_code (code : string) (db : database) : option dict :=
  List.find (matches [("code", VStr code)]) (coll db "quiz").



(** The user whose [email] is [email], as [find_one] gives it. *)
Definition user_by_email (email : string) (db : database) : option dict :=
  List.find (matches [("email", VStr email)]) (coll db "user").

(** The document [seed_super_admin] inserts. *)
Definition admin_document (pwd_hash : string → string) : dict :=
  [("uid", VStr "admin-1");
   ("role", VStr "superadmin");
   ("email", VStr "admin@university.edu");
   ("name", VStr "Super Admin");
   ("password", VStr (pwd_hash "admin123"))].

(** The claims [login] has encoded for a user. *)
Definition token_claims (sub email role : value) (now : Z) : dict :=
  [("sub", sub); ("email", email); ("role", role);
   ("exp", VDate (now + minutes ACCESS_TOKEN_EXPIRE_MINUTES))].

(** The answer of [login] that carries [token]. *)
Definition token_response (token : string) : value :=
  VDict [("access_token", VStr token); ("token_type", VStr "bearer")].

(** How many options of question [q] are the chosen one and flagged correct. *)
Definition credited (answers : gmap string value) (q : value) : Z :=
  Z.of_nat (length (List.filter (credits (chosen_for answers q)) (options_of q))).

(** The [isCorrect] flag of an option. *)
Definition flagged_correct (opt : value) : bool :=
  match opt with
  | VDict d => py_truthy (default VNone (dict_get "isCorrect" d))
  | _ => false
  end.

(** What identifies an attempt: the fields no request rewrites. *)
Definition identity (att : dict) : list (option value) :=
  [dict_get "_id" att; dict_get "quizId" att; dict_get "studentId" att;
   dict_get "startTime" att].

(** From [db] to [db'] the users are the same, the quizzes are the same
    followed perhaps by new ones, and the attempts are, by what identifies
    them, the same followed perhaps by new ones. *)
Definition extends (db db' : database) : Prop :=
  coll db' "user" = coll db "user"
  ∧ (∃ new, coll db' "quiz" = coll db "quiz" ++ new)
  ∧ (∃ new, map identity (coll db' "attempt")
            = map identity (coll db "attempt") ++ new).

(** The computation takes the store to one that extends it. *)
Definition grows {A : Type} (m : M A) : Prop :=
  ∀ db, extends db (snd (m db)).

(** * Properties *)

(** ** Monadic steps *)

Ltac mred :=
  repeat (unfold mbind, mret, result_bind, result_ret, M_bind, M_ret, lift,
            raise in *; cbn [fst snd] in *).

(** ** Dictionaries *)

Lemma dict_get_pop_ne k k' d : k ≠ k' → dict_get k (dict_pop k' d) = dict_get k d.
Proof.
  intros Hne. induction d as [|[k0 v] d IH]; [done|]. simpl.
  destruct (String.eqb_spec k' k0) as [->|Hk'].
  - rewrite IH. destruct (String.eqb_spec k k0); congruence.
  - simpl. destruct (String.eqb_spec k k0); [done|apply IH].
Qed.

Lemma dict_get_pop_eq k d : dict_get k (dict_pop k d) = None.
Proof.
  induction d as [|[k0 v] d IH]; [done|]. simpl.
  destruct (String.eqb_spec k k0) as [->|Hk]; [done|].
  simpl. destruct (String.eqb_spec k k0); [congruence|done].
Qed.

Lemma dict_get_set_eq k v d : dict_get k (dict_set k v d) = Some v.
Proof.
  induction d as [|[k0 v0] d IH]; simpl.
  - by rewrite String.eqb_refl.
  - destruct (String.eqb_spec k k0) as [->|Hk]; simpl.
    + by rewrite String.eqb_refl.
    + destruct (String.eqb_spec k k0); [congruence|done].
Qed.

Lemma dict_get_set_ne k k' v d :
  k ≠ k' → dict_get k (dict_set k' v d) = dict_get k d.
Proof.
  intros Hne. induction d as [|[k0 v0] d IH]; simpl.
  - destruct (String.eqb_spec k k'); congruence.
  - destruct (String.eqb_spec k' k0) as [->|Hk]; simpl.
    + destruct (String.eqb_spec k k0); [congruence|].
      by apply dict_get_pop_ne.
    + destruct (String.eqb_spec k k0); [done|apply IH].
Qed.


Lemma py_truthy_dict k d v : dict_get k d = Some v → py_truthy (VDict d) = true.
Proof. by destruct d. Qed.

(** ** Shapes *)

Lemma is_QuestionOption_inv opt :
  is_QuestionOption opt = true →
  ∃ d s, opt = VDict d ∧ dict_get "id" d = Some (VStr s)
         ∧ (dict_get "isCorrect" d = None
            ∨ ∃ b, dict_get "isCorrect" d = Some (VBool b)).
Proof.
  destruct opt as [| | | | |d| |]; try discriminate. simpl.
  unfold field, field_dflt. intros H.
  destruct (dict_get "id" d) as [[]|] eqn:Hid; try discriminate.
  destruct (dict_get "text" d) as [[]|]; try discriminate.
  destruct (dict_get "isCorrect" d) as [[]|] eqn:Hc; try discriminate;
    eauto 10.
Qed.

Lemma is_Question_inv q :
  is_Question q = true →
  ∃ d s, q = VDict d ∧ dict_get "id" d = Some (VStr s)
         ∧ dict_get "options" d = Some (VList (options_of q))
         ∧ forallb is_QuestionOption (options_of q) = true
         ∧ py_get q "points" (VInt 1) = Ok (VInt (points_of q)).
Proof.
  destruct q as [| | | | |d| |]; try discriminate. simpl.
  unfold field, field_dflt, is_list_of. intros H.
  destruct (dict_get "id" d) as [[]|] eqn:Hid; try discriminate.
  destruct (dict_get "text" d) as [[]|]; try discriminate.
  destruct (dict_get "options" d) as [[]|] eqn:Hopts; try discriminate.
  exists d, s. rewrite Hopts.
  destruct (dict_get "points" d) as [[]|]; simpl in H;
    rewrite ?andb_false_r, ?andb_true_r in H; try discriminate; done.
Qed.

Lemma is_Quiz_questions quiz :
  is_Quiz quiz = true →
  ∃ d, quiz = VDict d
       ∧ forallb is_Question (questions_of quiz) = true
       ∧ (qs_obj ← py_get quiz "questions" (VList []); py_iter qs_obj)
         = Ok (questions_of quiz).
Proof.
  destruct quiz as [| | | | |d| |]; try discriminate. simpl.
  unfold field, field_dflt, is_list_of. intros H.
  repeat (apply andb_prop in H as [H ?]).
  exists d. split; [done|].
  destruct (dict_get "questions" d) as [[]|]; try discriminate; done.
Qed.

(** ** Scoring: what the loops compute *)

#[local] Arguments py_eq : simpl never.
#[local] Arguments credits : simpl never.

Lemma credits_dict chosen d :
  credits chosen (VDict d)
  = py_eq (default VNone (dict_get "id" d)) chosen
    && py_truthy (default VNone (dict_get "isCorrect" d)).
Proof. reflexivity. Qed.

Lemma score_options_count opts q chosen p score :
  forallb is_QuestionOption opts = true →
  py_get q "points" (VInt 1) = Ok (VInt p) →
  score_options opts q chosen score
  = Ok (score + p * Z.of_nat (length (List.filter (credits chosen) opts))).
Proof.
  intros Hopts Hp. revert score.
  induction opts as [|opt opts IH]; intros score.
  - simpl. f_equal. lia.
  - simpl in Hopts. apply andb_prop in Hopts as [Hopt Hopts].
    destruct (is_QuestionOption_inv _ Hopt) as (d & s & -> & Hid & Hc).
    cbn [score_options List.filter]. rewrite credits_dict.
    mred. simpl. rewrite Hid. simpl.
    destruct (py_eq (VStr s) chosen); simpl; [|by rewrite IH].
    destruct Hc as [->|[b ->]]; simpl; [by rewrite IH|].
    destruct b; [|by rewrite IH].
    rewrite Hp. simpl. rewrite IH by done. f_equal. lia.
Qed.

Lemma score_question_closed answers q total score :
  is_Question q = true →
  score_question answers q (total, score)
  = Ok (total + points_of q,
        score + points_of q
                * Z.of_nat (length (List.filter (credits (chosen_for answers q))
                                      (options_of q)))).
Proof.
  intros Hq.
  destruct (is_Question_inv _ Hq) as (d & s & -> & Hid & Hopts & Hall & Hp).
  unfold score_question. rewrite Hp. mred. simpl.
  rewrite Hid, Hopts. simpl.
  rewrite (score_options_count _ _ _ _ _ Hall Hp).
  unfold chosen_for. simpl. by rewrite Hid.
Qed.

Lemma question_score_closed answers q :
  is_Question q = true →
  question_score answers q
  = points_of q * Z.of_nat (length (List.filter (credits (chosen_for answers q))
                                      (options_of q))).
Proof.
  intros Hq. unfold question_score.
  by rewrite score_question_closed.
Qed.

Lemma score_questions_closed qs answers total score :
  forallb is_Question qs = true →
  score_questions qs answers (total, score)
  = Ok (total + sum_Z (map points_of qs),
        score + sum_Z (map (question_score answers) qs)).
Proof.
  revert total score. induction qs as [|q qs IH]; intros total score Hqs.
  - simpl. do 2 f_equal; lia.
  - simpl in Hqs. apply andb_prop in Hqs as [Hq Hqs].
    cbn [score_questions]. rewrite score_question_closed by done. mred.
    rewrite IH by done. cbn [map sum_Z foldr].
    rewrite question_score_closed by done.
    fold (sum_Z (map points_of qs)).
    fold (sum_Z (map (question_score answers) qs)).
    do 2 f_equal; lia.
Qed.

Lemma max_score_sum quiz : max_score quiz = sum_Z (map points_of (questions_of quiz)).
Proof.
  unfold max_score, sum_Z. induction (questions_of quiz); simpl; congruence.
Qed.

Lemma calculate_score_loop_closed quiz answers :
  is_Quiz quiz = true →
  calculate_score_loop quiz answers
  = Ok (max_score quiz,
        sum_Z (map (question_score answers) (questions_of quiz))).
Proof.
  intros HQ. destruct (is_Quiz_questions _ HQ) as (d & -> & Hqs & Hiter).
  unfold calculate_score_loop. mred.
  destruct (py_get (VDict d) "questions" (VList [])) as [qs_obj|]; [|done].
  rewrite Hiter. rewrite score_questions_closed by done.
  by rewrite max_score_sum.
Qed.

Lemma calculate_score_closed quiz answers :
  is_Quiz quiz = true →
  calculate_score quiz answers
  = Ok (sum_Z (map (question_score answers) (questions_of quiz))).
Proof.
  intros HQ. unfold calculate_score.
  by rewrite calculate_score_loop_closed.
Qed.

(** ** Scoring: unanswered questions and foreign keys *)

Lemma py_eq_str_l s v : py_eq (VStr s) v = true → v = VStr s.
Proof.
  destruct v; try discriminate. unfold py_eq.
  intros H. apply String.eqb_eq in H. by subst.
Qed.

Lemma credits_none opts :
  forallb is_QuestionOption opts = true →
  List.filter (credits VNone) opts = [].
Proof.
  induction opts as [|opt opts IH]; [done|]. simpl.
  intros H. apply andb_prop in H as [Hopt Hopts].
  destruct (is_QuestionOption_inv _ Hopt) as (d & s & -> & Hid & _).
  rewrite credits_dict, Hid. simpl.
  replace (py_eq (VStr s) VNone) with false by done. simpl. by apply IH.
Qed.

Lemma question_score_unanswered answers q :
  is_Question q = true → unanswered answers q → question_score answers q = 0.
Proof.
  intros Hq Hun. rewrite question_score_closed by done.
  destruct (is_Question_inv _ Hq) as (d & s & -> & Hid & _ & Hall & _).
  unfold chosen_for. simpl id_of. rewrite Hid. simpl.
  rewrite (Hun s) by (simpl; by rewrite Hid). simpl.
  rewrite credits_none by done. simpl. lia.
Qed.

(** The loops read [answers] only at the ids of the questions. *)
Lemma score_questions_ext qs answers answers' acc :
  (∀ q s, q ∈ qs → id_of q = VStr s → answers !! s = answers' !! s) →
  score_questions qs answers acc = score_questions qs answers' acc.
Proof.
  revert acc. induction qs as [|q qs IH]; intros acc Hagree; [done|].
  cbn [score_questions].
  assert (score_question answers q acc = score_question answers' q acc) as ->.
  { unfold score_question. destruct acc as [total score].
    destruct (py_get q "points" (VInt 1)) as [points|]; [|done]. mred.
    destruct (py_iadd total points) as [total'|]; [|done].
    destruct q as [| | | | |d| |]; try done. simpl.
    destruct (dict_get "id" d) as [qid|] eqn:Hid; [|done].
    destruct qid as [| | |s| | | |]; try done. simpl.
    rewrite (Hagree (VDict d) s); [done|by left|]. simpl. by rewrite Hid. }
  mred. destruct (score_question answers' q acc) as [acc'|]; [|done].
  apply IH. intros q' s Hin. apply Hagree. by right.
Qed.

Lemma calculate_score_ext quiz answers answers' :
  (∀ q s, q ∈ questions_of quiz → id_of q = VStr s →
          answers !! s = answers' !! s) →
  calculate_score quiz answers = calculate_score quiz answers'.
Proof.
  intros Hagree. unfold calculate_score, calculate_score_loop.
  destruct quiz as [| | | | |d| |]; try done.
  unfold py_get. mred. unfold questions_of in Hagree.
  assert (∀ keys : list string, ∀ q s,
            q ∈ map VStr keys → id_of q = VStr s → answers !! s = answers' !! s)
    as Hstr.
  { intros keys q s Hin. apply list_elem_of_fmap in Hin as (k & -> & _).
    discriminate. }
  destruct (dict_get "questions" d) as [qs_obj|]; simpl.
  - destruct qs_obj as [| | |str|qs|d'| |]; simpl; try done.
    + rewrite (score_questions_ext _ answers answers'); [done|].
      rewrite <- (map_map (λ c, String c EmptyString) VStr). apply Hstr.
    + by rewrite (score_questions_ext _ answers answers').
    + rewrite (score_questions_ext _ answers answers'); [done|].
      rewrite <- (map_map fst VStr). apply Hstr.
  - done.
Qed.

(** ** Scoring: the bound *)

Lemma credits_at_most_once chosen opts :
  forallb is_QuestionOption opts = true →
  distinct (map id_of opts) = true →
  (length (List.filter (credits chosen) opts) ≤ 1)%nat.
Proof.
  induction opts as [|opt opts IH]; [simpl; lia|].
  intros Hall Hdist. simpl in Hall. apply andb_prop in Hall as [Hopt Hall].
  simpl in Hdist. apply andb_prop in Hdist as [Hfresh Hdist].
  specialize (IH Hall Hdist). simpl.
  destruct (credits chosen opt) eqn:Hc; [|done].
  enough (List.filter (credits chosen) opts = []) as -> by (simpl; lia).
  destruct (List.filter (credits chosen) opts) as [|opt' l] eqn:Hf; [done|].
  exfalso.
  assert (In opt' (List.filter (credits chosen) opts)) as Hin
    by (rewrite Hf; by left).
  apply filter_In in Hin as [Hin Hc'].
  apply negb_true_iff in Hfresh.
  apply (not_true_iff_false _) in Hfresh. apply Hfresh.
  apply existsb_exists. exists (id_of opt'). split; [by apply in_map|].
  destruct (is_QuestionOption_inv _ Hopt) as (d & s & -> & Hid & _).
  rewrite forallb_forall in Hall.
  destruct (is_QuestionOption_inv _ (Hall _ Hin)) as (d' & s' & -> & Hid' & _).
  rewrite credits_dict in Hc, Hc'. simpl in *. rewrite Hid in *.
  rewrite Hid' in *. simpl in *.
  apply andb_prop in Hc as [Hc _]. apply andb_prop in Hc' as [Hc' _].
  apply py_eq_str_l in Hc. apply py_eq_str_l in Hc'.
  assert (s = s') as -> by congruence.
  unfold py_eq. apply String.eqb_refl.
Qed.

Lemma question_score_one_option answers q :
  is_Question q = true →
  distinct (map id_of (options_of q)) = true →
  question_score answers q = 0 ∨ question_score answers q = points_of q.
Proof.
  intros Hq Hdist. rewrite question_score_closed by done.
  destruct (is_Question_inv _ Hq) as (d & s & -> & _ & _ & Hall & _).
  pose proof (credits_at_most_once (chosen_for answers (VDict d)) _ Hall Hdist)
    as Hle.
  destruct (length _) as [|[|n]]; [left|right|]; lia.
Qed.

Lemma sum_question_scores_le answers qs :
  forallb is_Question qs = true →
  forallb (λ q, (0 <=? points_of q)%Z) qs = true →
  forallb (λ q, distinct (map id_of (options_of q))) qs = true →
  (0 ≤ sum_Z (map (question_score answers) qs) ≤ sum_Z (map points_of qs))%Z.
Proof.
  induction qs as [|q qs IH]; simpl; [lia|].
  intros Hqs Hpos Hdist.
  apply andb_prop in Hqs as [Hq Hqs]. apply andb_prop in Hpos as [Hp Hpos].
  apply andb_prop in Hdist as [Hd Hdist].
  specialize (IH Hqs Hpos Hdist). apply Z.leb_le in Hp.
  fold (sum_Z (map (question_score answers) qs)).
  fold (sum_Z (map points_of qs)).
  destruct (question_score_one_option answers q Hq Hd) as [-> | ->]; lia.
Qed.

(** ** The claims about the scoring engine *)

(** C1 (as amended).  For every quiz (a document of the [Quiz] shape) whose
    questions have non-negative points and whose options, within each
    question, have pairwise different ids, and for every answer map, [calculate_score] returns a score between
    0 and the sum of [q.points] over the questions (the [total] the loop
    accumulates), and each question contributes either nothing or its own
    points. *)
Theorem calculate_score_le_max (quiz : value) (answers : gmap string value) :
  is_Quiz quiz = true →
  nonneg_points quiz = true →
  distinct_option_ids quiz = true →
  ∃ score,
    calculate_score quiz answers = Ok score
    ∧ calculate_score_loop quiz answers = Ok (max_score quiz, score)
    ∧ (0 ≤ score ≤ max_score quiz)%Z
    ∧ ∀ q, q ∈ questions_of quiz →
           question_score answers q = 0
           ∨ question_score answers q = points_of q.
Proof.
  intros HQ Hpos Hdist.
  exists (sum_Z (map (question_score answers) (questions_of quiz))).
  destruct (is_Quiz_questions _ HQ) as (d & -> & Hqs & _).
  split; [by apply calculate_score_closed|].
  split; [by apply calculate_score_loop_closed|].
  split.
  - rewrite max_score_sum. by apply sum_question_scores_le.
  - intros q Hin. apply list_elem_of_In in Hin.
    rewrite forallb_forall in Hqs. unfold distinct_option_ids in Hdist.
    rewrite forallb_forall in Hdist.
    apply question_score_one_option; auto.
Qed.

Lemma calculate_score_le_max_witness :
  ∃ score, calculate_score quiz_two {["q1" := VStr "b"]} = Ok score
           ∧ (0 ≤ score ≤ max_score quiz_two)%Z.
Proof.
  destruct (calculate_score_le_max quiz_two {["q1" := VStr "b"]}
              eq_refl eq_refl eq_refl) as (score & H1 & _ & H2 & _).
  exists score. split; assumption.
Defined.

(** C1, as stated, fails: two options that share the chosen id and are both
    flagged correct are both counted, and a question with negative points
    that is not answered leaves the score above the sum. *)
Lemma calculate_score_exceeds_max :
  (calculate_score quiz_dup_ids {["q1" := VStr "a"]} = Ok 2
   ∧ max_score quiz_dup_ids = 1)
  ∧ (calculate_score quiz_negative ∅ = Ok 0
     ∧ max_score quiz_negative = -1).
Proof. repeat split; vm_compute; reflexivity. Qed.

(** C4 (as amended).  [calculate_score] is a function of the quiz and the
    answers alone and leaves the store as it is; a quiz document without a
    [questions] field scores 0; and every document of the [Quiz] shape is
    scored without an exception. *)
Theorem calculate_score_defensive (quiz : value)
  (answers : gmap string value) (db : database) :
  (∀ d, quiz = VDict d → dict_get "questions" d = None →
        calculate_score quiz answers = Ok 0)
  ∧ (is_Quiz quiz = true → ∃ score, calculate_score quiz answers = Ok score)
  ∧ lift (calculate_score quiz answers) db = (calculate_score quiz answers, db).
Proof.
  split; [|split].
  - intros d -> Hnone. unfold calculate_score, calculate_score_loop.
    simpl. by rewrite Hnone.
  - intros HQ. eexists. by apply calculate_score_closed.
  - reflexivity.
Qed.

(** C4, as stated, fails: a question without an [id] (which
    [QuizCreateRequest] accepts) makes [q["id"]] raise. *)
Lemma calculate_score_raises :
  calculate_score quiz_no_question_id ∅ = Raise (KeyError "id").
Proof. vm_compute. reflexivity. Qed.

(** C7 (as amended).  For every quiz of the [Quiz] shape (so that every
    option has a string [id]), scoring the empty answer map gives 0; the
    score is the sum of what each question contributes, and a question
    without an entry in the answer map contributes 0; and an entry whose key
    is not the id of a question does not change the score. *)
Theorem calculate_score_unanswered (quiz : value) :
  is_Quiz quiz = true →
  calculate_score quiz ∅ = Ok 0
  ∧ (∀ answers,
       calculate_score quiz answers
       = Ok (sum_Z (map (question_score answers) (questions_of quiz)))
       ∧ ∀ q, q ∈ questions_of quiz → unanswered answers q →
              question_score answers q = 0)
  ∧ (∀ answers k v,
       (∀ q, q ∈ questions_of quiz → id_of q ≠ VStr k) →
       calculate_score quiz (<[k := v]> answers)
       = calculate_score quiz answers).
Proof.
  intros HQ. destruct (is_Quiz_questions _ HQ) as (d & Hd & Hqs & _).
  rewrite forallb_forall in Hqs.
  assert (∀ answers q, q ∈ questions_of quiz → unanswered answers q →
                       question_score answers q = 0) as Hzero.
  { intros answers q Hin Hun. apply question_score_unanswered; [|done].
    apply Hqs. by apply list_elem_of_In. }
  split; [|split].
  - rewrite calculate_score_closed by done. f_equal.
    induction (questions_of quiz) as [|q qs IH]; [done|].
    cbn [map sum_Z foldr]. fold (sum_Z (map (question_score ∅) qs)).
    rewrite Hzero; [|by left|by intros s _].
    rewrite IH; [done| |].
    + intros x Hx. apply Hqs. by right.
    + intros answers q' Hin. apply Hzero. by right.
  - intros answers. split; [by apply calculate_score_closed|by apply Hzero].
  - intros answers k v Hk. apply calculate_score_ext.
    intros q s Hin Hid. apply lookup_insert_ne. intros ->. by apply (Hk q).
Qed.

Lemma calculate_score_unanswered_witness :
  calculate_score quiz_two ∅ = Ok 0.
Proof. exact (proj1 (calculate_score_unanswered quiz_two eq_refl)). Defined.

(** C7, as stated, fails: [opt.get("id")] of an option without an [id] is
    [None], and so is [answers.get(q["id"])] of a question that was not
    answered; the two are equal, and an option flagged correct then scores
    the points of the question.  Such a quiz can be created, attempted and
    submitted with no answers at all. *)
Lemma calculate_score_unanswered_scores :
  calculate_score quiz_option_without_id ∅ = Ok 3
  ∧ (let create :=
       create_quiz sample_clock sample_rnd
         (QuizCreateRequest.mk "Algebra" 30 [question_option_without_id])
         teacher in
     let start :=
       start_attempt sample_clock (AttemptStart.mk "DKRY5C" "student-1") in
     let submit :=
       submit_attempt sample_clock (AttemptSubmit.mk oid_1 ∅) in
     fst (then_ create (then_ start submit) db_empty)
     = Ok (VDict [("score", VInt 3)])).
Proof. split; vm_compute; reflexivity. Qed.

(** ** The store *)

Lemma value_eqb_str v s : value_eqb v (VStr s) = true ↔ v = VStr s.
Proof.
  destruct v; simpl; try (split; [discriminate|intros [=]]).
  rewrite String.eqb_eq. split; [by intros ->|by intros [=]].
Qed.

Lemma value_eqb_oid v o : value_eqb v (VOid o) = true ↔ v = VOid o.
Proof.
  destruct v; simpl; try (split; [discriminate|intros [=]]).
  rewrite N.eqb_eq. split; [by intros ->|by intros [=]].
Qed.

Lemma matches_code code doc :
  matches [("code", VStr code)] doc = true
  ↔ dict_get "code" doc = Some (VStr code).
Proof.
  unfold matches. simpl. rewrite andb_true_r.
  destruct (dict_get "code" doc) as [w|]; [|split; discriminate].
  rewrite value_eqb_str. split; [by intros ->|by intros [=]].
Qed.

Lemma matches_oid oid doc :
  matches [("_id", VOid oid)] doc = true
  ↔ dict_get "_id" doc = Some (VOid oid).
Proof.
  unfold matches. simpl. rewrite andb_true_r.
  destruct (dict_get "_id" doc) as [w|]; [|split; discriminate].
  rewrite value_eqb_oid. split; [by intros ->|by intros [=]].
Qed.

Lemma find_none_iff {A : Type} (p : A → bool) (l : list A) :
  List.find p l = None ↔ ∀ x, x ∈ l → p x = false.
Proof.
  split.
  - intros H x Hin. apply list_elem_of_In in Hin. by eapply find_none.
  - intros H. induction l as [|a l IH]; [done|]. simpl.
    rewrite (H a) by by left. apply IH. intros x Hx. apply H. by right.
Qed.

Lemma find_some_split {A : Type} (p : A → bool) (l : list A) (a : A) :
  List.find p l = Some a →
  ∃ pre post, l = pre ++ a :: post ∧ p a = true
              ∧ ∀ x, x ∈ pre → p x = false.
Proof.
  induction l as [|b l IH]; [discriminate|]. simpl.
  destruct (p b) eqn:Hb.
  - intros [= ->]. exists [], l. split; [done|]. split; [done|].
    intros x Hx. by apply elem_of_nil in Hx.
  - intros Hf. destruct (IH Hf) as (pre & post & -> & Ha & Hpre).
    exists (b :: pre), post. split; [done|]. split; [done|].
    intros x Hx. apply elem_of_cons in Hx as [->|Hx]; auto.
Qed.

Lemma find_split {A : Type} (p : A → bool) (pre post : list A) (a : A) :
  (∀ x, x ∈ pre → p x = false) → p a = true →
  List.find p (pre ++ a :: post) = Some a.
Proof.
  intros Hpre Ha. induction pre as [|x pre IH]; simpl.
  - by rewrite Ha.
  - rewrite (Hpre x) by by left. apply IH. intros y Hy. apply Hpre. by right.
Qed.

Lemma update_first_none p upd docs :
  List.find p docs = None → update_first p upd docs = None.
Proof.
  induction docs as [|doc docs IH]; [done|]. simpl.
  destruct (p doc); [discriminate|]. intros H. by rewrite IH.
Qed.

Lemma update_first_split p upd pre doc post :
  (∀ x, x ∈ pre → p x = false) → p doc = true →
  update_first p upd (pre ++ doc :: post)
  = Some (doc' ← upd doc; Ok (pre ++ doc' :: post)).
Proof.
  intros Hpre Hdoc. induction pre as [|x pre IH]; simpl.
  - by rewrite Hdoc.
  - rewrite (Hpre x) by by left. rewrite IH by (intros y Hy; apply Hpre; by right).
    mred. by destruct (upd doc).
Qed.

Lemma coll_set_coll_eq name docs db : coll (set_coll name docs db) name = docs.
Proof. unfold coll, set_coll. simpl. by rewrite lookup_insert_eq. Qed.

Lemma coll_set_coll_ne name name' docs db :
  name ≠ name' → coll (set_coll name docs db) name' = coll db name'.
Proof. intros Hne. unfold coll, set_coll. simpl. by rewrite lookup_insert_ne. Qed.


Lemma insert_one_persisted name doc db :
  persisted name (("_id", VOid (next_oid db)) :: doc) db
    (snd (insert_one name doc db)).
Proof.
  split.
  - unfold coll. simpl. by rewrite lookup_insert_eq.
  - intros name' Hne. unfold coll. simpl. by rewrite lookup_insert_ne.
Qed.

(** ** Starting an attempt *)

Lemma find_code_none code db :
  List.find (matches [("code", VStr code)]) (coll db "quiz") = None
  ↔ no_quiz_with_code code db.
Proof.
  rewrite find_none_iff. unfold no_quiz_with_code.
  split; intros H doc Hin; specialize (H doc Hin).
  - intros Hc. apply matches_code in Hc. congruence.
  - apply not_true_is_false. intros Hm. by apply matches_code in Hm.
Qed.

Lemma start_attempt_not_found clock data db :
  List.find (matches [("code", VStr (AttemptStart.quizCode data))])
    (coll db "quiz") = None →
  start_attempt clock data db = (Raise (HTTPException 404 "Quiz not found"), db).
Proof.
  intros Hf. unfold start_attempt, find_one. mred. by rewrite Hf.
Qed.

Lemma start_attempt_found clock data db quiz :
  List.find (matches [("code", VStr (AttemptStart.quizCode data))])
    (coll db "quiz") = Some quiz →
  start_attempt clock data db
  = (Ok (VDict [("attemptId", VStr (oid_str (next_oid db)))]),
     snd (insert_one "attempt"
            (tail (created_attempt (next_oid db)
                     (default VNone (dict_get "id" quiz))
                     (AttemptStart.studentId data) (clock 0%nat))) db)).
Proof.
  intros Hf. unfold start_attempt, find_one. mred. rewrite Hf.
  apply find_some in Hf as [_ Hm]. apply matches_code in Hm.
  destruct quiz as [|kv quiz]; [discriminate|]. reflexivity.
Qed.

(** C6.  [start_attempt] answers 404 exactly when no quiz has the code, and
    then writes nothing; otherwise it adds one attempt in the state Created
    ([answers = {}], [score = 0], [endTime = None], [startTime] the time of
    the request, no suspicious event, [quizId] the [id] of the quiz found)
    to the [attempt] collection and returns the id generated for it. *)
Theorem start_attempt_spec (clock : nat → Z) (data : AttemptStart.t)
  (db : database) :
  (fst (start_attempt clock data db) = Raise (HTTPException 404 "Quiz not found")
   ↔ no_quiz_with_code (AttemptStart.quizCode data) db)
  ∧ (no_quiz_with_code (AttemptStart.quizCode data) db →
     start_attempt clock data db
     = (Raise (HTTPException 404 "Quiz not found"), db))
  ∧ (∀ quiz,
       List.find (matches [("code", VStr (AttemptStart.quizCode data))])
         (coll db "quiz") = Some quiz →
       fst (start_attempt clock data db)
       = Ok (VDict [("attemptId", VStr (oid_str (next_oid db)))])
       ∧ persisted "attempt"
           (created_attempt (next_oid db) (default VNone (dict_get "id" quiz))
              (AttemptStart.studentId data) (clock 0%nat))
           db (snd (start_attempt clock data db))).
Proof.
  split; [|split].
  - rewrite <- find_code_none.
    destruct (List.find _ (coll db "quiz")) as [quiz|] eqn:Hf.
    + rewrite (start_attempt_found _ _ _ _ Hf). simpl. split; discriminate.
    + by rewrite (start_attempt_not_found _ _ _ Hf).
  - intros Hno. apply start_attempt_not_found. by apply find_code_none.
  - intros quiz Hf. rewrite (start_attempt_found _ _ _ _ Hf).
    split; [done|]. apply insert_one_persisted.
Qed.

(** ** [ObjectId] and its string *)





(** ** Updating an attempt *)

Lemma update_one_none name filter upd db :
  List.find (matches filter) (coll db name) = None →
  update_one name filter upd db = (Ok tt, db).
Proof. intros Hf. unfold update_one. by rewrite update_first_none. Qed.

Lemma update_one_some name filter upd db doc doc' :
  List.find (matches filter) (coll db name) = Some doc →
  upd doc = Ok doc' →
  ∃ db', update_one name filter upd db = (Ok tt, db')
         ∧ replaced name doc doc' db db'.
Proof.
  intros Hf Hupd.
  destruct (find_some_split _ _ _ Hf) as (pre & post & Hl & Hdoc & Hpre).
  exists (set_coll name (pre ++ doc' :: post) db). split.
  - unfold update_one. rewrite Hl, update_first_split by done.
    rewrite Hupd. reflexivity.
  - split.
    + exists pre, post. by rewrite coll_set_coll_eq.
    + intros name' Hne. by apply coll_set_coll_ne.
Qed.

Lemma ObjectId_raises s e : ObjectId s = Raise e → e = InvalidId.
Proof.
  unfold ObjectId. destruct (_ =? _)%nat; [|congruence].
  destruct (hex_value s 0); congruence.
Qed.


(** ** Submitting an attempt *)

Lemma submit_attempt_not_found clock data db oid :
  ObjectId (AttemptSubmit.attemptId data) = Ok oid →
  List.find (matches [("_id", VOid oid)]) (coll db "attempt") = None →
  submit_attempt clock data db
  = (Raise (HTTPException 404 "Attempt not found"), db).
Proof.
  intros Hoid Hf. unfold submit_attempt, find_one. mred.
  by rewrite Hoid, Hf.
Qed.

Lemma submit_attempt_invalid_id clock data db e :
  ObjectId (AttemptSubmit.attemptId data) = Raise e →
  submit_attempt clock data db = (Raise InvalidId, db).
Proof.
  intros Hoid. unfold submit_attempt. mred. rewrite Hoid.
  by rewrite (ObjectId_raises _ _ Hoid).
Qed.

Lemma submit_attempt_scored clock data db oid att quiz_id quiz score :
  ObjectId (AttemptSubmit.attemptId data) = Ok oid →
  List.find (matches [("_id", VOid oid)]) (coll db "attempt") = Some att →
  dict_get "quizId" att = Some quiz_id →
  List.find (matches [("id", quiz_id)]) (coll db "quiz") = Some quiz →
  calculate_score (VDict quiz) (AttemptSubmit.answers data) = Ok score →
  ∃ db',
    submit_attempt clock data db = (Ok (VDict [("score", VInt score)]), db')
    ∧ replaced "attempt" att
        (submitted (AttemptSubmit.answers data) score (clock 0%nat) att) db db'.
Proof.
  intros Hoid Hatt Hqid Hquiz Hscore.
  destruct (update_one_some "attempt" [("_id", VOid oid)]
              (mongo_set [("answers", answers_value (AttemptSubmit.answers data));
                          ("score", VInt score);
                          ("endTime", VDate (clock 0%nat))])
              db att _ Hatt eq_refl) as (db' & Hupd & Hrep).
  exists db'. split; [|exact Hrep].
  unfold submit_attempt, find_one. mred. rewrite Hoid, Hatt.
  destruct att as [|kv att]; [discriminate|].
  cbn [foldr py_truthy negb py_item]. rewrite Hqid, Hquiz.
  cbn [foldr]. rewrite Hscore, Hupd. reflexivity.
Qed.

(** C2, the failing case.  When the attempt resolves and the quiz it refers
    to does not, [submit_attempt] does not answer 404: [find_one] gives
    [None], [calculate_score] calls [get] on it, and the request ends in an
    [AttributeError] (a server error), the attempt unchanged. *)
Theorem submit_attempt_quiz_gone (clock : nat → Z) (data : AttemptSubmit.t)
  (db : database) (oid : N) (att : dict) (quiz_id : value) :
  ObjectId (AttemptSubmit.attemptId data) = Ok oid →
  List.find (matches [("_id", VOid oid)]) (coll db "attempt") = Some att →
  dict_get "quizId" att = Some quiz_id →
  List.find (matches [("id", quiz_id)]) (coll db "quiz") = None →
  submit_attempt clock data db = (Raise AttributeError, db)
  ∧ status_of (fst (submit_attempt clock data db)) = 500.
Proof.
  intros Hoid Hatt Hqid Hquiz.
  assert (submit_attempt clock data db = (Raise AttributeError, db)) as ->.
  { unfold submit_attempt, find_one. mred. rewrite Hoid, Hatt.
    destruct att as [|kv att]; [discriminate|].
    cbn [foldr py_truthy negb py_item]. by rewrite Hqid, Hquiz. }
  done.
Qed.

Lemma submit_attempt_quiz_gone_witness :
  submit_attempt (λ _, 2000) (AttemptSubmit.mk oid_0 ∅) db_orphan_attempt
  = (Raise AttributeError, db_orphan_attempt)
  ∧ status_of (fst (submit_attempt (λ _, 2000) (AttemptSubmit.mk oid_0 ∅)
                      db_orphan_attempt)) = 500.
Proof.
  apply (submit_attempt_quiz_gone _ _ _ 0%N
           (created_attempt 0 (VStr "GONE01") "student-1" 1000)
           (VStr "GONE01"));
    vm_compute; reflexivity.
Defined.

(** ** Logging a suspicious event *)

Lemma log_event_appends clock event db oid att events :
  ObjectId (SuspiciousEvent.attemptId event) = Ok oid →
  List.find (matches [("_id", VOid oid)]) (coll db "attempt") = Some att →
  dict_get "suspiciousEvents" att = Some (VList events) →
  ∃ db',
    log_event clock event db = (Ok (VDict [("status", VStr "logged")]), db')
    ∧ replaced "attempt" att
        (dict_set "suspiciousEvents"
           (VList (events ++ [event_record event (clock 0%nat)])) att) db db'.
Proof.
  intros Hoid Hatt Hev.
  destruct (update_one_some "attempt" [("_id", VOid oid)]
              (mongo_push "suspiciousEvents" (event_record event (clock 0%nat)))
              db att
              (dict_set "suspiciousEvents"
                 (VList (events ++ [event_record event (clock 0%nat)])) att)
              Hatt) as (db' & Hupd & Hrep).
  { unfold mongo_push. by rewrite Hev. }
  exists db'. split; [|exact Hrep].
  unfold log_event. mred. rewrite Hoid.
  unfold event_record in Hupd. by rewrite Hupd.
Qed.

(** On an attempt that is stored, the record goes to the end of the events
    and the events before it stay. *)
Lemma log_event_events clock event db oid events :
  ObjectId (SuspiciousEvent.attemptId event) = Ok oid →
  events_of oid db = Some events →
  log_event clock event db
  = (Ok (VDict [("status", VStr "logged")]), snd (log_event clock event db))
  ∧ events_of oid (snd (log_event clock event db))
    = Some (events ++ [event_record event (clock 0%nat)]).
Proof.
  intros Hoid Hev. unfold events_of in Hev.
  destruct (List.find _ (coll db "attempt")) as [att|] eqn:Hf; [|done].
  destruct (dict_get "suspiciousEvents" att) as [[| | | |l| | |]|] eqn:Hs;
    try done.
  injection Hev as ->.
  destruct (find_some_split _ _ _ Hf) as (pre & post & Hl & Hatt & Hpre).
  unfold log_event. mred. rewrite Hoid. unfold update_one.
  rewrite Hl, update_first_split by done.
  unfold mongo_push. rewrite Hs. simpl. split; [done|].
  unfold events_of. rewrite coll_set_coll_eq.
  rewrite find_split; [|done|].
  - by rewrite dict_get_set_eq.
  - apply matches_oid. apply matches_oid in Hatt.
    by rewrite dict_get_set_ne.
Qed.

(** Three calls, three records, in the order of the calls. *)
Lemma log_event_three c1 c2 c3 e1 e2 e3 db oid events :
  ObjectId (SuspiciousEvent.attemptId e1) = Ok oid →
  ObjectId (SuspiciousEvent.attemptId e2) = Ok oid →
  ObjectId (SuspiciousEvent.attemptId e3) = Ok oid →
  events_of oid db = Some events →
  events_of oid
    (snd (then_ (log_event c1 e1) (then_ (log_event c2 e2) (log_event c3 e3)) db))
  = Some (events ++ [event_record e1 (c1 0%nat); event_record e2 (c2 0%nat);
                     event_record e3 (c3 0%nat)]).
Proof.
  intros H1 H2 H3 Hev.
  destruct (log_event_events c1 e1 db oid events H1 Hev) as [R1 Hev1].
  destruct (log_event_events c2 e2 _ oid _ H2 Hev1) as [R2 Hev2].
  destruct (log_event_events c3 e3 _ oid _ H3 Hev2) as [_ Hev3].
  unfold then_. mred. rewrite R1. cbn [snd]. rewrite R2. cbn [snd].
  rewrite Hev3. by rewrite <- !app_assoc.
Qed.

(** C5, the failing case.  When the id is well formed and no attempt has
    it, [log_event] does not fail: [update_one] matches nothing and the
    handler answers ["logged"], the store unchanged. *)
Theorem log_event_unknown_attempt (clock : nat → Z)
  (event : SuspiciousEvent.t) (db : database) (oid : N) :
  ObjectId (SuspiciousEvent.attemptId event) = Ok oid →
  List.find (matches [("_id", VOid oid)]) (coll db "attempt") = None →
  log_event clock event db = (Ok (VDict [("status", VStr "logged")]), db)
  ∧ status_of (fst (log_event clock event db)) = 200.
Proof.
  intros Hoid Hf.
  assert (log_event clock event db
          = (Ok (VDict [("status", VStr "logged")]), db)) as ->.
  { unfold log_event. mred. rewrite Hoid.
    by rewrite update_one_none. }
  done.
Qed.

Lemma log_event_unknown_attempt_witness :
  log_event (λ _, 2000) (SuspiciousEvent.mk oid_7 "tab-switch" None)
    db_one_attempt
  = (Ok (VDict [("status", VStr "logged")]), db_one_attempt)
  ∧ status_of (fst (log_event (λ _, 2000)
                      (SuspiciousEvent.mk oid_7 "tab-switch" None)
                      db_one_attempt)) = 200.
Proof.
  apply (log_event_unknown_attempt _ _ _ 7%N); vm_compute; reflexivity.
Defined.

(** ** The public view *)

Lemma mapM_pop_isCorrect_sound opts opts' :
  mapM pop_isCorrect opts = Ok opts' → opts' = map public_option opts.
Proof.
  revert opts'. induction opts as [|opt opts IH]; intros opts'; simpl.
  - by intros [= <-].
  - mred. destruct (pop_isCorrect opt) as [opt1|] eqn:Hopt; [|done].
    destruct (mapM pop_isCorrect opts) as [opts1|]; [|done].
    intros [= <-]. rewrite <- (IH opts1 eq_refl).
    destruct opt; simpl in Hopt; try discriminate. by injection Hopt as <-.
Qed.

Lemma mapM_pop_isCorrect_total opts :
  forallb is_QuestionOption opts = true →
  mapM pop_isCorrect opts = Ok (map public_option opts).
Proof.
  induction opts as [|opt opts IH]; [done|]. simpl. intros H.
  apply andb_prop in H as [Hopt Hopts].
  destruct (is_QuestionOption_inv _ Hopt) as (d & s & -> & _).
  simpl. mred. by rewrite IH.
Qed.


Lemma strip_question_sound q q' :
  strip_question q = Ok q' → q' = public_question q.
Proof.
  unfold strip_question. destruct q as [| | | | |d| |]; try done.
  simpl. mred.
  destruct (dict_get "options" d) as [opts_obj|] eqn:Hopts; simpl.
  - destruct opts_obj as [| | |str|opts|d'| |]; simpl; try done.
    + rewrite <- (map_map (λ c, String c EmptyString) VStr).
      destruct (mapM pop_isCorrect _) as [opts'|]; [|done]. by intros [= <-].
    + destruct (mapM pop_isCorrect opts) as [opts'|] eqn:Hm; [|done].
      unfold dict_has. rewrite Hopts. intros [= <-].
      by rewrite (mapM_pop_isCorrect_sound _ _ Hm).
    + rewrite <- (map_map fst VStr).
      destruct (mapM pop_isCorrect _) as [opts'|]; [|done]. by intros [= <-].
  - unfold dict_has. rewrite Hopts. by intros [= <-].
Qed.

Lemma strip_question_total q :
  is_Question q = true → strip_question q = Ok (public_question q).
Proof.
  intros Hq.
  destruct (is_Question_inv _ Hq) as (d & s & -> & _ & Hopts & Hall & _).
  unfold strip_question. simpl. rewrite Hopts. simpl. mred.
  rewrite mapM_pop_isCorrect_total by done.
  unfold dict_has. by rewrite Hopts.
Qed.

Lemma mapM_strip_question_sound qs qs' :
  mapM strip_question qs = Ok qs' → qs' = map public_question qs.
Proof.
  revert qs'. induction qs as [|q qs IH]; intros qs'; simpl.
  - by intros [= <-].
  - mred. destruct (strip_question q) as [q1|] eqn:Hq; [|done].
    destruct (mapM strip_question qs) as [qs1|]; [|done].
    intros [= <-]. rewrite <- (IH qs1 eq_refl).
    by rewrite (strip_question_sound _ _ Hq).
Qed.

Lemma mapM_strip_question_total qs :
  forallb is_Question qs = true →
  mapM strip_question qs = Ok (map public_question qs).
Proof.
  induction qs as [|q qs IH]; [done|]. simpl. intros H.
  apply andb_prop in H as [Hq Hqs].
  rewrite strip_question_total by done. mred. by rewrite IH.
Qed.


Lemma is_Quiz_questions_field d :
  is_Quiz (VDict d) = true →
  dict_get "questions" d = None
  ∨ ∃ qs, dict_get "questions" d = Some (VList qs)
          ∧ forallb is_Question qs = true.
Proof.
  simpl. unfold field_dflt at 2. unfold is_list_of. intros H.
  repeat (apply andb_prop in H as [H ?]).
  destruct (dict_get "questions" d) as [[]|]; try discriminate; eauto.
Qed.

Lemma public_option_hides opt :
  match public_option opt with
  | VDict d => negb (dict_has "isCorrect" d)
  | _ => true
  end = true.
Proof.
  destruct opt; try done. simpl. unfold dict_has.
  by rewrite dict_get_pop_eq.
Qed.

Lemma ToPublicView_hides quiz : hides_correctness (ToPublicView quiz) = true.
Proof.
  unfold hides_correctness.
  assert (∀ qs, forallb
            (λ q, forallb (λ opt, match opt with
                                  | VDict d => negb (dict_has "isCorrect" d)
                                  | _ => true
                                  end) (options_of q))
            (map public_question qs) = true) as Hqs.
  { intros qs. apply forallb_forall. intros q' Hin.
    apply in_map_iff in Hin as (q & <- & _).
    apply forallb_forall. intros opt' Hopt'.
    destruct q as [| | | | |d| |]; try done. simpl in Hopt'.
    destruct (dict_get "options" d) as [opts_obj|] eqn:Hopts.
    - destruct opts_obj; simpl in Hopt'; rewrite ?Hopts in Hopt'; try done.
      rewrite dict_get_set_eq in Hopt'.
      apply in_map_iff in Hopt' as (opt & <- & _). apply public_option_hides.
    - simpl in Hopt'. by rewrite Hopts in Hopt'. }
  destruct quiz as [| | | | |d| |]; try done. simpl.
  destruct (dict_get "questions" d) as [qs_obj|] eqn:Hq.
  - destruct qs_obj; simpl; rewrite ?Hq; try done.
    rewrite dict_get_set_eq. apply Hqs.
  - simpl. by rewrite Hq.
Qed.

Lemma public_option_of_map opts :
  forallb is_QuestionOption opts = true →
  Forall2 public_option_of opts (map public_option opts).
Proof.
  induction opts as [|opt opts IH]; simpl; [constructor|]. intros H.
  apply andb_prop in H as [Hopt Hopts]. constructor; [|by apply IH].
  destruct (is_QuestionOption_inv _ Hopt) as (d & s & -> & _).
  exists d, (dict_pop "isCorrect" d). repeat split.
  - intros k Hk. by apply dict_get_pop_ne.
  - apply dict_get_pop_eq.
Qed.

Lemma public_question_of_map qs :
  forallb is_Question qs = true →
  Forall2 public_question_of qs (map public_question qs).
Proof.
  induction qs as [|q qs IH]; simpl; [constructor|]. intros H.
  apply andb_prop in H as [Hq Hqs]. constructor; [|by apply IH].
  destruct (is_Question_inv _ Hq) as (d & s & -> & _ & Hopts & Hall & _).
  simpl. rewrite Hopts.
  exists d, (dict_set "options" (VList (map public_option (options_of (VDict d)))) d),
    (options_of (VDict d)), (map public_option (options_of (VDict d))).
  repeat split; try done.
  - intros k Hk. by apply dict_get_set_ne.
  - apply dict_get_set_eq.
  - by apply public_option_of_map.
Qed.

Lemma ToPublicView_public_view_of d :
  is_Quiz (VDict d) = true → public_view_of (VDict d) (ToPublicView (VDict d)).
Proof.
  intros HQ. destruct (is_Quiz_questions_field _ HQ) as [Hnone|(qs & Hqs & Hall)].
  - simpl. rewrite Hnone. exists d, d. repeat split; try done.
    simpl. rewrite Hnone. constructor.
  - simpl. rewrite Hqs.
    exists d, (dict_set "questions" (VList (map public_question qs)) d).
    repeat split; try done.
    + intros k Hk. by apply dict_get_set_ne.
    + simpl. rewrite Hqs, dict_get_set_eq. by apply public_question_of_map.
    + congruence.
Qed.

Lemma is_Quiz_pop_id doc :
  is_Quiz (VDict doc) = true → is_Quiz (VDict (dict_pop "_id" doc)) = true.
Proof.
  simpl. unfold field, field_dflt.
  by rewrite !dict_get_pop_ne by discriminate.
Qed.

(** Whatever the stored document, a view that is returned is the public
    view of that document, and the store is as before. *)
Lemma get_quiz_by_code_sound code user db r db' :
  get_quiz_by_code code user db = (r, db') →
  db' = db
  ∧ ∀ view, r = Ok view →
      ∃ doc, List.find (matches [("code", VStr code)]) (coll db "quiz")
             = Some doc
             ∧ view = ToPublicView (VDict (dict_pop "_id" doc)).
Proof.
  unfold get_quiz_by_code, find_one. mred.
  destruct (List.find _ (coll db "quiz")) as [doc|] eqn:Hf;
    [|by intros [= <- <-]].
  cbn [foldr]. set (d := dict_pop "_id" doc).
  destruct (negb (py_truthy (VDict d))); [by intros [= <- <-]|].
  assert (∀ view, (∃ doc0, Some doc = Some doc0
                           ∧ view = ToPublicView (VDict (dict_pop "_id" doc0)))
                  ↔ view = ToPublicView (VDict d)) as Hview.
  { intros view. split; [by intros (doc0 & [= <-] & ->)|intros ->; eauto]. }
  setoid_rewrite Hview. clear Hview. simpl.
  destruct (dict_get "questions" d) as [qs_obj|] eqn:Hq; simpl.
  - destruct qs_obj as [| | |str|qs|d'| |]; simpl;
      try (by intros [= <- <-]).
    + rewrite <- (map_map (λ c, String c EmptyString) VStr).
      destruct (mapM strip_question _) as [qs'|]; intros [= <- <-];
        (split; [done|]); [|done].
      by intros view [= <-].
    + destruct (mapM strip_question qs) as [qs'|] eqn:Hm; intros [= <- <-];
        (split; [done|]); [|done].
      intros view [= <-]. unfold dict_has. rewrite Hq.
      by rewrite (mapM_strip_question_sound _ _ Hm).
    + rewrite <- (map_map fst VStr).
      destruct (mapM strip_question _) as [qs'|]; intros [= <- <-];
        (split; [done|]); [|done].
      by intros view [= <-].
  - unfold dict_has. rewrite Hq. intros [= <- <-]. split; [done|].
    by intros view [= <-].
Qed.

(** C3.  For every stored quiz (a document of the [Quiz] shape), fetching
    it by its code returns the quiz (the document without the store's [_id]) with [isCorrect] removed from
    every option of every question and every other field, question and
    option as it was, in the same order; no option of the view has an
    [isCorrect] field; and the store is left as it was. *)
Theorem get_quiz_by_code_public_view (code : string) (user : option value)
  (db : database) (doc : dict) :
  List.find (matches [("code", VStr code)]) (coll db "quiz") = Some doc →
  is_Quiz (VDict doc) = true →
  ∃ view,
    get_quiz_by_code code user db = (Ok view, db)
    ∧ view = ToPublicView (VDict (dict_pop "_id" doc))
    ∧ public_view_of (VDict (dict_pop "_id" doc)) view
    ∧ hides_correctness view = true.
Proof.
  intros Hf HQ. apply is_Quiz_pop_id in HQ.
  exists (ToPublicView (VDict (dict_pop "_id" doc))).
  split; [|split; [done|split]].
  - unfold get_quiz_by_code, find_one. mred. rewrite Hf. cbn [foldr].
    apply find_some in Hf as [_ Hm]. apply matches_code in Hm.
    rewrite <- (dict_get_pop_ne "code" "_id") in Hm by discriminate.
    rewrite (py_truthy_dict _ _ _ Hm). cbn [negb].
    destruct (is_Quiz_questions_field _ HQ) as [Hnone|(qs & Hqs & Hall)].
    + simpl. unfold dict_has. by rewrite Hnone.
    + simpl. unfold dict_has. rewrite Hqs. simpl.
      by rewrite mapM_strip_question_total.
  - by apply ToPublicView_public_view_of.
  - apply ToPublicView_hides.
Qed.

Lemma get_quiz_by_code_public_view_witness :
  ∃ view,
    get_quiz_by_code "ABC123" None db_one_attempt = (Ok view, db_one_attempt)
    ∧ hides_correctness view = true.
Proof.
  destruct (get_quiz_by_code_public_view "ABC123" None db_one_attempt
              (stored 0 quiz_one) eq_refl eq_refl) as (view & H1 & _ & _ & H2).
  exists view. split; assumption.
Defined.

(** ** Creating a quiz *)

Lemma create_quiz_allowed clock rnd data user role uid db :
  py_item user "role" = Ok role →
  py_in role [VStr "superadmin"; VStr "teacher"] = true →
  py_item user "uid" = Ok uid →
  create_quiz clock rnd data user db
  = (Ok (VDict [("id", VStr (generate_quiz_code rnd));
                ("code", VStr (generate_quiz_code rnd))]),
     snd (insert_one "quiz" (quiz_document clock rnd data uid) db)).
Proof.
  intros Hrole Hin Huid. unfold create_quiz. mred.
  rewrite Hrole, Hin. cbn [negb]. by rewrite Huid.
Qed.

Lemma create_quiz_returns clock rnd data user db r db' :
  create_quiz clock rnd data user db = (Ok r, db') →
  ∃ uid,
    r = VDict [("id", VStr (generate_quiz_code rnd));
               ("code", VStr (generate_quiz_code rnd))]
    ∧ db' = snd (insert_one "quiz" (quiz_document clock rnd data uid) db).
Proof.
  unfold create_quiz. mred.
  destruct (py_item user "role") as [role|]; [|discriminate].
  destruct (negb _); [discriminate|].
  destruct (py_item user "uid") as [uid|]; [|discriminate].
  intros [= <- <-]. by exists uid.
Qed.

(** C8 (as amended).  For every quiz the system creates, the [id] field and
    the public [code] are the same generated six-character code, which is
    also what the request returns as both; the only other identifier of the
    document is the [_id] the store assigns. *)
Theorem create_quiz_id_is_code (clock : nat → Z) (rnd : nat → nat)
  (data : QuizCreateRequest.t) (user : value) (db : database)
  (r : value) (db' : database) :
  create_quiz clock rnd data user db = (Ok r, db') →
  ∃ doc,
    persisted "quiz" doc db db'
    ∧ dict_get "id" doc = Some (VStr (generate_quiz_code rnd))
    ∧ dict_get "code" doc = Some (VStr (generate_quiz_code rnd))
    ∧ dict_get "_id" doc = Some (VOid (next_oid db))
    ∧ r = VDict [("id", VStr (generate_quiz_code rnd));
                 ("code", VStr (generate_quiz_code rnd))]
    ∧ String.length (generate_quiz_code rnd) = 6%nat.
Proof.
  intros H. destruct (create_quiz_returns _ _ _ _ _ _ _ H) as (uid & -> & ->).
  exists (("_id", VOid (next_oid db)) :: quiz_document clock rnd data uid).
  split; [apply insert_one_persisted|]. repeat split.
Qed.

Lemma create_quiz_id_is_code_witness :
  ∃ doc,
    coll (snd (create_quiz sample_clock sample_rnd sample_quiz_request
                 teacher db_empty)) "quiz" = [doc]
    ∧ dict_get "id" doc = dict_get "code" doc.
Proof.
  destruct (create_quiz_id_is_code sample_clock sample_rnd sample_quiz_request
              teacher db_empty _ _ eq_refl)
    as (doc & [Hp _] & Hid & Hcode & _).
  exists doc. split; [exact Hp|]. by rewrite Hid, Hcode.
Defined.

(** C8, as stated, fails: the quiz just created has the code [DKRY5C] in
    both [id] and [code]. *)
Lemma create_quiz_code_equals_id :
  ∃ doc,
    coll (snd (create_quiz sample_clock sample_rnd sample_quiz_request
                 teacher db_empty)) "quiz" = [doc]
    ∧ dict_get "id" doc = Some (VStr "DKRY5C")
    ∧ dict_get "code" doc = Some (VStr "DKRY5C").
Proof.
  eexists. split; [vm_compute; reflexivity|]. split; reflexivity.
Qed.

(** ** Timestamps of inserted documents *)

Lemma start_attempt_returns clock data db r db' :
  start_attempt clock data db = (Ok r, db') →
  ∃ quiz,
    List.find (matches [("code", VStr (AttemptStart.quizCode data))])
      (coll db "quiz") = Some quiz
    ∧ persisted "attempt"
        (created_attempt (next_oid db) (default VNone (dict_get "id" quiz))
           (AttemptStart.studentId data) (clock 0%nat)) db db'.
Proof.
  destruct (List.find (matches [("code", VStr (AttemptStart.quizCode data))])
              (coll db "quiz")) as [quiz|] eqn:Hf.
  - rewrite (start_attempt_found _ _ _ _ Hf). intros [= <- <-].
    exists quiz. split; [done|]. apply insert_one_persisted.
  - by rewrite (start_attempt_not_found _ _ _ Hf).
Qed.

Lemma seed_super_admin_inserts pwd_hash db :
  List.find (matches [("email", VStr "admin@university.edu")]) (coll db "user")
  = None →
  seed_super_admin pwd_hash db
  = (Ok tt,
     snd (insert_one "user"
            [("uid", VStr "admin-1");
             ("role", VStr "superadmin");
             ("email", VStr "admin@university.edu");
             ("name", VStr "Super Admin");
             ("password", VStr (pwd_hash "admin123"))] db)).
Proof.
  intros Hf. unfold seed_super_admin, find_one. mred. by rewrite Hf.
Qed.

(** The store helper of [database.py], which no handler calls, does stamp
    the document. *)
Lemma create_document_stamps clock name data db :
  dict_get "createdAt" data = None → dict_get "updatedAt" data = None →
  ∃ doc,
    persisted name doc db (snd (create_document clock name data db))
    ∧ dict_get "createdAt" doc = Some (VDate (clock 0%nat))
    ∧ dict_get "updatedAt" doc = Some (VDate (clock 0%nat)).
Proof.
  intros Hc Hu. unfold create_document. mred.
  eexists. split; [apply insert_one_persisted|].
  unfold dict_setdefault, dict_has. rewrite Hc.
  rewrite dict_get_set_ne, Hu by discriminate.
  cbn [dict_get String.eqb Ascii.eqb Bool.eqb].
  rewrite dict_get_set_eq, dict_get_set_ne, dict_get_set_eq by discriminate.
  done.
Qed.

(** C9 (as amended).  Every document inserted into the [quiz] collection
    carries [createdAt] and [updatedAt], read from the clock while the
    document is built; a document inserted into the [attempt] collection
    carries neither (it has [startTime], read from the clock at insertion),
    and the seeded document of the [user] collection carries neither. *)
Theorem inserted_document_timestamps :
  (∀ clock rnd data user db r db',
     create_quiz clock rnd data user db = (Ok r, db') →
     ∃ doc, persisted "quiz" doc db db'
            ∧ dict_get "createdAt" doc = Some (VDate (clock 0%nat))
            ∧ dict_get "updatedAt" doc = Some (VDate (clock 1%nat)))
  ∧ (∀ clock data db r db',
       start_attempt clock data db = (Ok r, db') →
       ∃ doc, persisted "attempt" doc db db'
              ∧ dict_get "createdAt" doc = None
              ∧ dict_get "updatedAt" doc = None
              ∧ dict_get "startTime" doc = Some (VDate (clock 0%nat)))
  ∧ (∀ pwd_hash db,
       List.find (matches [("email", VStr "admin@university.edu")])
         (coll db "user") = None →
       ∃ doc, persisted "user" doc db (snd (seed_super_admin pwd_hash db))
              ∧ dict_get "createdAt" doc = None
              ∧ dict_get "updatedAt" doc = None).
Proof.
  split; [|split].
  - intros clock rnd data user db r db' H.
    destruct (create_quiz_returns _ _ _ _ _ _ _ H) as (uid & -> & ->).
    eexists. split; [apply insert_one_persisted|]. split; reflexivity.
  - intros clock data db r db' H.
    destruct (start_attempt_returns _ _ _ _ _ H) as (quiz & _ & Hp).
    eexists. split; [exact Hp|]. repeat split.
  - intros pwd_hash db Hf. rewrite (seed_super_admin_inserts _ _ Hf).
    eexists. split; [apply insert_one_persisted|]. split; reflexivity.
Qed.

(** C9, as stated, fails: the attempt that [start_attempt] inserts has no
    [createdAt] and no [updatedAt]. *)
Lemma start_attempt_no_timestamps :
  ∃ doc,
    coll (snd (start_attempt sample_clock
                 (AttemptStart.mk "ABC123" "student-2") db_one_attempt))
      "attempt"
    = coll db_one_attempt "attempt" ++ [doc]
    ∧ dict_get "createdAt" doc = None
    ∧ dict_get "updatedAt" doc = None.
Proof.
  eexists. split; [vm_compute; reflexivity|]. split; reflexivity.
Qed.

(** ** Exceptions the handlers can raise *)

Create HintDb raises.

Lemma not_http_bind {A B : Type} (m : result A) (f : A → result B) :
  not_http m → (∀ a, not_http (f a)) → not_http (m ≫= f).
Proof. destruct m as [a|[]]; simpl; auto. Qed.

Lemma not_http_py_get o k dflt : not_http (py_get o k dflt).
Proof. by destruct o. Qed.

Lemma not_http_py_item o k : not_http (py_item o k).
Proof. destruct o; try done. simpl. by destruct (dict_get k d). Qed.

Lemma not_http_py_iter o : not_http (py_iter o).
Proof. by destruct o. Qed.

Lemma not_http_py_iadd acc v : not_http (py_iadd acc v).
Proof. by destruct v. Qed.

Lemma not_http_answers_get answers k : not_http (answers_get answers k).
Proof. by destruct k. Qed.

Lemma not_http_ObjectId s : not_http (ObjectId s).
Proof.
  unfold ObjectId. destruct (_ =? _)%nat; [|done]. by destruct (hex_value s 0).
Qed.

Lemma not_http_pop_isCorrect opt : not_http (pop_isCorrect opt).
Proof. by destruct opt. Qed.

#[local] Hint Resolve not_http_py_get not_http_py_item not_http_py_iter
  not_http_py_iadd not_http_answers_get not_http_ObjectId
  not_http_pop_isCorrect : raises.

Ltac not_http_steps :=
  repeat first
    [ apply not_http_bind; [auto with raises|intros ?]
    | match goal with |- not_http (if ?c then _ else _) => destruct c end
    | match goal with |- not_http (match ?x with _ => _ end) => destruct x end
    | exact I
    | auto with raises ].

Lemma not_http_score_options opts q chosen score :
  not_http (score_options opts q chosen score).
Proof.
  revert score. induction opts as [|opt opts IH]; intros score; [done|].
  cbn [score_options]. not_http_steps.
Qed.

Lemma not_http_score_question answers q acc :
  not_http (score_question answers q acc).
Proof.
  unfold score_question. destruct acc as [total score].
  pose proof not_http_score_options. not_http_steps.
Qed.

Lemma not_http_score_questions qs answers acc :
  not_http (score_questions qs answers acc).
Proof.
  revert acc. induction qs as [|q qs IH]; intros acc; [done|].
  cbn [score_questions]. pose proof not_http_score_question. not_http_steps.
Qed.

Lemma not_http_calculate_score quiz answers :
  not_http (calculate_score quiz answers).
Proof.
  unfold calculate_score, calculate_score_loop.
  pose proof not_http_score_questions. not_http_steps.
Qed.

Lemma not_http_mapM {A B : Type} (f : A → result B) (l : list A) :
  (∀ a, not_http (f a)) → not_http (mapM f l).
Proof.
  intros Hf. induction l as [|a l IH]; [done|]. cbn [mapM]. not_http_steps.
Qed.

Lemma not_http_strip_question q : not_http (strip_question q).
Proof.
  unfold strip_question.
  pose proof (not_http_mapM pop_isCorrect) as Hm.
  apply not_http_bind; [auto with raises|intros opts_obj].
  apply not_http_bind; [auto with raises|intros opts].
  apply not_http_bind; [apply Hm; auto with raises|intros opts'].
  destruct q; try done. by destruct opts_obj.
Qed.

Lemma not_http_mongo_set fields doc : not_http (mongo_set fields doc).
Proof. done. Qed.

Lemma not_http_mongo_push k v doc : not_http (mongo_push k v doc).
Proof. unfold mongo_push. destruct (dict_get k doc) as [[]|]; done. Qed.

Lemma only_404_bind {A B : Type} (m : M A) (f : A → M B) :
  only_404 m → (∀ a, only_404 (f a)) → only_404 (m ≫= f).
Proof.
  intros Hm Hf db. specialize (Hm db). unfold mbind, M_bind.
  destruct (m db) as [[a|e] db1]; [apply Hf|exact Hm].
Qed.

Lemma only_404_lift {A : Type} (r : result A) : not_http r → only_404 (lift r).
Proof. intros H db. unfold lift. simpl. by destruct r as [a|[]]. Qed.

Lemma only_404_ret {A : Type} (a : A) : only_404 (mret a).
Proof. by intros db. Qed.

Lemma only_404_raise {A : Type} detail :
  only_404 (raise (A := A) (HTTPException 404 detail)).
Proof. by intros db. Qed.

Lemma only_404_find_one name filter hide : only_404 (find_one name filter hide).
Proof. by intros db. Qed.

Lemma only_404_insert_one name doc : only_404 (insert_one name doc).
Proof. by intros db. Qed.

Lemma update_first_not_http p upd docs r :
  (∀ doc, not_http (upd doc)) →
  update_first p upd docs = Some r → not_http r.
Proof.
  intros Hupd. revert r. induction docs as [|doc docs IH]; intros r; [done|].
  simpl. destruct (p doc).
  - intros [= <-]. apply not_http_bind; [apply Hupd|done].
  - destruct (update_first p upd docs) as [r'|]; [|done].
    intros [= <-]. apply not_http_bind; [by apply IH|done].
Qed.

Lemma only_404_update_one name filter upd :
  (∀ doc, not_http (upd doc)) → only_404 (update_one name filter upd).
Proof.
  intros Hupd db. unfold update_one.
  destruct (update_first _ upd _) as [r|] eqn:Hr; [|done].
  pose proof (update_first_not_http _ _ _ _ Hupd Hr) as Hn.
  by destruct r as [docs|[]].
Qed.

Ltac only_404_steps :=
  repeat
    lazymatch goal with
    | |- only_404 (mbind _ _) => apply only_404_bind; [|intros ?]
    | |- only_404 (lift _) => apply only_404_lift
    | |- only_404 (mret _) => apply only_404_ret
    | |- only_404 (raise _) => apply only_404_raise
    | |- only_404 (find_one _ _ _) => apply only_404_find_one
    | |- only_404 (insert_one _ _) => apply only_404_insert_one
    | |- only_404 (update_one _ _ _) => apply only_404_update_one; intros ?
    | |- only_404 (if ?c then _ else _) => destruct c
    | |- only_404 (match ?x with _ => _ end) => destruct x
    | |- not_http (calculate_score _ _) => apply not_http_calculate_score
    | |- not_http (mongo_set _ _) => apply not_http_mongo_set
    | |- not_http (mongo_push _ _ _) => apply not_http_mongo_push
    | |- not_http (mapM strip_question _) =>
        apply not_http_mapM; apply not_http_strip_question
    | |- not_http _ => solve [auto with raises]
    end.

Lemma only_404_get_quiz_by_code code user :
  only_404 (get_quiz_by_code code user).
Proof. unfold get_quiz_by_code. only_404_steps. Qed.

Lemma only_404_start_attempt clock data : only_404 (start_attempt clock data).
Proof. unfold start_attempt. only_404_steps. Qed.

Lemma only_404_submit_attempt clock data : only_404 (submit_attempt clock data).
Proof. unfold submit_attempt. only_404_steps. Qed.

Lemma only_404_log_event clock event : only_404 (log_event clock event).
Proof. unfold log_event. only_404_steps. Qed.

(** ** Credentials *)

(** C10.  The four requests of a student taking a quiz are answered
    without looking at the [Authorization] header: whatever the header and
    whatever the token decoder, the answer and the store afterwards are the
    same, and the status is never 401 or 403. *)
Theorem attempt_taking_needs_no_credentials
  (jwt_decode jwt_decode' : string → option dict)
  (authorization authorization' : option string)
  (clock : nat → Z) (rnd : nat → nat) (r : request) (db : database) :
  attempt_taking r = true →
  app jwt_decode authorization clock rnd r db
  = app jwt_decode' authorization' clock rnd r db
  ∧ status_of (fst (app jwt_decode authorization clock rnd r db)) ≠ 401
  ∧ status_of (fst (app jwt_decode authorization clock rnd r db)) ≠ 403.
Proof.
  intros Hr. split.
  - destruct r; try discriminate; reflexivity.
  - assert (only_404 (app jwt_decode authorization clock rnd r)) as H.
    { destruct r; try discriminate; simpl.
      - apply only_404_get_quiz_by_code.
      - apply only_404_start_attempt.
      - apply only_404_submit_attempt.
      - apply only_404_log_event. }
    specialize (H db).
    destruct (fst (app jwt_decode authorization clock rnd r db)) as [v|[]];
      simpl; try (split; discriminate).
    subst. split; discriminate.
Qed.

Lemma attempt_taking_needs_no_credentials_witness :
  app (λ _, None) None sample_clock sample_rnd
    (POST_attempts_start (AttemptStart.mk "ABC123" "student-2")) db_one_attempt
  = app (λ _, Some [("sub", VStr "teacher-1"); ("role", VStr "teacher")])
      (Some "Bearer token") sample_clock sample_rnd
      (POST_attempts_start (AttemptStart.mk "ABC123" "student-2"))
      db_one_attempt.
Proof.
  exact (proj1 (attempt_taking_needs_no_credentials _ _ _ _ _ _
                  (POST_attempts_start (AttemptStart.mk "ABC123" "student-2"))
                  db_one_attempt eq_refl)).
Defined.

(** By contrast, creating a quiz does look at the header. *)
Example create_quiz_needs_credentials :
  status_of (fst (app (λ _, None) None sample_clock sample_rnd
                    (POST_quizzes sample_quiz_request) db_empty)) = 401.
Proof. reflexivity. Qed.

Example scenario_1_correct :
  calculate_score quiz_one {["q1" := VStr "b"]} = Ok 1.
Proof. vm_compute. reflexivity. Qed.

Example scenario_1_wrong :
  calculate_score quiz_one {["q1" := VStr "a"]} = Ok 0.
Proof. vm_compute. reflexivity. Qed.

Example scenario_1_empty : calculate_score quiz_one ∅ = Ok 0.
Proof. vm_compute. reflexivity. Qed.

Example scenario_2 :
  calculate_score quiz_two {["q1" := VStr "b"]} = Ok 1.
Proof. vm_compute. reflexivity. Qed.

Example quiz_two_is_Quiz : is_Quiz quiz_two = true.
Proof. reflexivity. Qed.

(** ** Scenarios of the attempt lifecycle *)

(** Scenario 3. *)
Example scenario_3 :
  start_attempt sample_clock (AttemptStart.mk "NOSUCH" "student-2")
    db_one_attempt
  = (Raise (HTTPException 404 "Quiz not found"), db_one_attempt).
Proof. reflexivity. Qed.

(** Scenario 4: the score returned is the one [calculate_score] computes,
    and [endTime] is set. *)
Example scenario_4 :
  ∃ db',
    submit_attempt sample_clock (AttemptSubmit.mk oid_1 {["q1" := VStr "b"]})
      db_one_attempt
    = (Ok (VDict [("score", VInt 1)]), db')
    ∧ calculate_score quiz_one {["q1" := VStr "b"]} = Ok 1
    ∧ (att ← List.find (matches [("_id", VOid 1)]) (coll db' "attempt");
       dict_get "endTime" att) = Some (VDate 1000).
Proof. eexists. repeat split; vm_compute; reflexivity. Qed.

(** Scenario 5: three events, in the order of the calls. *)
Example scenario_5 :
  events_of 1
    (snd (then_ (log_event (λ _, 2001) blur)
            (then_ (log_event (λ _, 2002) tab)
               (log_event (λ _, 2003) paste)) db_one_attempt))
  = Some [event_record blur 2001; event_record tab 2002;
          event_record paste 2003].
Proof. vm_compute. reflexivity. Qed.

(** A quiz whose question has no [id] can be created and attempted; the
    submission then ends in a [KeyError]. *)
Example submit_attempt_on_question_without_id :
  let create :=
    create_quiz sample_clock sample_rnd
      (QuizCreateRequest.mk "Algebra" 30
         [[("text", VStr "?");
           ("options", VList [mk_option "a" "A" true])]])
      teacher in
  let start :=
    start_attempt sample_clock (AttemptStart.mk "DKRY5C" "student-1") in
  let submit :=
    submit_attempt sample_clock (AttemptSubmit.mk oid_1 {["q1" := VStr "a"]}) in
  fst (then_ create (then_ start submit) db_empty) = Raise (KeyError "id").
Proof. vm_compute. reflexivity. Qed.

(** * Further properties of the code *)

(** ** Quiz codes *)

(** X1.  [generate_quiz_code] returns six characters, each an upper-case
    letter or a digit, whatever the random generator draws. *)
Theorem generate_quiz_code_format (rnd : nat → nat) :
  String.length (generate_quiz_code rnd) = 6%nat
  ∧ forallb upper_or_digit (chars (generate_quiz_code rnd)) = true.
Proof.
  split; [reflexivity|].
  unfold chars, generate_quiz_code.
  rewrite list_ascii_of_string_of_list_ascii.
  apply forallb_forall. intros c Hc.
  apply in_map_iff in Hc as (i & <- & _).
  assert (forallb upper_or_digit code_alphabet = true) as Halpha
    by (vm_compute; reflexivity).
  rewrite forallb_forall in Halpha. apply Halpha.
  apply nth_In. change (length code_alphabet) with 36%nat.
  apply Nat.mod_upper_bound. discriminate.
Qed.

(** ** Authentication *)

Lemma py_eq_str_r v s : py_eq v (VStr s) = true ↔ v = VStr s.
Proof.
  destruct v; try (split; [discriminate|intros [=]]).
  unfold py_eq. rewrite String.eqb_eq. split; [by intros ->|by intros [=]].
Qed.

Lemma py_in_privileged role :
  py_in role [VStr "superadmin"; VStr "teacher"] = true ↔ privileged role.
Proof.
  unfold py_in, privileged. cbn [existsb].
  rewrite orb_false_r, orb_true_iff, !py_eq_str_r. done.
Qed.

(** X2.  [get_current_user] returns a user exactly when the header is
    [<scheme> <token>] with the scheme spelling "bearer" in any letter
    case, the token not empty, the token decodable and its [sub] claim
    present and not null; the user then carries the claims [sub], [email]
    and [role] of the token.  Every other header is answered with 401. *)
Theorem get_current_user_spec (jwt_decode : string → option dict)
  (authorization : option string) :
  (∀ user,
     get_current_user jwt_decode authorization = Ok user
     ↔ ∃ header scheme token payload,
         authorization = Some header
         ∧ partition_space header = (scheme, token)
         ∧ lower scheme = "bearer" ∧ token ≠ ""
         ∧ jwt_decode token = Some payload
         ∧ default VNone (dict_get "sub" payload) ≠ VNone
         ∧ user = user_of_payload payload)
  ∧ (∀ e, get_current_user jwt_decode authorization = Raise e →
          ∃ detail, e = HTTPException 401 detail).
Proof.
  unfold get_current_user, user_of_payload.
  destruct authorization as [header|].
  2:{ split; [|intros e [= <-]; eauto].
      intros user. split; [discriminate|]. by intros (? & ? & ? & ? & [=] & _). }
  destruct (String.eqb_spec header "") as [->|Hne].
  { split; [|intros e [= <-]; eauto].
    intros user. split; [discriminate|].
    intros (? & ? & ? & ? & [= <-] & [= <- <-] & Hl & _). discriminate. }
  destruct (partition_space header) as [scheme token] eqn:Hp.
  destruct (String.eqb_spec (lower scheme) "bearer") as [Hs|Hs]; cbn [negb orb].
  2:{ split; [|intros e [= <-]; eauto].
      intros user. split; [discriminate|].
      intros (? & ? & ? & ? & [= <-] & Hp' & Hl & _).
      rewrite Hp in Hp'. injection Hp' as <- <-. done. }
  destruct (String.eqb_spec token "") as [Ht|Ht].
  { split; [|intros e [= <-]; eauto].
    intros user. split; [discriminate|].
    intros (? & ? & ? & ? & [= <-] & Hp' & _ & Hne' & _).
    rewrite Hp in Hp'. injection Hp' as <- <-. done. }
  destruct (jwt_decode token) as [payload|] eqn:Hd.
  2:{ split; [|intros e [= <-]; eauto].
      intros user. split; [discriminate|].
      intros (? & ? & ? & ? & [= <-] & Hp' & _ & _ & Hd' & _).
      rewrite Hp in Hp'. injection Hp' as <- <-. congruence. }
  destruct (default VNone (dict_get "sub" payload)) as [| | | | | | |] eqn:Hsub;
    (split; [|first [by intros e [=] | intros e [= <-]; eauto]]);
    intros user;
    (split;
     [ first [discriminate | intros [= <-]; exists header, scheme, token, payload;
               rewrite Hsub; repeat split; done]
     | intros (? & ? & ? & p & [= <-] & Hp' & _ & _ & Hd' & Hsub' & ->);
       rewrite Hp in Hp'; injection Hp' as <- <-;
       rewrite Hd in Hd'; injection Hd' as <-;
       rewrite Hsub in *; done ]).
Qed.

(** ** Requests that fail write nothing *)

Lemma atomic_bind_read {A B : Type} (m : M A) (f : A → M B) :
  readonly m → (∀ a, atomic (f a)) → atomic (m ≫= f).
Proof.
  intros Hm Hf db e. unfold mbind, M_bind.
  specialize (Hm db). destruct (m db) as [[a|e'] db1]; simpl in Hm; subst.
  - apply Hf.
  - done.
Qed.

Lemma atomic_bind_write {A B : Type} (m : M A) (f : A → M B) :
  atomic m → (∀ a, noraise (f a)) → atomic (m ≫= f).
Proof.
  intros Hm Hf db e. unfold mbind, M_bind.
  specialize (Hm db). destruct (m db) as [[a|e'] db1]; simpl in Hm.
  - intros H. by apply Hf in H.
  - intros _. by apply (Hm e').
Qed.

Lemma readonly_lift {A : Type} (r : result A) : readonly (lift r).
Proof. by intros db. Qed.

Lemma readonly_find_one name filter hide : readonly (find_one name filter hide).
Proof. by intros db. Qed.

Lemma readonly_count_documents name filter :
  readonly (count_documents name filter).
Proof. by intros db. Qed.

Lemma readonly_bind {A B : Type} (m : M A) (f : A → M B) :
  readonly m → (∀ a, readonly (f a)) → readonly (m ≫= f).
Proof.
  intros Hm Hf db. unfold mbind, M_bind.
  specialize (Hm db). destruct (m db) as [[a|e'] db1]; simpl in Hm; subst.
  - apply Hf.
  - done.
Qed.

Lemma readonly_ret {A : Type} (a : A) : readonly (mret a).
Proof. by intros db. Qed.

Lemma readonly_raise {A : Type} e : readonly (raise (A := A) e).
Proof. by intros db. Qed.

Lemma readonly_atomic {A : Type} (m : M A) : readonly m → atomic m.
Proof. intros H db e _. apply H. Qed.

Lemma atomic_insert_one name doc : atomic (insert_one name doc).
Proof. by intros db e. Qed.

Lemma atomic_update_one name filter upd : atomic (update_one name filter upd).
Proof.
  intros db e. unfold update_one.
  by destruct (update_first _ upd _) as [[docs|e']|].
Qed.

Lemma noraise_ret {A : Type} (a : A) : noraise (mret a).
Proof. by intros db e. Qed.

Ltac readonly_steps :=
  repeat
    lazymatch goal with
    | |- readonly (mbind _ _) => apply readonly_bind; [|intros ?]
    | |- readonly (lift _) => apply readonly_lift
    | |- readonly (mret _) => apply readonly_ret
    | |- readonly (raise _) => apply readonly_raise
    | |- readonly (find_one _ _ _) => apply readonly_find_one
    | |- readonly (count_documents _ _) => apply readonly_count_documents
    | |- readonly (if ?c then _ else _) => destruct c
    | |- readonly (match ?x with _ => _ end) => destruct x
    end.

Ltac atomic_steps :=
  repeat
    lazymatch goal with
    | |- atomic (mbind _ (insert_one _ _)) =>
        apply atomic_bind_write;
        [apply atomic_insert_one|intros ?; apply noraise_ret]
    | |- atomic (mbind _ (update_one _ _ _)) =>
        apply atomic_bind_write;
        [apply atomic_update_one|intros ?; apply noraise_ret]
    | |- atomic (mbind _ _) =>
        apply atomic_bind_read; [solve [readonly_steps]|intros ?]
    | |- atomic (if ?c then _ else _) => destruct c
    | |- atomic (match ?x with _ => _ end) => destruct x
    | |- atomic _ => apply readonly_atomic; solve [readonly_steps]
    end.

Lemma readonly_get_quiz_by_code code user : readonly (get_quiz_by_code code user).
Proof. unfold get_quiz_by_code. readonly_steps. Qed.

Lemma readonly_dashboard_stats user : readonly (dashboard_stats user).
Proof. unfold dashboard_stats. readonly_steps. Qed.

Lemma atomic_create_quiz clock rnd data user :
  atomic (create_quiz clock rnd data user).
Proof. unfold create_quiz. cbv zeta. atomic_steps. Qed.

Lemma atomic_start_attempt clock data : atomic (start_attempt clock data).
Proof. unfold start_attempt. cbv zeta. atomic_steps. Qed.

Lemma atomic_submit_attempt clock data : atomic (submit_attempt clock data).
Proof. unfold submit_attempt. atomic_steps. Qed.

Lemma atomic_log_event clock event : atomic (log_event clock event).
Proof. unfold log_event. atomic_steps. Qed.

(** X3.  When the dependency or the handler of a route raises, whatever
    the exception and whatever the route, the store is exactly as it was
    before the request: no handler writes before its last fallible step,
    and an update that raises writes nothing.  (This is about the
    exception a handler raises, not about an error after it has
    returned.) *)
Theorem raising_handler_writes_nothing (jwt_decode : string → option dict)
  (authorization : option string) (clock : nat → Z) (rnd : nat → nat)
  (r : request) (db : database) (e : exn) :
  fst (app jwt_decode authorization clock rnd r db) = Raise e →
  snd (app jwt_decode authorization clock rnd r db) = db.
Proof.
  revert db e. change (atomic (app jwt_decode authorization clock rnd r)).
  destruct r; cbn [app].
  - apply atomic_bind_read; [apply readonly_lift|intros user].
    apply atomic_create_quiz.
  - apply readonly_atomic, readonly_get_quiz_by_code.
  - apply atomic_start_attempt.
  - apply atomic_submit_attempt.
  - apply atomic_log_event.
  - apply readonly_atomic. apply readonly_bind; [apply readonly_lift|intros user].
    apply readonly_dashboard_stats.
Qed.

Lemma raising_handler_writes_nothing_witness :
  snd (app (λ _, None) None sample_clock sample_rnd
         (POST_attempts_submit (AttemptSubmit.mk "not-an-id" ∅)) db_one_attempt)
  = db_one_attempt.
Proof.
  apply (raising_handler_writes_nothing _ _ _ _ _ _ InvalidId). reflexivity.
Defined.

(** ** The routes that ask for credentials *)

Lemma get_current_user_ok jwt_decode authorization user :
  get_current_user jwt_decode authorization = Ok user →
  ∃ payload, user = user_of_payload payload
             ∧ default VNone (dict_get "sub" payload) ≠ VNone.
Proof.
  unfold get_current_user, user_of_payload.
  destruct authorization as [header|]; [|discriminate].
  destruct (String.eqb header ""); [discriminate|].
  destruct (partition_space header) as [scheme token].
  destruct (negb _ || _); [discriminate|].
  destruct (jwt_decode token) as [payload|]; [|discriminate].
  intros H. exists payload.
  destruct (default VNone (dict_get "sub" payload)); try discriminate;
    injection H as <-; done.
Qed.

Lemma get_current_user_raises jwt_decode authorization e :
  get_current_user jwt_decode authorization = Raise e →
  ∃ detail, e = HTTPException 401 detail.
Proof.
  unfold get_current_user.
  destruct authorization as [header|]; [|intros [= <-]; eauto].
  destruct (String.eqb header ""); [intros [= <-]; eauto|].
  destruct (partition_space header) as [scheme token].
  destruct (negb _ || _); [intros [= <-]; eauto|].
  destruct (jwt_decode token) as [payload|]; [|intros [= <-]; eauto].
  destruct (default VNone (dict_get "sub" payload)); try discriminate.
  intros [= <-]; eauto.
Qed.

Lemma privileged_dec role :
  py_in role [VStr "superadmin"; VStr "teacher"] = false ↔ ¬ privileged role.
Proof. rewrite <- py_in_privileged. by destruct (py_in _ _). Qed.

#[local] Arguments py_in : simpl never.

Lemma privileged_route_status clock rnd r db payload :
  attempt_taking r = false →
  status_of
    (fst (match r with
          | POST_quizzes data =>
              create_quiz clock rnd data (user_of_payload payload) db
          | _ => dashboard_stats (user_of_payload payload) db
          end))
  = if py_in (default VNone (dict_get "role" payload))
         [VStr "superadmin"; VStr "teacher"]
    then 200 else 403.
Proof.
  intros Hr. destruct r; try discriminate;
    unfold create_quiz, dashboard_stats, user_of_payload; mred; simpl;
    by destruct (py_in (default VNone (dict_get "role" payload)) _).
Qed.

(** X4.  On the two routes that ask for credentials, creating a quiz and
    reading the statistics, the answer is 401 exactly when
    [get_current_user] rejects the header, and 403 exactly when it accepts
    the header and the role of the token is neither "superadmin" nor
    "teacher"; the answer is 200 only when it accepts the header with one
    of these two roles, and the statistics are then always answered with
    200. *)
Theorem privileged_route_gate (jwt_decode : string → option dict)
  (authorization : option string) (clock : nat → Z) (rnd : nat → nat)
  (r : request) (db : database) :
  attempt_taking r = false →
  (status_of (fst (app jwt_decode authorization clock rnd r db)) = 401
   ↔ ∃ e, get_current_user jwt_decode authorization = Raise e)
  ∧ (status_of (fst (app jwt_decode authorization clock rnd r db)) = 403
     ↔ ∃ user role,
         get_current_user jwt_decode authorization = Ok user
         ∧ py_item user "role" = Ok role ∧ ¬ privileged role)
  ∧ (status_of (fst (app jwt_decode authorization clock rnd r db)) = 200
     → ∃ user role,
         get_current_user jwt_decode authorization = Ok user
         ∧ py_item user "role" = Ok role ∧ privileged role)
  ∧ (r = GET_dashboard_stats →
     (∃ user role,
        get_current_user jwt_decode authorization = Ok user
        ∧ py_item user "role" = Ok role ∧ privileged role) →
     status_of (fst (app jwt_decode authorization clock rnd r db)) = 200).
Proof.
  intros Hr.
  cut ((status_of (fst (app jwt_decode authorization clock rnd r db)) = 401
        ↔ ∃ e, get_current_user jwt_decode authorization = Raise e)
       ∧ (status_of (fst (app jwt_decode authorization clock rnd r db)) = 200
          ↔ ∃ user role,
              get_current_user jwt_decode authorization = Ok user
              ∧ py_item user "role" = Ok role ∧ privileged role)
       ∧ (status_of (fst (app jwt_decode authorization clock rnd r db)) = 403
          ↔ ∃ user role,
              get_current_user jwt_decode authorization = Ok user
              ∧ py_item user "role" = Ok role ∧ ¬ privileged role)).
  { intros (H1 & H2 & H3). split; [done|]. split; [done|].
    split; [apply H2|]. intros _. apply H2. }
  assert (app jwt_decode authorization clock rnd r db
          = match get_current_user jwt_decode authorization with
            | Ok user =>
                match r with
                | POST_quizzes data => create_quiz clock rnd data user db
                | _ => dashboard_stats user db
                end
            | Raise e => (Raise e, db)
            end) as ->.
  { destruct r; try discriminate; cbn [app]; mred;
      by destruct (get_current_user jwt_decode authorization). }
  destruct (get_current_user jwt_decode authorization) as [user|e] eqn:Hu.
  - destruct (get_current_user_ok _ _ _ Hu) as (payload & -> & _).
    rewrite (privileged_route_status _ _ _ _ _ Hr).
    set (role := default VNone (dict_get "role" payload)).
    assert (py_item (user_of_payload payload) "role" = Ok role) as Hrole
      by reflexivity.
    destruct (py_in role _) eqn:Hin.
    + apply py_in_privileged in Hin.
      split; [split; [discriminate|by intros [? [=]]]|].
      split; [split; [eauto|done]|].
      split; [discriminate|]. intros (? & role' & [= <-] & Hr' & Hn).
      rewrite Hrole in Hr'. injection Hr' as <-. done.
    + apply privileged_dec in Hin.
      split; [split; [discriminate|by intros [? [=]]]|].
      split; [|split; [eauto|done]].
      split; [discriminate|]. intros (? & role' & [= <-] & Hr' & Hp).
      rewrite Hrole in Hr'. injection Hr' as <-. done.
  - destruct (get_current_user_raises _ _ _ Hu) as [detail ->]. simpl.
    split; [split; [eauto|done]|].
    split; (split; [discriminate|by intros (? & ? & [=] & _)]).
Qed.

Lemma privileged_route_gate_witness :
  status_of (fst (app (λ _, Some [("sub", VStr "s-1"); ("role", VStr "student")])
                    (Some "Bearer token") sample_clock sample_rnd
                    (POST_quizzes sample_quiz_request) db_empty)) = 403.
Proof.
  apply (proj1 (proj2 (privileged_route_gate _ _ _ _
                         (POST_quizzes sample_quiz_request) db_empty
                         eq_refl))).
  exists (VDict [("uid", VStr "s-1"); ("email", VNone); ("role", VStr "student")]),
    (VStr "student").
  split; [reflexivity|]. split; [reflexivity|].
  intros [H|H]; discriminate.
Defined.

(** ** Statistics *)

Lemma value_eqb_none v : value_eqb v VNone = true ↔ v = VNone.
Proof. destruct v; simpl; split; try done. Qed.

Lemma active_iff att :
  active att = true
  ↔ dict_get "endTime" att = None ∨ dict_get "endTime" att = Some VNone.
Proof.
  unfold active, matches. simpl. rewrite andb_true_r.
  destruct (dict_get "endTime" att) as [w|]; [|split; auto].
  rewrite value_eqb_none. split; [intros ->; auto|by intros [|[=]]].
Qed.

Lemma matches_nil doc : matches [] doc = true.
Proof. reflexivity. Qed.

Lemma filter_all {A : Type} (p : A → bool) (l : list A) :
  (∀ x, p x = true) → List.filter p l = l.
Proof.
  intros Hp. induction l as [|a l IH]; [done|]. simpl. by rewrite Hp, IH.
Qed.

Lemma count_app p l l' : count p (l ++ l') = count p l + count p l'.
Proof. unfold count. rewrite List.filter_app, List.length_app. lia. Qed.

Lemma count_cons p doc l :
  count p (doc :: l) = (if p doc then 1 else 0) + count p l.
Proof. unfold count. simpl. destruct (p doc); simpl; lia. Qed.

Lemma count_bounds p l : (0 ≤ count p l ≤ Z.of_nat (length l))%Z.
Proof.
  unfold count. pose proof (List.filter_length_le p l) as H. lia.
Qed.

(** X5.  For a user whose role is "superadmin" or "teacher",
    [dashboard_stats] reports the number of stored quizzes, the number of
    stored attempts and, as active, the number of attempts whose [endTime]
    is null or missing; the active count never exceeds the attempt count,
    and the store is not written. *)
Theorem dashboard_stats_counts (user role : value) (db : database) :
  py_item user "role" = Ok role →
  privileged role →
  dashboard_stats user db
  = (Ok (VDict [("quizzes", VInt (Z.of_nat (length (coll db "quiz"))));
                ("attempts", VInt (Z.of_nat (length (coll db "attempt"))));
                ("activeAttempts", VInt (count active (coll db "attempt")))]),
     db)
  ∧ (0 ≤ count active (coll db "attempt")
       ≤ Z.of_nat (length (coll db "attempt")))%Z
  ∧ ∀ att, active att = true
           ↔ dict_get "endTime" att = None
             ∨ dict_get "endTime" att = Some VNone.
Proof.
  intros Hrole Hpriv. apply py_in_privileged in Hpriv.
  split; [|split; [apply count_bounds|apply active_iff]].
  unfold dashboard_stats, count_documents. mred. rewrite Hrole, Hpriv.
  cbn [negb]. rewrite !(filter_all (matches [])) by apply matches_nil.
  reflexivity.
Qed.

Lemma dashboard_stats_counts_witness :
  fst (dashboard_stats teacher db_one_attempt)
  = Ok (VDict [("quizzes", VInt 1); ("attempts", VInt 1);
               ("activeAttempts", VInt 1)]).
Proof.
  rewrite (proj1 (dashboard_stats_counts teacher (VStr "teacher")
                    db_one_attempt eq_refl (or_intror eq_refl))).
  reflexivity.
Defined.

(** ** Updates in place *)

Lemma update_one_split name filter upd db doc doc' :
  List.find (matches filter) (coll db name) = Some doc →
  upd doc = Ok doc' →
  ∃ db', update_one name filter upd db = (Ok tt, db')
         ∧ first_replaced name (matches filter) doc doc' db db'.
Proof.
  intros Hf Hupd.
  destruct (find_some_split _ _ _ Hf) as (pre & post & Hl & Hdoc & Hpre).
  exists (set_coll name (pre ++ doc' :: post) db). split.
  - unfold update_one. rewrite Hl, update_first_split by done.
    by rewrite Hupd.
  - by exists pre, post.
Qed.

Lemma first_replaced_other name p doc doc' db db' name' :
  first_replaced name p doc doc' db db' → name' ≠ name →
  coll db' name' = coll db name'.
Proof.
  intros (pre & post & _ & _ & _ & ->) Hne. by apply coll_set_coll_ne.
Qed.

Lemma first_replaced_find name p doc doc' db db' :
  first_replaced name p doc doc' db db' → p doc' = true →
  List.find p (coll db' name) = Some doc'.
Proof.
  intros (pre & post & _ & Hpre & _ & ->) Hp.
  rewrite coll_set_coll_eq. by apply find_split.
Qed.

Lemma first_replaced_length name p doc doc' db db' :
  first_replaced name p doc doc' db db' →
  length (coll db' name) = length (coll db name).
Proof.
  intros (pre & post & -> & _ & _ & ->).
  rewrite coll_set_coll_eq, !List.length_app. reflexivity.
Qed.

Lemma first_replaced_count name p q doc doc' db db' :
  first_replaced name p doc doc' db db' →
  count q (coll db' name)
  = (count q (coll db name) - (if q doc then 1 else 0)
     + (if q doc' then 1 else 0))%Z.
Proof.
  intros (pre & post & -> & _ & _ & ->).
  rewrite coll_set_coll_eq, !count_app, !count_cons. lia.
Qed.

Lemma first_replaced_next_oid name p doc doc' db db' :
  first_replaced name p doc doc' db db' → next_oid db' = next_oid db.
Proof. by intros (pre & post & _ & _ & _ & ->). Qed.

(** ** Submitting, in full *)

Lemma submitted_fields answers score now att :
  dict_get "answers" (submitted answers score now att)
  = Some (answers_value answers)
  ∧ dict_get "score" (submitted answers score now att) = Some (VInt score)
  ∧ dict_get "endTime" (submitted answers score now att) = Some (VDate now)
  ∧ ∀ k, k ≠ "answers" → k ≠ "score" → k ≠ "endTime" →
         dict_get k (submitted answers score now att) = dict_get k att.
Proof.
  unfold submitted. repeat split.
  - by rewrite !dict_get_set_ne, dict_get_set_eq by discriminate.
  - by rewrite dict_get_set_ne, dict_get_set_eq by discriminate.
  - by rewrite dict_get_set_eq.
  - intros k H1 H2 H3. by rewrite !dict_get_set_ne.
Qed.

Lemma submit_attempt_steps clock data db :
  submit_attempt clock data db
  = match ObjectId (AttemptSubmit.attemptId data) with
    | Raise e => (Raise e, db)
    | Ok oid =>
        match attempt_by_id oid db with
        | None => (Raise (HTTPException 404 "Attempt not found"), db)
        | Some att =>
            match py_item (VDict att) "quizId" with
            | Raise e => (Raise e, db)
            | Ok quiz_id =>
                match
                  calculate_score
                    match quiz_by_id quiz_id db with
                    | Some quiz => VDict quiz
                    | None => VNone
                    end (AttemptSubmit.answers data)
                with
                | Raise e => (Raise e, db)
                | Ok score =>
                    (Ok (VDict [("score", VInt score)]),
                     snd (update_one "attempt" [("_id", VOid oid)]
                            (mongo_set
                               [("answers",
                                 answers_value (AttemptSubmit.answers data));
                                ("score", VInt score);
                                ("endTime", VDate (clock 0%nat))]) db))
                end
            end
        end
    end.
Proof.
  unfold submit_attempt, find_one, attempt_by_id, quiz_by_id. mred.
  destruct (ObjectId (AttemptSubmit.attemptId data)) as [oid|e]; [|done].
  destruct (List.find _ (coll db "attempt")) as [att|] eqn:Hatt; [|done].
  cbn [foldr].
  pose proof (find_some _ _ Hatt) as [_ Hm]. apply matches_oid in Hm.
  rewrite (py_truthy_dict _ _ _ Hm). cbn [negb].
  destruct (py_item (VDict att) "quizId") as [quiz_id|e]; [|done].
  destruct (List.find (matches [("id", quiz_id)]) (coll db "quiz"))
    as [quiz|]; cbn [foldr];
    (destruct (calculate_score _ (AttemptSubmit.answers data))
       as [score|e]; [|done]);
    destruct (update_one_split "attempt" [("_id", VOid oid)]
                (mongo_set
                   [("answers", answers_value (AttemptSubmit.answers data));
                    ("score", VInt score);
                    ("endTime", VDate (clock 0%nat))]) db att _ Hatt eq_refl)
      as (db' & Hupd & _);
    by rewrite Hupd.
Qed.

Lemma submit_attempt_returns clock data db r db' :
  submit_attempt clock data db = (Ok r, db') →
  ∃ oid att quiz_id quiz score,
    ObjectId (AttemptSubmit.attemptId data) = Ok oid
    ∧ attempt_by_id oid db = Some att
    ∧ dict_get "quizId" att = Some quiz_id
    ∧ quiz_by_id quiz_id db = Some quiz
    ∧ calculate_score (VDict quiz) (AttemptSubmit.answers data) = Ok score
    ∧ r = VDict [("score", VInt score)]
    ∧ first_replaced "attempt" (matches [("_id", VOid oid)]) att
        (submitted (AttemptSubmit.answers data) score (clock 0%nat) att)
        db db'.
Proof.
  rewrite submit_attempt_steps.
  destruct (ObjectId (AttemptSubmit.attemptId data)) as [oid|]; [|done].
  destruct (attempt_by_id oid db) as [att|] eqn:Hatt; [|done].
  unfold py_item.
  destruct (dict_get "quizId" att) as [quiz_id|] eqn:Hq; [|done].
  destruct (quiz_by_id quiz_id db) as [quiz|] eqn:Hquiz; [|done].
  destruct (calculate_score (VDict quiz) _) as [score|] eqn:Hs; [|done].
  destruct (update_one_split "attempt" [("_id", VOid oid)]
              (mongo_set
                 [("answers", answers_value (AttemptSubmit.answers data));
                  ("score", VInt score);
                  ("endTime", VDate (clock 0%nat))]) db att _ Hatt eq_refl)
    as (db1 & Hupd & Hrep).
  rewrite Hupd. intros [= <- <-].
  exists oid, att, quiz_id, quiz, score. repeat split; done.
Qed.

Lemma matches_oid_submitted oid answers score now att :
  matches [("_id", VOid oid)] att = true →
  matches [("_id", VOid oid)] (submitted answers score now att) = true.
Proof.
  rewrite !matches_oid. intros H.
  destruct (submitted_fields answers score now att) as (_ & _ & _ & Hk).
  by rewrite Hk.
Qed.

Lemma hex_value_chars s acc o :
  hex_value s acc = Some o →
  forallb (λ c, match hex_digit c with Some _ => true | None => false end)
    (chars s) = true.
Proof.
  unfold chars. revert acc. induction s as [|c s IH]; intros acc; [done|].
  cbn [hex_value list_ascii_of_string forallb].
  destruct (hex_digit c) as [d|]; [|discriminate].
  intros H. by rewrite (IH _ H).
Qed.

Lemma ObjectId_bson_rejects s :
  bson_rejects s = true → ObjectId s = Raise InvalidId.
Proof.
  unfold bson_rejects, ObjectId. intros H.
  destruct (String.length s =? 24)%nat; [|done].
  destruct (hex_value s 0%N) as [o|] eqn:Ho; [|done].
  apply hex_value_chars in Ho. rewrite forallb_forall in Ho.
  cbn [negb orb] in H. apply existsb_exists in H as (c & Hc & Hbad).
  specialize (Ho c Hc). by destruct (hex_digit c).
Qed.

(** X6.  What [submit_attempt] makes of the attempt id.  For an id of 24
    hexadecimal digits the answer is 404 exactly when no stored attempt
    has it.  An id that [bson] rejects (its length is not 24, or it holds a
    character that is neither a hexadecimal digit nor white space) is not
    answered with 404: the request ends in [InvalidId], a server error,
    and nothing is written. *)
Theorem submit_attempt_id_handling (clock : nat → Z)
  (data : AttemptSubmit.t) (db : database) :
  (∀ oid, ObjectId (AttemptSubmit.attemptId data) = Ok oid →
          (status_of (fst (submit_attempt clock data db)) = 404
           ↔ attempt_by_id oid db = None))
  ∧ (bson_rejects (AttemptSubmit.attemptId data) = true →
     submit_attempt clock data db = (Raise InvalidId, db)
     ∧ status_of (fst (submit_attempt clock data db)) = 500).
Proof.
  rewrite submit_attempt_steps. split.
  - intros oid ->.
    destruct (attempt_by_id oid db) as [att|] eqn:Hatt; [|done].
    split; [|done].
    pose proof (not_http_py_item (VDict att) "quizId") as H1.
    destruct (py_item (VDict att) "quizId") as [quiz_id|e].
    + match goal with
      | |- context [calculate_score ?q ?a] =>
          pose proof (not_http_calculate_score q a) as H2;
            destruct (calculate_score q a) as [score|e]
      end; [discriminate|].
      by destruct e.
    + by destruct e.
  - intros H. by rewrite (ObjectId_bson_rejects _ H).
Qed.

(** X7.  When [submit_attempt] succeeds, the score it returns is what
    [calculate_score] gives for the supplied answers on the first stored
    quiz whose [id] is the attempt's [quizId]; the attempt found by the id
    then holds the supplied answers, that score and the time of the
    request as [endTime], every other field of it is as before, and no
    other document of any collection has changed. *)
Theorem submit_attempt_effect (clock : nat → Z) (data : AttemptSubmit.t)
  (db : database) (r : value) (db' : database) :
  submit_attempt clock data db = (Ok r, db') →
  ∃ oid att att' quiz_id quiz score,
    ObjectId (AttemptSubmit.attemptId data) = Ok oid
    ∧ attempt_by_id oid db = Some att
    ∧ dict_get "quizId" att = Some quiz_id
    ∧ quiz_by_id quiz_id db = Some quiz
    ∧ calculate_score (VDict quiz) (AttemptSubmit.answers data) = Ok score
    ∧ r = VDict [("score", VInt score)]
    ∧ first_replaced "attempt" (matches [("_id", VOid oid)]) att att' db db'
    ∧ attempt_by_id oid db' = Some att'
    ∧ dict_get "answers" att'
      = Some (answers_value (AttemptSubmit.answers data))
    ∧ dict_get "score" att' = Some (VInt score)
    ∧ dict_get "endTime" att' = Some (VDate (clock 0%nat))
    ∧ ∀ k, k ≠ "answers" → k ≠ "score" → k ≠ "endTime" →
           dict_get k att' = dict_get k att.
Proof.
  intros H.
  destruct (submit_attempt_returns _ _ _ _ _ H)
    as (oid & att & quiz_id & quiz & score & Hoid & Hatt & Hq & Hquiz & Hs
        & -> & Hrep).
  destruct (submitted_fields (AttemptSubmit.answers data) score (clock 0%nat)
              att) as (Ha & Hsc & He & Hk).
  exists oid, att, (submitted (AttemptSubmit.answers data) score (clock 0%nat)
                      att), quiz_id, quiz, score.
  repeat split; try done.
  apply (first_replaced_find _ _ _ _ _ _ Hrep).
  apply matches_oid_submitted.
  by destruct Hrep as (? & ? & _ & _ & ? & _).
Qed.

Lemma submit_attempt_effect_witness :
  ∃ att',
    attempt_by_id 1
      (snd (submit_attempt sample_clock
              (AttemptSubmit.mk oid_1 {["q1" := VStr "b"]}) db_one_attempt))
    = Some att'
    ∧ dict_get "score" att' = Some (VInt 1)
    ∧ dict_get "endTime" att' = Some (VDate 1000).
Proof.
  assert (submit_attempt sample_clock
            (AttemptSubmit.mk oid_1 {["q1" := VStr "b"]}) db_one_attempt
          = (Ok (VDict [("score", VInt 1)]),
             snd (submit_attempt sample_clock
                    (AttemptSubmit.mk oid_1 {["q1" := VStr "b"]})
                    db_one_attempt))) as H
    by (vm_compute; reflexivity).
  destruct (submit_attempt_effect _ _ _ _ _ H)
    as (oid & att & att' & quiz_id & quiz & score & Hoid & _ & _ & _ & Hs
        & Hr & _ & Hatt' & _ & Hsc & He & _).
  injection Hoid as <-. injection Hr as <-.
  exists att'. repeat split; assumption.
Defined.

(** X8.  Submission is not guarded against repetition.  After a successful
    submission, a second one for the same attempt id is never refused: it
    is not answered with an [HTTPException] (no 404, no conflict), and when
    it is answered, the answer is the score of the new answers on the same
    quiz, and the attempt then holds the new answers, the new score and
    the time of the second request as [endTime]. *)
Theorem resubmission_overwrites (clock clock' : nat → Z)
  (data data' : AttemptSubmit.t) (db : database) (r : value)
  (db1 : database) :
  submit_attempt clock data db = (Ok r, db1) →
  AttemptSubmit.attemptId data' = AttemptSubmit.attemptId data →
  ∃ oid quiz score,
    ObjectId (AttemptSubmit.attemptId data) = Ok oid
    ∧ r = VDict [("score", VInt score)]
    ∧ calculate_score (VDict quiz) (AttemptSubmit.answers data) = Ok score
    ∧ not_http (fst (submit_attempt clock' data' db1))
    ∧ ∀ r' db2,
        submit_attempt clock' data' db1 = (Ok r', db2) →
        ∃ score' att2,
          calculate_score (VDict quiz) (AttemptSubmit.answers data')
          = Ok score'
          ∧ r' = VDict [("score", VInt score')]
          ∧ attempt_by_id oid db2 = Some att2
          ∧ dict_get "answers" att2
            = Some (answers_value (AttemptSubmit.answers data'))
          ∧ dict_get "score" att2 = Some (VInt score')
          ∧ dict_get "endTime" att2 = Some (VDate (clock' 0%nat)).
Proof.
  intros H Hid.
  destruct (submit_attempt_returns _ _ _ _ _ H)
    as (oid & att & quiz_id & quiz & score & Hoid & Hatt & Hq & Hquiz & Hs
        & -> & Hrep).
  exists oid, quiz, score. split; [done|]. split; [done|]. split; [done|].
  set (att1 := submitted (AttemptSubmit.answers data) score (clock 0%nat) att)
    in *.
  assert (matches [("_id", VOid oid)] att1 = true) as Hm1.
  { apply matches_oid_submitted. by destruct Hrep as (? & ? & _ & _ & ? & _). }
  assert (attempt_by_id oid db1 = Some att1) as Hatt1
    by exact (first_replaced_find _ _ _ _ _ _ Hrep Hm1).
  assert (dict_get "quizId" att1 = Some quiz_id) as Hq1.
  { destruct (submitted_fields (AttemptSubmit.answers data) score
                (clock 0%nat) att) as (_ & _ & _ & Hk).
    unfold att1. by rewrite Hk. }
  assert (quiz_by_id quiz_id db1 = Some quiz) as Hquiz1.
  { unfold quiz_by_id.
    by rewrite (first_replaced_other _ _ _ _ _ _ "quiz" Hrep). }
  split.
  - rewrite submit_attempt_steps, Hid, Hoid, Hatt1. unfold py_item.
    rewrite Hq1, Hquiz1.
    pose proof (not_http_calculate_score (VDict quiz)
                  (AttemptSubmit.answers data')) as Hn.
    by destruct (calculate_score (VDict quiz) (AttemptSubmit.answers data')).
  - intros r' db2 H2.
    destruct (submit_attempt_returns _ _ _ _ _ H2)
      as (oid' & att' & quiz_id' & quiz' & score' & Hoid' & Hatt' & Hq'
          & Hquiz' & Hs' & -> & Hrep2).
    rewrite Hid, Hoid in Hoid'. injection Hoid' as <-.
    rewrite Hatt1 in Hatt'. injection Hatt' as <-.
    rewrite Hq1 in Hq'. injection Hq' as <-.
    rewrite Hquiz1 in Hquiz'. injection Hquiz' as <-.
    destruct (submitted_fields (AttemptSubmit.answers data') score'
                (clock' 0%nat) att1) as (Ha & Hsc & He & _).
    exists score', (submitted (AttemptSubmit.answers data') score'
                      (clock' 0%nat) att1).
    split; [done|]. split; [done|]. split; [|done].
    apply (first_replaced_find _ _ _ _ _ _ Hrep2).
    by apply matches_oid_submitted.
Qed.

Lemma resubmission_overwrites_witness :
  ∃ att2,
    attempt_by_id 1
      (snd (submit_attempt (λ _, 5000)
              (AttemptSubmit.mk oid_1 {["q1" := VStr "a"]})
              (snd (submit_attempt sample_clock
                      (AttemptSubmit.mk oid_1 {["q1" := VStr "b"]})
                      db_one_attempt))))
    = Some att2
    ∧ dict_get "score" att2 = Some (VInt 0)
    ∧ dict_get "endTime" att2 = Some (VDate 5000).
Proof.
  set (first := AttemptSubmit.mk oid_1 {["q1" := VStr "b"]}).
  set (second := AttemptSubmit.mk oid_1 {["q1" := VStr "a"]}).
  set (db1 := snd (submit_attempt sample_clock first db_one_attempt)).
  assert (submit_attempt sample_clock first db_one_attempt
          = (Ok (VDict [("score", VInt 1)]), db1)) as H1
    by (vm_compute; reflexivity).
  assert (submit_attempt (λ _, 5000) second db1
          = (Ok (VDict [("score", VInt 0)]),
             snd (submit_attempt (λ _, 5000) second db1))) as H2
    by (vm_compute; reflexivity).
  destruct (resubmission_overwrites sample_clock (λ _, 5000) first second
              db_one_attempt _ db1 H1 eq_refl)
    as (oid & quiz & score & Hoid & _ & _ & _ & Hnext).
  destruct (Hnext _ _ H2) as (score' & att2 & _ & Hr & Hatt & _ & Hsc & He).
  injection Hoid as <-. injection Hr as <-.
  exists att2. repeat split; assumption.
Defined.

(** ** Logging, in full *)

Lemma log_event_steps clock event db oid att :
  ObjectId (SuspiciousEvent.attemptId event) = Ok oid →
  attempt_by_id oid db = Some att →
  log_event clock event db
  = match mongo_push "suspiciousEvents" (event_record event (clock 0%nat)) att
    with
    | Ok att' =>
        (Ok (VDict [("status", VStr "logged")]),
         snd (update_one "attempt" [("_id", VOid oid)]
                (mongo_push "suspiciousEvents"
                   (event_record event (clock 0%nat))) db))
    | Raise e => (Raise e, db)
    end.
Proof.
  intros Hoid Hatt. unfold log_event. mred. rewrite Hoid.
  fold (event_record event (clock 0%nat)).
  destruct (find_some_split _ _ _ Hatt) as (pre & post & Hl & Hm & Hpre).
  unfold update_one. rewrite Hl, update_first_split by done.
  by destruct (mongo_push _ _ att) as [att'|e].
Qed.

(** X9.  When [log_event] is answered for an attempt that is stored with a
    list of events, the answer is "logged" and the record
    [{type, meta, time}] of the request has been added at the end of that
    list; the events before it, every other field of the attempt (so also
    an [endTime] already set: a submitted attempt still accepts events) and
    every other document are as they were.  An attempt id that [bson]
    rejects (its length is not 24, or it holds a character that is neither
    a hexadecimal digit nor white space) ends in [InvalidId], a server
    error, with nothing written. *)
Theorem log_event_effect (clock : nat → Z) (event : SuspiciousEvent.t)
  (db : database) :
  (∀ oid att events r db',
     ObjectId (SuspiciousEvent.attemptId event) = Ok oid →
     attempt_by_id oid db = Some att →
     dict_get "suspiciousEvents" att = Some (VList events) →
     log_event clock event db = (Ok r, db') →
     ∃ att',
       r = VDict [("status", VStr "logged")]
       ∧ first_replaced "attempt" (matches [("_id", VOid oid)]) att att' db db'
       ∧ attempt_by_id oid db' = Some att'
       ∧ dict_get "suspiciousEvents" att'
         = Some (VList (events ++ [event_record event (clock 0%nat)]))
       ∧ ∀ k, k ≠ "suspiciousEvents" → dict_get k att' = dict_get k att)
  ∧ (bson_rejects (SuspiciousEvent.attemptId event) = true →
     log_event clock event db = (Raise InvalidId, db)
     ∧ status_of (fst (log_event clock event db)) = 500).
Proof.
  split.
  - intros oid att events r db1 Hoid Hatt Hev.
    set (att' := dict_set "suspiciousEvents"
                   (VList (events ++ [event_record event (clock 0%nat)])) att).
    assert (mongo_push "suspiciousEvents" (event_record event (clock 0%nat)) att
            = Ok att') as Hpush.
    { unfold mongo_push. by rewrite Hev. }
    destruct (update_one_split "attempt" [("_id", VOid oid)]
                (mongo_push "suspiciousEvents"
                   (event_record event (clock 0%nat))) db att att' Hatt Hpush)
      as (db' & Hupd & Hrep).
    rewrite (log_event_steps _ _ _ _ _ Hoid Hatt), Hpush, Hupd.
    intros [= <- <-].
    exists att'. split; [done|split; [done|split; [|split]]].
    + apply (first_replaced_find _ _ _ _ _ _ Hrep).
      destruct Hrep as (? & ? & _ & _ & Hm & _).
      apply matches_oid. apply matches_oid in Hm.
      unfold att'. by rewrite dict_get_set_ne.
    + apply dict_get_set_eq.
    + intros k Hk. by apply dict_get_set_ne.
  - intros Hbad. unfold log_event. mred.
    by rewrite (ObjectId_bson_rejects _ Hbad).
Qed.

(** ** Statistics along the life of an attempt *)

Lemma active_created oid quiz_id studentId now :
  active (created_attempt oid quiz_id studentId now) = true.
Proof. reflexivity. Qed.

Lemma active_submitted answers score now att :
  active (submitted answers score now att) = false.
Proof.
  apply not_true_is_false. rewrite active_iff.
  destruct (submitted_fields answers score now att) as (_ & _ & -> & _).
  by intros [|].
Qed.

(** X10.  The counts that [dashboard_stats] reports follow the life of an
    attempt: a successful [start_attempt] raises the number of attempts and
    the number of active attempts by one each and leaves the quizzes; a
    successful [submit_attempt] leaves the number of attempts and lowers
    the number of active attempts by one when the attempt was active, and
    not at all when it had already been submitted. *)
Theorem attempt_counts_follow_lifecycle (clock : nat → Z) (db : database) :
  (∀ data r db',
     start_attempt clock data db = (Ok r, db') →
     length (coll db' "attempt") = S (length (coll db "attempt"))
     ∧ count active (coll db' "attempt")
       = (count active (coll db "attempt") + 1)%Z
     ∧ coll db' "quiz" = coll db "quiz")
  ∧ (∀ data r db',
       submit_attempt clock data db = (Ok r, db') →
       ∃ oid att,
         ObjectId (AttemptSubmit.attemptId data) = Ok oid
         ∧ attempt_by_id oid db = Some att
         ∧ length (coll db' "attempt") = length (coll db "attempt")
         ∧ count active (coll db' "attempt")
           = (count active (coll db "attempt")
              - (if active att then 1 else 0))%Z
         ∧ coll db' "quiz" = coll db "quiz").
Proof.
  split.
  - intros data r db' H.
    destruct (start_attempt_returns _ _ _ _ _ H) as (quiz & _ & Happ & Hoth).
    rewrite Happ, List.length_app, count_app, count_cons, active_created.
    split; [simpl; lia|]. split; [unfold count; simpl; lia|].
    by apply Hoth.
  - intros data r db' H.
    destruct (submit_attempt_returns _ _ _ _ _ H)
      as (oid & att & quiz_id & quiz & score & Hoid & Hatt & _ & _ & _ & _
          & Hrep).
    exists oid, att. split; [done|]. split; [done|].
    split; [exact (first_replaced_length _ _ _ _ _ _ Hrep)|].
    split; [|by apply (first_replaced_other _ _ _ _ _ _ "quiz" Hrep)].
    rewrite (first_replaced_count _ _ active _ _ _ _ Hrep).
    rewrite active_submitted. lia.
Qed.

(** ** Keys of stored documents *)














(** ** From starting an attempt to submitting it *)






(** ** Creating a quiz, then using its code *)

Lemma create_quiz_created clock rnd data user db r db' :
  create_quiz clock rnd data user db = (Ok r, db') →
  ∃ role uid,
    py_item user "role" = Ok role
    ∧ py_in role [VStr "superadmin"; VStr "teacher"] = true
    ∧ py_item user "uid" = Ok uid
    ∧ r = VDict [("id", VStr (generate_quiz_code rnd));
                 ("code", VStr (generate_quiz_code rnd))]
    ∧ db' = snd (insert_one "quiz" (quiz_document clock rnd data uid) db).
Proof.
  unfold create_quiz. mred.
  destruct (py_item user "role") as [role|]; [|discriminate].
  destruct (py_in role _) eqn:Hin; [|discriminate]. cbn [negb].
  destruct (py_item user "uid") as [uid|]; [|discriminate].
  intros [= <- <-]. by exists role, uid.
Qed.

Lemma create_quiz_succeeds clock rnd data uid email role db :
  privileged role →
  create_quiz clock rnd data
    (VDict [("uid", uid); ("email", email); ("role", role)]) db
  = (Ok (VDict [("id", VStr (generate_quiz_code rnd));
                ("code", VStr (generate_quiz_code rnd))]),
     snd (insert_one "quiz" (quiz_document clock rnd data uid) db)).
Proof.
  intros Hp. apply (create_quiz_allowed _ _ _ _ role uid); [done| |done].
  by apply py_in_privileged.
Qed.

Lemma quiz_by_code_after_insert code doc db :
  dict_get "code" doc = Some (VStr code) →
  quiz_by_code code (snd (insert_one "quiz" doc db))
  = match quiz_by_code code db with
    | Some old => Some old
    | None => Some (("_id", VOid (next_oid db)) :: doc)
    end.
Proof.
  intros Hc. unfold quiz_by_code.
  destruct (insert_one_persisted "quiz" doc db) as [-> _].
  destruct (List.find _ (coll db "quiz")) as [old|] eqn:Hf.
  - destruct (find_some_split _ _ _ Hf) as (pre & post & -> & Hm & Hpre).
    rewrite <- app_assoc. simpl. by apply find_split.
  - apply find_split; [by apply find_none_iff|].
    apply matches_code. simpl. by rewrite Hc.
Qed.

(** X13.  [create_quiz] does not look for a quiz that already has the
    generated code: a request that is answered on one store is answered
    the same on any other.  When the creation succeeds and a stored quiz
    already has the code, the new quiz is stored all the same, but
    [find_one] by the code keeps returning the older quiz, so the new quiz
    cannot be fetched or attempted by its code; when no stored quiz has the
    code, the code leads to the new quiz. *)
Theorem create_quiz_code_collision (clock : nat → Z) (rnd : nat → nat)
  (data : QuizCreateRequest.t) (user : value) (db : database)
  (r : value) (db' : database) :
  create_quiz clock rnd data user db = (Ok r, db') →
  (∀ db0, fst (create_quiz clock rnd data user db0) = Ok r)
  ∧ ∃ uid,
      py_item user "uid" = Ok uid
      ∧ persisted "quiz"
          (("_id", VOid (next_oid db)) :: quiz_document clock rnd data uid)
          db db'
      ∧ (∀ old, quiz_by_code (generate_quiz_code rnd) db = Some old →
                quiz_by_code (generate_quiz_code rnd) db' = Some old)
      ∧ (quiz_by_code (generate_quiz_code rnd) db = None →
         quiz_by_code (generate_quiz_code rnd) db'
         = Some (("_id", VOid (next_oid db))
                 :: quiz_document clock rnd data uid)).
Proof.
  intros H. destruct (create_quiz_created _ _ _ _ _ _ _ H)
    as (role & uid & Hrole & Hin & Huid & -> & ->).
  split.
  - intros db0.
    by rewrite (create_quiz_allowed _ _ _ _ _ _ db0 Hrole Hin Huid).
  - exists uid. split; [done|]. split; [apply insert_one_persisted|].
    rewrite quiz_by_code_after_insert by reflexivity.
    split; [by intros old ->|by intros ->].
Qed.

Lemma create_quiz_code_collision_witness :
  ∃ db1 db2 first,
    create_quiz sample_clock sample_rnd sample_quiz_request teacher db_empty
    = (Ok (VDict [("id", VStr "DKRY5C"); ("code", VStr "DKRY5C")]), db1)
    ∧ quiz_by_code "DKRY5C" db1 = Some first
    ∧ create_quiz (λ _, 7000) sample_rnd
        (QuizCreateRequest.mk "Geometry" 20 []) teacher db1
      = (Ok (VDict [("id", VStr "DKRY5C"); ("code", VStr "DKRY5C")]), db2)
    ∧ quiz_by_code "DKRY5C" db2 = Some first
    ∧ dict_get "title" first = Some (VStr "Algebra").
Proof.
  set (db1 := snd (create_quiz sample_clock sample_rnd sample_quiz_request
                     teacher db_empty)).
  set (db2 := snd (create_quiz (λ _, 7000) sample_rnd
                     (QuizCreateRequest.mk "Geometry" 20 []) teacher db1)).
  assert (create_quiz sample_clock sample_rnd sample_quiz_request teacher
            db_empty
          = (Ok (VDict [("id", VStr "DKRY5C"); ("code", VStr "DKRY5C")]), db1))
    as H1 by (vm_compute; reflexivity).
  assert (create_quiz (λ _, 7000) sample_rnd
            (QuizCreateRequest.mk "Geometry" 20 []) teacher db1
          = (Ok (VDict [("id", VStr "DKRY5C"); ("code", VStr "DKRY5C")]), db2))
    as H2 by (vm_compute; reflexivity).
  destruct (create_quiz_code_collision _ _ _ _ _ _ _ H1)
    as (_ & uid1 & Hu1 & _ & _ & Hnew).
  destruct (create_quiz_code_collision _ _ _ _ _ _ _ H2)
    as (_ & uid2 & _ & _ & Hold & _).
  injection Hu1 as <-.
  specialize (Hnew eq_refl).
  exists db1, db2,
    (("_id", VOid (next_oid db_empty))
     :: quiz_document sample_clock sample_rnd sample_quiz_request
          (VStr "teacher-1")).
  split; [exact H1|]. split; [exact Hnew|]. split; [exact H2|].
  split; [exact (Hold _ Hnew)|reflexivity].
Defined.

(** X14.  A quiz that was created under a code that no stored quiz had can
    be used by that code at once: [start_attempt] with the code creates an
    attempt whose [quizId] is the code, and, when every question of the
    request has the [Question] shape, [get_quiz_by_code] returns the
    created document (without [_id]) with [isCorrect] removed from the
    options. *)
Theorem created_quiz_is_usable (clock : nat → Z) (rnd : nat → nat)
  (data : QuizCreateRequest.t) (user : value) (db : database)
  (r : value) (db' : database) :
  create_quiz clock rnd data user db = (Ok r, db') →
  quiz_by_code (generate_quiz_code rnd) db = None →
  (∀ clock' student,
     ∃ db'',
       start_attempt clock'
         (AttemptStart.mk (generate_quiz_code rnd) student) db'
       = (Ok (VDict [("attemptId", VStr (oid_str (next_oid db')))]), db'')
       ∧ persisted "attempt"
           (created_attempt (next_oid db')
              (VStr (generate_quiz_code rnd)) student (clock' 0%nat))
           db' db'')
  ∧ (forallb is_Question (map VDict (QuizCreateRequest.questions data))
     = true →
     ∃ uid,
       py_item user "uid" = Ok uid
       ∧ get_quiz_by_code (generate_quiz_code rnd) None db'
         = (Ok (ToPublicView (VDict (quiz_document clock rnd data uid))),
            db')).
Proof.
  intros H Hnone. destruct (create_quiz_created _ _ _ _ _ _ _ H)
    as (role & uid & Hrole & Hin & Huid & -> & ->).
  set (db' := snd (insert_one "quiz" (quiz_document clock rnd data uid) db)).
  assert (quiz_by_code (generate_quiz_code rnd) db'
          = Some (("_id", VOid (next_oid db))
                  :: quiz_document clock rnd data uid)) as Hfind.
  { unfold db'. rewrite quiz_by_code_after_insert by reflexivity.
    by rewrite Hnone. }
  split.
  - intros clock' student. eexists. split.
    + exact (start_attempt_found clock'
               (AttemptStart.mk (generate_quiz_code rnd) student) db' _ Hfind).
    + apply insert_one_persisted.
  - intros Hqs. exists uid. split; [done|].
    unfold get_quiz_by_code, find_one. mred.
    unfold quiz_by_code in Hfind. rewrite Hfind.
    cbn [foldr]. simpl.
    rewrite (mapM_strip_question_total _ Hqs). reflexivity.
Qed.

Lemma created_quiz_is_usable_witness :
  ∃ view,
    fst (get_quiz_by_code (generate_quiz_code sample_rnd) None
           (snd (create_quiz sample_clock sample_rnd sample_quiz_request
                   teacher db_empty)))
    = Ok view
    ∧ hides_correctness view = true.
Proof.
  set (db' := snd (create_quiz sample_clock sample_rnd sample_quiz_request
                     teacher db_empty)).
  assert (create_quiz sample_clock sample_rnd sample_quiz_request teacher
            db_empty
          = (Ok (VDict [("id", VStr "DKRY5C"); ("code", VStr "DKRY5C")]), db'))
    as Hc by (vm_compute; reflexivity).
  destruct (created_quiz_is_usable _ _ _ _ _ _ _ Hc eq_refl) as [_ Hget].
  destruct (Hget eq_refl) as (uid & _ & Hview).
  eexists. rewrite Hview. split; reflexivity.
Defined.

(** ** Seeding and logging in *)

Lemma matches_email email doc :
  matches [("email", VStr email)] doc = true
  ↔ dict_get "email" doc = Some (VStr email).
Proof.
  unfold matches. simpl. rewrite andb_true_r.
  destruct (dict_get "email" doc) as [w|]; [|split; discriminate].
  rewrite value_eqb_str. split; [by intros ->|by intros [=]].
Qed.

Lemma seed_super_admin_present pwd_hash db user :
  user_by_email "admin@university.edu" db = Some user →
  seed_super_admin pwd_hash db = (Ok tt, db).
Proof.
  intros Hf. unfold seed_super_admin, find_one. mred.
  unfold user_by_email in Hf. rewrite Hf. cbn [foldr].
  apply find_some in Hf as [_ Hm]. apply matches_email in Hm.
  by rewrite (py_truthy_dict _ _ _ Hm).
Qed.

Lemma user_by_email_seeded pwd_hash db :
  user_by_email "admin@university.edu" db = None →
  user_by_email "admin@university.edu" (snd (seed_super_admin pwd_hash db))
  = Some (("_id", VOid (next_oid db)) :: admin_document pwd_hash).
Proof.
  intros Hf. rewrite (seed_super_admin_inserts _ _ Hf). cbn [snd].
  unfold user_by_email.
  destruct (insert_one_persisted "user" (admin_document pwd_hash) db)
    as [Happ _].
  unfold admin_document in Happ. rewrite Happ.
  apply find_split; [by apply find_none_iff|reflexivity].
Qed.

(** X15.  [seed_super_admin] can be run any number of times: it inserts the
    administrator only when no user has the address
    [admin@university.edu], after it some user has that address, and a
    second run changes nothing. *)
Theorem seed_super_admin_idempotent (pwd_hash : string → string)
  (db : database) :
  (∀ user, user_by_email "admin@university.edu" db = Some user →
           seed_super_admin pwd_hash db = (Ok tt, db))
  ∧ (user_by_email "admin@university.edu" db = None →
     persisted "user" (("_id", VOid (next_oid db)) :: admin_document pwd_hash)
       db (snd (seed_super_admin pwd_hash db)))
  ∧ (∃ user, user_by_email "admin@university.edu"
               (snd (seed_super_admin pwd_hash db)) = Some user)
  ∧ seed_super_admin pwd_hash (snd (seed_super_admin pwd_hash db))
    = (Ok tt, snd (seed_super_admin pwd_hash db)).
Proof.
  split; [intros user; apply seed_super_admin_present|].
  split.
  { intros Hf. rewrite (seed_super_admin_inserts _ _ Hf).
    apply insert_one_persisted. }
  assert (∃ user, user_by_email "admin@university.edu"
                    (snd (seed_super_admin pwd_hash db)) = Some user)
    as [user Huser].
  { destruct (user_by_email "admin@university.edu" db) as [user|] eqn:Hf.
    - rewrite (seed_super_admin_present _ _ _ Hf). eauto.
    - rewrite (user_by_email_seeded _ _ Hf). eauto. }
  split; [eauto|]. by apply (seed_super_admin_present _ _ user).
Qed.

Lemma login_steps jwt_encode pwd_verify clock payload db :
  login jwt_encode pwd_verify clock payload db
  = match user_by_email (LoginRequest.email payload) db with
    | None => (Raise (HTTPException 401 "Invalid credentials"), db)
    | Some user =>
        match pwd_verify (LoginRequest.password payload)
                (default (VStr "") (dict_get "password" user)) with
        | Raise e => (Raise e, db)
        | Ok false => (Raise (HTTPException 401 "Invalid credentials"), db)
        | Ok true =>
            (sub ← py_item (VDict user) "uid";
             email ← py_item (VDict user) "email";
             role ← py_item (VDict user) "role";
             token ← jwt_encode (token_claims sub email role (clock 0%nat));
             Ok (token_response token), db)
        end
    end.
Proof.
  unfold login, find_one, user_by_email. mred.
  destruct (List.find _ (coll db "user")) as [user|] eqn:Hf; [|done].
  cbn [foldr].
  apply find_some in Hf as [_ Hm]. apply matches_email in Hm.
  rewrite (py_truthy_dict _ _ _ Hm). cbn [negb py_get].
  destruct (pwd_verify _ _) as [[|]|e]; [|done|done]. cbn [negb].
  destruct (py_item (VDict user) "uid") as [sub|]; [|done].
  destruct (py_item (VDict user) "email") as [email|]; [|done].
  destruct (py_item (VDict user) "role") as [role|]; [|done].
  unfold create_access_token. cbn [dict_set String.eqb Ascii.eqb Bool.eqb].
  unfold token_claims. by destruct (jwt_encode _).
Qed.

(** X16.  [login] never writes to the store.  It gives the same answer,
    401 "Invalid credentials", when no user has the address and when the
    password does not verify against the stored hash.  It answers with a
    token exactly when the first user with the address has a hash the
    password verifies against and the fields [uid], [email] and [role], and
    the token then encodes these three as [sub], [email] and [role]
    together with an expiry eight hours after the request. *)
Theorem login_spec (jwt_encode : dict → result string)
  (pwd_verify : string → value → result bool) (clock : nat → Z)
  (payload : LoginRequest.t) (db : database) :
  snd (login jwt_encode pwd_verify clock payload db) = db
  ∧ (user_by_email (LoginRequest.email payload) db = None →
     fst (login jwt_encode pwd_verify clock payload db)
     = Raise (HTTPException 401 "Invalid credentials"))
  ∧ (∀ user,
       user_by_email (LoginRequest.email payload) db = Some user →
       pwd_verify (LoginRequest.password payload)
         (default (VStr "") (dict_get "password" user)) = Ok false →
       fst (login jwt_encode pwd_verify clock payload db)
       = Raise (HTTPException 401 "Invalid credentials"))
  ∧ (∀ token,
       fst (login jwt_encode pwd_verify clock payload db)
       = Ok (token_response token)
       ↔ ∃ user sub email role,
           user_by_email (LoginRequest.email payload) db = Some user
           ∧ pwd_verify (LoginRequest.password payload)
               (default (VStr "") (dict_get "password" user)) = Ok true
           ∧ dict_get "uid" user = Some sub
           ∧ dict_get "email" user = Some email
           ∧ dict_get "role" user = Some role
           ∧ jwt_encode
               (token_claims sub email role (clock 0%nat)) = Ok token
           ∧ minutes ACCESS_TOKEN_EXPIRE_MINUTES = 8 * 60 * 60 * 1000000).
Proof.
  rewrite login_steps.
  destruct (user_by_email (LoginRequest.email payload) db) as [user|] eqn:Hu.
  2:{ repeat split; try done. by intros (? & ? & ? & ? & [=] & _). }
  destruct (pwd_verify _ _) as [[|]|e] eqn:Hv.
  - split; [done|]. split; [done|].
    split; [intros ? [= <-] Hv'; congruence|].
    intros token. unfold py_item. mred.
    destruct (dict_get "uid" user) as [sub|] eqn:Hsub;
      [|split; [done|intros (? & ? & ? & ? & [= <-] & _ & ? & _); congruence]].
    destruct (dict_get "email" user) as [email|] eqn:Hemail;
      [|split; [done|intros (? & ? & ? & ? & [= <-] & _ & _ & ? & _);
                     congruence]].
    destruct (dict_get "role" user) as [role|] eqn:Hrole;
      [|split; [done|intros (? & ? & ? & ? & [= <-] & _ & _ & _ & ? & _);
                     congruence]].
    destruct (jwt_encode (token_claims sub email role (clock 0%nat)))
      as [token'|e] eqn:He; simpl.
    + split.
      * intros [= <-]. exists user, sub, email, role. repeat split; done.
      * intros (? & ? & ? & ? & [= <-] & _ & H1 & H2 & H3 & He' & _).
        rewrite Hsub in H1. rewrite Hemail in H2. rewrite Hrole in H3.
        injection H1 as <-. injection H2 as <-. injection H3 as <-.
        rewrite He in He'. by injection He' as <-.
    + split; [done|].
      intros (? & ? & ? & ? & [= <-] & _ & H1 & H2 & H3 & He' & _).
      rewrite Hsub in H1. rewrite Hemail in H2. rewrite Hrole in H3.
      injection H1 as <-. injection H2 as <-. injection H3 as <-.
      congruence.
  - split; [done|]. split; [done|]. split; [done|].
    intros token. split; [done|].
    intros (? & ? & ? & ? & [= <-] & ? & _). congruence.
  - split; [done|]. split; [done|].
    split; [intros ? [= <-] Hv'; congruence|].
    intros token. split; [done|].
    intros (? & ? & ? & ? & [= <-] & ? & _). congruence.
Qed.

(** X17.  From a store without administrator to the gate of the first
    quiz: when the hash of "admin123" verifies and the token library reads
    back the [sub] and [role] it has encoded, the seeded administrator can
    log in with [admin@university.edu] and "admin123", and the token of the
    answer, sent as [Bearer <token>], is accepted by [get_current_user]; the
    route that creates a quiz then runs with the role "superadmin", so it is
    answered neither with 401 nor with 403, and an answer it gives is the
    generated code. *)
Theorem seeded_admin_can_create_quiz (pwd_hash : string → string)
  (pwd_verify : string → value → result bool)
  (jwt_encode : dict → result string) (jwt_decode : string → option dict)
  (clock : nat → Z) (db : database) (token : string) (payload : dict) :
  user_by_email "admin@university.edu" db = None →
  pwd_verify "admin123" (VStr (pwd_hash "admin123")) = Ok true →
  jwt_encode (token_claims (VStr "admin-1") (VStr "admin@university.edu")
                (VStr "superadmin") (clock 0%nat)) = Ok token →
  jwt_decode token = Some payload →
  dict_get "sub" payload = Some (VStr "admin-1") →
  dict_get "role" payload = Some (VStr "superadmin") →
  token ≠ "" →
  login jwt_encode pwd_verify clock
    (LoginRequest.mk "admin@university.edu" "admin123")
    (snd (seed_super_admin pwd_hash db))
  = (Ok (token_response token), snd (seed_super_admin pwd_hash db))
  ∧ get_current_user jwt_decode (Some (String.append "Bearer " token))
    = Ok (user_of_payload payload)
  ∧ ∀ clock' rnd data,
      status_of
        (fst (app jwt_decode (Some (String.append "Bearer " token)) clock'
                rnd (POST_quizzes data) (snd (seed_super_admin pwd_hash db))))
      ≠ 401
      ∧ status_of
          (fst (app jwt_decode (Some (String.append "Bearer " token)) clock'
                  rnd (POST_quizzes data)
                  (snd (seed_super_admin pwd_hash db))))
        ≠ 403
      ∧ ∀ v,
          fst (app jwt_decode (Some (String.append "Bearer " token)) clock'
                 rnd (POST_quizzes data) (snd (seed_super_admin pwd_hash db)))
          = Ok v →
          v = VDict [("id", VStr (generate_quiz_code rnd));
                     ("code", VStr (generate_quiz_code rnd))].
Proof.
  intros Hnone Hverify Hencode Hdecode Hsub Hrole Htoken.
  assert (get_current_user jwt_decode (Some (String.append "Bearer " token))
          = Ok (user_of_payload payload)) as Huser.
  { unfold get_current_user, user_of_payload. simpl.
    change (String.append "" token) with token.
    destruct (String.eqb_spec token "") as [|_]; [done|].
    by rewrite Hdecode, Hsub. }
  split; [|split; [exact Huser|]].
  - rewrite login_steps. cbn [LoginRequest.email LoginRequest.password].
    rewrite (user_by_email_seeded _ _ Hnone).
    unfold admin_document. cbn -[token_claims]. rewrite Hverify.
    unfold py_item. cbn -[token_claims]. mred.
    by rewrite Hencode.
  - intros clock' rnd data. cbn [app]. mred. rewrite Huser.
    unfold user_of_payload. rewrite Hrole. cbn [default].
    rewrite (create_quiz_succeeds _ _ _ _ _ _ _ (or_introl eq_refl)).
    cbn [fst status_of]. split; [done|]. split; [done|].
    by intros v [= <-].
Qed.

Lemma seeded_admin_can_create_quiz_witness :
  get_current_user
    (λ _, Some [("sub", VStr "admin-1"); ("email", VStr "admin@university.edu");
                ("role", VStr "superadmin"); ("exp", VInt 29800)])
    (Some "Bearer token")
  = Ok (VDict [("uid", VStr "admin-1"); ("email", VStr "admin@university.edu");
               ("role", VStr "superadmin")]).
Proof.
  refine (proj1 (proj2 (seeded_admin_can_create_quiz (λ s, s) (λ _ _, Ok true)
                          (λ _, Ok "token") _ sample_clock db_empty "token"
                          [("sub", VStr "admin-1");
                           ("email", VStr "admin@university.edu");
                           ("role", VStr "superadmin"); ("exp", VInt 29800)]
                          eq_refl eq_refl eq_refl eq_refl eq_refl eq_refl _))).
  discriminate.
Defined.

(** ** The store helper *)

Lemma dict_get_setdefault_eq k v d :
  dict_get k (dict_setdefault k v d) = Some (default v (dict_get k d)).
Proof.
  unfold dict_setdefault, dict_has.
  destruct (dict_get k d) as [w|] eqn:Hk; [done|]. apply dict_get_set_eq.
Qed.

Lemma dict_get_setdefault_ne k k' v d :
  k' ≠ k → dict_get k' (dict_setdefault k v d) = dict_get k' d.
Proof.
  intros Hne. unfold dict_setdefault. destruct (dict_has k d); [done|].
  by apply dict_get_set_ne.
Qed.

(** X18.  When [create_document] succeeds on a document without an [_id]
    (the store then assigns one), the document is stored with both
    timestamps: a [createdAt] or [updatedAt] that the caller supplied is
    kept, a missing one is set to the time of the call, the same reading
    for both; every other field is stored as given, and the string
    returned is the new [_id]. *)
Theorem create_document_spec (clock : nat → Z) (collection_name : string)
  (data : dict) (db : database) (id : string) (db' : database) :
  dict_get "_id" data = None →
  create_document clock collection_name data db = (Ok id, db') →
  ∃ doc,
    id = oid_str (next_oid db)
    ∧ persisted collection_name doc db db'
    ∧ dict_get "_id" doc = Some (VOid (next_oid db))
    ∧ dict_get "createdAt" doc
      = Some (default (VDate (clock 0%nat)) (dict_get "createdAt" data))
    ∧ dict_get "updatedAt" doc
      = Some (default (VDate (clock 0%nat)) (dict_get "updatedAt" data))
    ∧ ∀ k, k ≠ "_id" → k ≠ "createdAt" → k ≠ "updatedAt" →
           dict_get k doc = dict_get k data.
Proof.
  intros _. unfold create_document. mred.
  set (now := VDate (clock 0%nat)).
  set (stamped := dict_setdefault "updatedAt" now
                    (dict_setdefault "createdAt" now data)).
  pose proof (insert_one_persisted collection_name stamped db) as Hp.
  destruct (insert_one collection_name stamped db) as [[oid|e] db1] eqn:Hins;
    [|discriminate].
  assert (oid = next_oid db) as -> by (by injection Hins).
  intros [= <- <-]. cbn [snd] in Hp.
  exists (("_id", VOid (next_oid db)) :: stamped).
  split; [done|]. split; [exact Hp|]. split; [done|].
  assert (∀ k, k ≠ "_id" →
               dict_get k (("_id", VOid (next_oid db)) :: stamped)
               = dict_get k stamped) as Hskip.
  { intros k Hk. simpl. by destruct (String.eqb_spec k "_id"). }
  split; [|split].
  - rewrite Hskip by discriminate. unfold stamped.
    rewrite dict_get_setdefault_ne by discriminate.
    apply dict_get_setdefault_eq.
  - rewrite Hskip by discriminate. unfold stamped.
    rewrite dict_get_setdefault_eq.
    by rewrite dict_get_setdefault_ne by discriminate.
  - intros k H1 H2 H3. rewrite Hskip by done. unfold stamped.
    by rewrite !dict_get_setdefault_ne.
Qed.

Lemma create_document_spec_witness :
  ∃ doc,
    persisted "quiz" doc db_empty
      (snd (create_document sample_clock "quiz"
              [("title", VStr "Algebra"); ("createdAt", VDate 5)] db_empty))
    ∧ dict_get "createdAt" doc = Some (VDate 5)
    ∧ dict_get "updatedAt" doc = Some (VDate 1000).
Proof.
  destruct (create_document_spec sample_clock "quiz"
              [("title", VStr "Algebra"); ("createdAt", VDate 5)] db_empty
              _ _ eq_refl eq_refl) as (doc & _ & Hp & _ & Hc & Hu & _).
  exists doc. split; [exact Hp|]. split; [exact Hc|exact Hu].
Defined.

(** ** More on scoring *)

Lemma credits_flagged chosen opt :
  credits chosen opt = py_eq (id_of opt) chosen && flagged_correct opt.
Proof. reflexivity. Qed.

(** X19.  On a quiz of the [Quiz] shape, [calculate_score] returns the sum
    over the questions of [q.points] times the number of options of the
    question whose id equals the answer given to it and which are flagged
    correct: every such option is counted, the loop does not stop at the
    first. *)
Theorem calculate_score_counts_matches (quiz : value)
  (answers : gmap string value) :
  is_Quiz quiz = true →
  calculate_score quiz answers
  = Ok (sum_Z (map (λ q, points_of q * credited answers q)
                 (questions_of quiz)))
  ∧ ∀ q opt,
      q ∈ questions_of quiz → opt ∈ options_of q →
      (credits (chosen_for answers q) opt = true
       ↔ chosen_for answers q = id_of opt
         ∧ flagged_correct opt = true).
Proof.
  intros HQ. destruct (is_Quiz_questions _ HQ) as (d & -> & Hqs & _).
  rewrite forallb_forall in Hqs. split.
  - rewrite calculate_score_closed by done. f_equal. f_equal.
    apply map_ext_in. intros q Hq. by apply question_score_closed, Hqs.
  - intros q opt Hq Hopt. apply list_elem_of_In in Hq, Hopt.
    destruct (is_Question_inv _ (Hqs q Hq)) as (dq & s & -> & _ & _ & Hall & _).
    rewrite forallb_forall in Hall.
    destruct (is_QuestionOption_inv _ (Hall opt Hopt))
      as (dopt & sopt & -> & Hid & _).
    rewrite credits_flagged, andb_true_iff. simpl id_of. rewrite Hid. simpl.
    split; intros [H1 H2]; (split; [|done]).
    + by apply py_eq_str_l in H1.
    + rewrite H1. unfold py_eq. apply String.eqb_refl.
Qed.

Lemma calculate_score_counts_matches_witness :
  calculate_score quiz_dup_ids {["q1" := VStr "a"]}
  = Ok (sum_Z (map (λ q, points_of q * credited {["q1" := VStr "a"]} q)
                 (questions_of quiz_dup_ids))).
Proof.
  exact (proj1 (calculate_score_counts_matches quiz_dup_ids
                  {["q1" := VStr "a"]} eq_refl)).
Defined.

Lemma sum_Z_Permutation l l' : Permutation l l' → sum_Z l = sum_Z l'.
Proof.
  induction 1; simpl; try lia.
  all: unfold sum_Z in *; simpl; lia.
Qed.

(** X20.  The order of the questions does not matter to the score: a quiz
    of the [Quiz] shape and the same quiz with its questions in another
    order score the same for every answer map. *)
Theorem calculate_score_order_independent (d : dict) (qs : list value)
  (answers : gmap string value) :
  is_Quiz (VDict d) = true →
  Permutation qs (questions_of (VDict d)) →
  calculate_score (VDict (dict_set "questions" (VList qs) d)) answers
  = calculate_score (VDict d) answers.
Proof.
  intros HQ Hperm.
  destruct (is_Quiz_questions _ HQ) as (d0 & [= <-] & Hqs & _).
  assert (forallb is_Question qs = true) as Hqs'.
  { apply forallb_forall. intros q Hq. rewrite forallb_forall in Hqs.
    apply Hqs. eapply Permutation_in; [exact Hperm|exact Hq]. }
  assert (is_Quiz (VDict (dict_set "questions" (VList qs) d)) = true) as HQ'.
  { revert HQ. simpl. unfold field, field_dflt.
    intros H. rewrite !andb_true_iff in H. rewrite !andb_true_iff.
    repeat split;
      rewrite ?dict_get_set_ne by discriminate;
      rewrite ?dict_get_set_eq; simpl; intuition. }
  rewrite !calculate_score_closed by done. f_equal.
  apply sum_Z_Permutation. apply Permutation_map.
  simpl questions_of at 1. by rewrite dict_get_set_eq.
Qed.

Lemma calculate_score_order_independent_witness :
  calculate_score
    (VDict (dict_set "questions"
              (VList (rev (questions_of quiz_two)))
              (stored 0 quiz_two))) {["q1" := VStr "b"]}
  = calculate_score (VDict (stored 0 quiz_two)) {["q1" := VStr "b"]}.
Proof.
  apply calculate_score_order_independent; [reflexivity|].
  apply Permutation_sym, Permutation_rev.
Defined.

Lemma py_eq_str_sym a b : py_eq (VStr a) (VStr b) = py_eq (VStr b) (VStr a).
Proof. unfold py_eq. apply String.eqb_sym. Qed.

Lemma filter_none {A : Type} (p : A → bool) (l : list A) :
  (∀ y, y ∈ l → p y = false) → List.filter p l = [].
Proof.
  intros H. induction l as [|a l IH]; [done|]. simpl.
  rewrite (H a) by by left. apply IH. intros y Hy. apply H. by right.
Qed.

Lemma credits_only_chosen opts opt chosen :
  forallb is_QuestionOption opts = true →
  distinct (map id_of opts) = true →
  opt ∈ opts → id_of opt = chosen →
  length (List.filter (credits chosen) opts)
  = if flagged_correct opt then 1%nat else 0%nat.
Proof.
  intros Hall Hdist Hin <-.
  induction opts as [|x opts IH]; [by apply elem_of_nil in Hin|].
  simpl in Hall, Hdist.
  apply andb_prop in Hall as [Hx Hall]. apply andb_prop in Hdist as [Hfresh Hdist].
  apply negb_true_iff in Hfresh.
  destruct (is_QuestionOption_inv _ Hx) as (dx & sx & -> & Hidx & _).
  assert (∀ y, y ∈ opts → py_eq (id_of y) (id_of (VDict dx)) = false) as Hothers.
  { intros y Hy. apply not_true_is_false. intros Heq.
    rewrite forallb_forall in Hall.
    destruct (is_QuestionOption_inv _ (Hall y (proj1 (list_elem_of_In _ _) Hy)))
      as (dy & sy & -> & Hidy & _).
    simpl in Heq. rewrite Hidx, Hidy in Heq. simpl in Heq.
    rewrite py_eq_str_sym in Heq.
    assert (existsb (py_eq (id_of (VDict dx))) (map id_of opts) = true) as Hex.
    { apply existsb_exists. exists (id_of (VDict dy)).
      split; [apply in_map; by apply list_elem_of_In|].
      simpl. by rewrite Hidx, Hidy. }
    congruence. }
  apply elem_of_cons in Hin as [->|Hin].
  - cbn [List.filter]. rewrite credits_flagged.
    replace (py_eq (id_of (VDict dx)) (id_of (VDict dx))) with true
      by (simpl; rewrite Hidx; simpl; unfold py_eq; by rewrite String.eqb_refl).
    cbn [andb].
    assert (List.filter (credits (id_of (VDict dx))) opts = []) as ->.
    { apply filter_none. intros y Hy.
      by rewrite credits_flagged, (Hothers y Hy). }
    by destruct (flagged_correct (VDict dx)).
  - cbn [List.filter]. rewrite credits_flagged.
    assert (py_eq (id_of (VDict dx)) (id_of opt) = false) as ->.
    { rewrite forallb_forall in Hall.
      destruct (is_QuestionOption_inv _
                  (Hall opt (proj1 (list_elem_of_In _ _) Hin)))
        as (dopt & sopt & -> & Hido & _).
      specialize (Hothers _ Hin). simpl in Hothers |- *.
      rewrite Hidx, Hido in *. simpl in *.
      by rewrite py_eq_str_sym. }
    cbn [andb]. by apply IH.
Qed.

(** X21.  When the options of a question have pairwise different ids, the
    question adds its points to the score exactly when the answer given to
    it is the id of an option that is flagged correct: an answer that names
    an option not flagged correct, or no option of the question at all,
    adds nothing. *)
Theorem question_score_of_choice (q : value) (answers : gmap string value) :
  is_Question q = true →
  distinct (map id_of (options_of q)) = true →
  (∀ opt, opt ∈ options_of q → id_of opt = chosen_for answers q →
          question_score answers q
          = if flagged_correct opt then points_of q else 0)
  ∧ ((∀ opt, opt ∈ options_of q → id_of opt ≠ chosen_for answers q) →
     question_score answers q = 0).
Proof.
  intros Hq Hdist. rewrite question_score_closed by done.
  destruct (is_Question_inv _ Hq) as (d & s & -> & _ & _ & Hall & _).
  split.
  - intros opt Hin Hid.
    rewrite (credits_only_chosen _ opt) by done.
    destruct (flagged_correct opt); lia.
  - intros Hnone.
    assert (List.filter (credits (chosen_for answers (VDict d)))
              (options_of (VDict d)) = []) as ->; [|simpl; lia].
    apply filter_none. intros opt Hin.
    apply not_true_is_false. rewrite credits_flagged, andb_true_iff.
    intros [Heq _]. rewrite forallb_forall in Hall.
    destruct (is_QuestionOption_inv _
                (Hall opt (proj1 (list_elem_of_In _ _) Hin)))
      as (dopt & sopt & -> & Hido & _).
    apply (Hnone (VDict dopt) Hin).
    simpl in Heq |- *. rewrite Hido in *. simpl in *.
    symmetry. by apply py_eq_str_l.
Qed.

Lemma question_score_of_choice_witness :
  question_score {["q1" := VStr "b"]}
    (mk_question "q1" "?" [mk_option "a" "A" false; mk_option "b" "B" true] 3)
  = 3.
Proof.
  refine (proj1 (question_score_of_choice
                   (mk_question "q1" "?"
                      [mk_option "a" "A" false; mk_option "b" "B" true] 3)
                   {["q1" := VStr "b"]} eq_refl eq_refl)
            (mk_option "b" "B" true) _ _).
  - right. left.
  - vm_compute. reflexivity.
Defined.

(** X22.  What [calculate_score] does with a quiz whose [questions] are
    not a list of questions: a quiz that is not a mapping raises
    [AttributeError]; [questions] that is null, a boolean, a number, a date
    or an id raises [TypeError]; [questions] that is a mapping or a string
    raises [AttributeError] at its first key or character, and scores 0
    when it is empty, as the empty list does. *)
Theorem calculate_score_odd_questions (answers : gmap string value) :
  (∀ quiz, (∀ d, quiz ≠ VDict d) →
           calculate_score quiz answers = Raise AttributeError)
  ∧ (∀ d v, dict_get "questions" d = Some v →
            match v with
            | VList [] | VDict [] | VStr EmptyString =>
                calculate_score (VDict d) answers = Ok 0
            | VDict (_ :: _) | VStr (String _ _) =>
                calculate_score (VDict d) answers = Raise AttributeError
            | VList _ => True
            | VNone | VBool _ | VInt _ | VDate _ | VOid _ =>
                calculate_score (VDict d) answers = Raise TypeError
            end).
Proof.
  split.
  - intros quiz Hq. destruct quiz; try done. by destruct (Hq d).
  - intros d v Hv. unfold calculate_score, calculate_score_loop.
    simpl. rewrite Hv. simpl.
    destruct v as [| | |s|l|kvs| |]; try done.
    + by destruct s.
    + by destruct l.
    + by destruct kvs.
Qed.

(** ** The public view of any stored document *)

Lemma status_not_http (r : result value) :
  not_http r → status_of r = 200 ∨ status_of r = 500.
Proof. destruct r as [v|[]]; simpl; auto. done. Qed.

Lemma get_quiz_by_code_steps code user db :
  get_quiz_by_code code user db
  = match quiz_by_code code db with
    | None => (Raise (HTTPException 404 "Quiz not found"), db)
    | Some doc =>
        (qs_obj ← py_get (VDict (dict_pop "_id" doc)) "questions" (VList []);
         qs ← py_iter qs_obj;
         qs' ← mapM strip_question qs;
         Ok match qs_obj with
            | VList _ =>
                if dict_has "questions" (dict_pop "_id" doc)
                then VDict (dict_set "questions" (VList qs')
                              (dict_pop "_id" doc))
                else VDict (dict_pop "_id" doc)
            | _ => VDict (dict_pop "_id" doc)
            end, db)
    end.
Proof.
  unfold get_quiz_by_code, find_one, quiz_by_code. mred.
  destruct (List.find _ (coll db "quiz")) as [doc|] eqn:Hf; [|done].
  cbn [foldr].
  apply find_some in Hf as [_ Hm]. apply matches_code in Hm.
  rewrite <- (dict_get_pop_ne "code" "_id") in Hm by discriminate.
  rewrite (py_truthy_dict _ _ _ Hm). cbn [negb py_get].
  destruct (py_iter _) as [qs|]; [|done].
  destruct (mapM strip_question qs) as [qs'|]; [|done].
  by destruct (default (VList []) _).
Qed.

(** X23.  [get_quiz_by_code] answers 404 exactly when no stored quiz has
    the code, and it never writes.  Whatever the stored document looks
    like, a view that is returned is the document without [_id] and with
    [isCorrect] removed from every option of every question, so that no
    option of a returned view carries the flag; a document the loops cannot
    walk ends in a server error, not in a view. *)
Theorem get_quiz_by_code_any_document (code : string) (user : option value)
  (db : database) :
  snd (get_quiz_by_code code user db) = db
  ∧ (status_of (fst (get_quiz_by_code code user db)) = 404
     ↔ quiz_by_code code db = None)
  ∧ (∀ view,
       fst (get_quiz_by_code code user db) = Ok view →
       hides_correctness view = true
       ∧ ∃ doc, quiz_by_code code db = Some doc
                ∧ view = ToPublicView (VDict (dict_pop "_id" doc)))
  ∧ (∀ doc, quiz_by_code code db = Some doc →
            status_of (fst (get_quiz_by_code code user db)) = 200
            ∨ status_of (fst (get_quiz_by_code code user db)) = 500).
Proof.
  split; [apply readonly_get_quiz_by_code|].
  assert (∀ doc, quiz_by_code code db = Some doc →
                 status_of (fst (get_quiz_by_code code user db)) = 200
                 ∨ status_of (fst (get_quiz_by_code code user db)) = 500)
    as Hstatus.
  { intros doc Hdoc. rewrite get_quiz_by_code_steps, Hdoc. cbn [fst].
    apply status_not_http.
    pose proof not_http_strip_question. pose proof @not_http_mapM.
    not_http_steps. }
  split; [|split; [|exact Hstatus]].
  - destruct (quiz_by_code code db) as [doc|] eqn:Hdoc.
    + split; [|done]. destruct (Hstatus doc eq_refl) as [-> | ->]; done.
    + by rewrite get_quiz_by_code_steps, Hdoc.
  - intros view Hview.
    destruct (get_quiz_by_code code user db) as [r db'] eqn:Hget.
    destruct (get_quiz_by_code_sound _ _ _ _ _ Hget) as [_ Hsound].
    destruct (Hsound view Hview) as (doc & Hdoc & ->).
    split; [apply ToPublicView_hides|]. by exists doc.
Qed.

(** ** What no request does *)

Lemma extends_refl db : extends db db.
Proof.
  split; [done|]. split; exists []; by rewrite app_nil_r.
Qed.

Lemma extends_trans db1 db2 db3 :
  extends db1 db2 → extends db2 db3 → extends db1 db3.
Proof.
  intros (Hu & [q Hq] & [a Ha]) (Hu' & [q' Hq'] & [a' Ha']).
  split; [congruence|]. split.
  - exists (q ++ q'). by rewrite Hq', Hq, app_assoc.
  - exists (a ++ a'). by rewrite Ha', Ha, app_assoc.
Qed.

Lemma grows_bind {A B : Type} (m : M A) (f : A → M B) :
  grows m → (∀ a, grows (f a)) → grows (m ≫= f).
Proof.
  intros Hm Hf db. unfold mbind, M_bind.
  specialize (Hm db). destruct (m db) as [[a|e] db1]; simpl in Hm.
  - eapply extends_trans; [exact Hm|apply Hf].
  - exact Hm.
Qed.

Lemma grows_readonly {A : Type} (m : M A) : readonly m → grows m.
Proof. intros Hm db. rewrite Hm. apply extends_refl. Qed.

Lemma grows_insert_quiz doc : grows (insert_one "quiz" doc).
Proof.
  intros db. destruct (insert_one_persisted "quiz" doc db) as [Happ Hoth].
  split; [by apply Hoth|]. split.
  - eexists. exact Happ.
  - exists []. rewrite app_nil_r. by rewrite Hoth.
Qed.

Lemma grows_insert_attempt doc : grows (insert_one "attempt" doc).
Proof.
  intros db. destruct (insert_one_persisted "attempt" doc db) as [Happ Hoth].
  split; [by apply Hoth|]. split.
  - exists []. rewrite app_nil_r. by apply Hoth.
  - eexists. rewrite Happ, map_app. reflexivity.
Qed.

Lemma grows_update_attempt filter upd :
  (∀ doc doc', upd doc = Ok doc' → identity doc' = identity doc) →
  grows (update_one "attempt" filter upd).
Proof.
  intros Hupd db. unfold update_one.
  destruct (List.find (matches filter) (coll db "attempt")) as [doc|] eqn:Hf.
  - destruct (find_some_split _ _ _ Hf) as (pre & post & Hl & Hm & Hpre).
    rewrite Hl, update_first_split by done.
    destruct (upd doc) as [doc'|e] eqn:Hdoc; [|apply extends_refl]. simpl.
    split; [by apply coll_set_coll_ne|]. split.
    + exists []. rewrite app_nil_r. by apply coll_set_coll_ne.
    + exists []. rewrite app_nil_r, coll_set_coll_eq, Hl, !map_app. simpl.
      by rewrite (Hupd _ _ Hdoc).
  - rewrite update_first_none by done. apply extends_refl.
Qed.

Lemma mongo_set_keeps fields k doc doc' :
  (∀ kv, kv ∈ fields → fst kv ≠ k) →
  mongo_set fields doc = Ok doc' → dict_get k doc' = dict_get k doc.
Proof.
  intros Hk [= <-]. revert doc.
  induction fields as [|[k' v] fields IH]; intros doc; [done|]. simpl.
  rewrite IH.
  - apply dict_get_set_ne. intros Heq. by apply (Hk (k', v)); [left|].
  - intros kv Hin. apply Hk. by right.
Qed.

Lemma mongo_push_keeps k' k v doc doc' :
  k ≠ k' →
  mongo_push k' v doc = Ok doc' → dict_get k doc' = dict_get k doc.
Proof.
  intros Hk. unfold mongo_push.
  destruct (dict_get k' doc) as [[]|]; try discriminate;
    intros [= <-]; by apply dict_get_set_ne.
Qed.

Lemma identity_eq doc doc' :
  (∀ k, k ∈ ["_id"; "quizId"; "studentId"; "startTime"] →
        dict_get k doc' = dict_get k doc) →
  identity doc' = identity doc.
Proof.
  intros H. unfold identity.
  rewrite !H by (repeat first [by left|right]). reflexivity.
Qed.

Ltac keeps_identity :=
  lazymatch goal with
  | |- ∀ doc doc', mongo_set _ doc = Ok doc' → _ =>
      intros ? ? Hset; apply identity_eq; intros k Hk;
      eapply mongo_set_keeps; [|exact Hset];
      intros kv Hin;
      repeat (apply elem_of_cons in Hk as [->|Hk];
              [repeat (apply elem_of_cons in Hin as [->|Hin]; [discriminate|]);
               by apply elem_of_nil in Hin|]);
      by apply elem_of_nil in Hk
  | |- ∀ doc doc', mongo_push _ _ doc = Ok doc' → _ =>
      intros ? ? Hpush; apply identity_eq; intros k Hk;
      eapply mongo_push_keeps; [|exact Hpush];
      repeat (apply elem_of_cons in Hk as [->|Hk]; [discriminate|]);
      by apply elem_of_nil in Hk
  end.

Ltac grows_steps :=
  repeat
    lazymatch goal with
    | |- grows (mbind _ _) => apply grows_bind; [|intros ?]
    | |- grows (insert_one "quiz" _) => apply grows_insert_quiz
    | |- grows (insert_one "attempt" _) => apply grows_insert_attempt
    | |- grows (update_one "attempt" _ _) =>
        apply grows_update_attempt; keeps_identity
    | |- grows (if ?c then _ else _) => destruct c
    | |- grows (match ?x with _ => _ end) => destruct x
    | |- grows _ => apply grows_readonly; solve [readonly_steps]
    end.

(** X24.  No request removes, reorders or rewrites what identifies the
    stored data: after any request the users are unchanged, every quiz
    that was stored is still stored, unchanged and in its place (quizzes
    are only added, at the end), and every attempt that was stored is
    still in its place with the [_id], [quizId], [studentId] and
    [startTime] it had (attempts are only added at the end, and an update
    touches none of these fields). *)
Theorem requests_only_extend (jwt_decode : string → option dict)
  (authorization : option string) (clock : nat → Z) (rnd : nat → nat)
  (r : request) (db : database) :
  extends db (snd (app jwt_decode authorization clock rnd r db)).
Proof.
  revert db. change (grows (app jwt_decode authorization clock rnd r)).
  destruct r; cbn [app];
    unfold create_quiz, get_quiz_by_code, start_attempt, submit_attempt,
      log_event, dashboard_stats;
    cbv zeta; grows_steps.
Qed.
